(** * EduChain credential protocol: a shallow embedding and its properties

    The development follows the repository's credential subsystem:

    - [Ledger]: the Solidity contract [EducationCredentialNFT]
      (smart-contracts/contracts/EducationNFT.sol) on top of the
      OpenZeppelin 4.x [ERC721Upgradeable], [AccessControlUpgradeable] and
      [PausableUpgradeable] bases it inherits from;
    - [JS]: the fragment of JavaScript the backend code relies on;
    - [Adapter]: the class [BlockchainService], which the controller
      requires as services/blockchainService (its text follows
      [SecurityManager] in backend/src/services/securityManager.js);
    - [Controller]: the Express handlers [mintCertificate],
      [claimCertificate], [getCertificate] and [verifyCertificate], which
      the routes require as controllers/certificateController (their text
      follows the course handlers in
      backend/src/controllers/courseController.js);
    - [Sample]: concrete data for the runs at the end.

    Definitions come first, theorems afterwards. *)

From Stdlib Require Import ZArith NArith String Ascii List Lia DecimalString.
From stdpp Require Import base option gmap strings list sets.

Local Open Scope string_scope.
Local Open Scope N_scope.

(* ===================================================================== *)
(** * Part I: definitions *)
(* ===================================================================== *)

(* --------------------------------------------------------------------- *)
(** ** The credential ledger contract *)
(* --------------------------------------------------------------------- *)

Module Ledger.

(** Addresses are 160-bit numbers; [address(0)] is [0]. *)
Definition address := N.

(** [uint256] values live in [0, 2^256). *)
Definition uint256_modulus : N := 2 ^ 256.

(** The role identifiers of the contract (bytes32 constants in the source). *)
Inductive role := DEFAULT_ADMIN_ROLE | ISSUER_ROLE | VERIFIER_ROLE | UPGRADER_ROLE.

#[global] Instance role_eq_dec : EqDecision role.
Proof. solve_decision. Defined.

Definition role_to_nat (r : role) : nat :=
  match r with
  | DEFAULT_ADMIN_ROLE => 0 | ISSUER_ROLE => 1 | VERIFIER_ROLE => 2 | UPGRADER_ROLE => 3
  end%nat.

Definition role_of_nat (n : nat) : option role :=
  match n with
  | 0 => Some DEFAULT_ADMIN_ROLE | 1 => Some ISSUER_ROLE
  | 2 => Some VERIFIER_ROLE | 3 => Some UPGRADER_ROLE | _ => None
  end%nat.

#[global] Instance role_countable : Countable role.
Proof.
  apply (inj_countable role_to_nat role_of_nat). intros []; reflexivity.
Defined.

(** [struct Credential]. *)
Record Credential := {
  courseHash : string;
  studentHash : string;
  completionDate : N;
  evaluationHash : string;
  ipfsMetadata : string;
  credentialType : N;          (* uint8 *)
  isRevocable : bool;
  isSoulbound : bool;
  issuer : address;
  validUntil : N;              (* 0 = permanent *)
  zkProof : N;                 (* bytes32 *)
  isVerified : bool
}.

(** The value a storage slot holds before it is written and after [delete]. *)
Definition zero_credential : Credential := {|
  courseHash := ""; studentHash := ""; completionDate := 0; evaluationHash := "";
  ipfsMetadata := ""; credentialType := 0; isRevocable := false; isSoulbound := false;
  issuer := 0; validUntil := 0; zkProof := 0; isVerified := false |}.

(** Contract storage.  A [mapping(K => bool)] is the set of keys mapped to
    [true]; the other mappings are finite maps read with the type's zero
    value as default.  Balances and event logs are left out: no guard of
    the contract reads them. *)
Record State := {
  tokenIdCounter : N;                          (* _tokenIdCounter *)
  credentials : gmap N Credential;
  usedHashes : gset N;
  revokedCredentials : gset N;
  issuerCredentials : gmap N (list N);
  emergencyPaused : bool;
  owners : gmap N address;                     (* ERC721 _owners *)
  tokenApprovals : gmap N address;             (* ERC721 _tokenApprovals *)
  operatorApprovals : gset (address * address);(* ERC721 _operatorApprovals *)
  roles : gset (role * address);               (* AccessControl _roles *)
  paused : bool                                (* Pausable _paused *)
}.

(** The part of the execution context a call reads. [accepts to] tells
    whether [to] passes [_checkOnERC721Received]: an externally owned
    account, or a contract answering the ERC721 receiver selector. *)
Record Env := {
  msg_sender : address;
  block_timestamp : N;
  accepts : address -> bool
}.

(** A call either returns or reverts with a reason; a revert discards
    every write of the transaction. *)
Inductive result (A : Type) : Type :=
| Ok (a : A)
| Revert (reason : string).
Arguments Ok {A} a.
Arguments Revert {A} reason.

Definition M (A : Type) : Type := State -> result (A * State).

Definition ret {A} (a : A) : M A := fun s => Ok (a, s).

Definition bind {A B} (m : M A) (k : A -> M B) : M B :=
  fun s => match m s with
           | Ok (a, s') => k a s'
           | Revert r => Revert r
           end.

Definition revert {A} (reason : string) : M A := fun _ => Revert reason.

Definition require (cond : bool) (reason : string) : M unit :=
  if cond then ret tt else revert reason.

Definition gets {A} (f : State -> A) : M A := fun s => Ok (f s, s).

Definition modify (f : State -> State) : M unit := fun s => Ok (tt, f s).

(** The contract monad is an instance of stdpp's monad classes, which
    gives the [x ← m; k] and [m;; k] notations. *)
#[global] Instance M_ret : MRet M := @ret.
#[global] Instance M_bind : MBind M := fun A B k m => bind m k.

(** *** Storage accessors *)

Definition credential_at (s : State) (tokenId : N) : Credential :=
  default zero_credential (credentials s !! tokenId).

Definition is_revoked (s : State) (tokenId : N) : bool :=
  bool_decide (tokenId ∈ revokedCredentials s).

Definition hash_used (s : State) (h : N) : bool :=
  bool_decide (h ∈ usedHashes s).

Definition set_tokenIdCounter (c : N) (s : State) : State :=
  {| tokenIdCounter := c; credentials := credentials s; usedHashes := usedHashes s;
     revokedCredentials := revokedCredentials s; issuerCredentials := issuerCredentials s;
     emergencyPaused := emergencyPaused s; owners := owners s;
     tokenApprovals := tokenApprovals s; operatorApprovals := operatorApprovals s;
     roles := roles s; paused := paused s |}.

Definition set_credentials (f : gmap N Credential -> gmap N Credential) (s : State) : State :=
  {| tokenIdCounter := tokenIdCounter s; credentials := f (credentials s);
     usedHashes := usedHashes s;
     revokedCredentials := revokedCredentials s; issuerCredentials := issuerCredentials s;
     emergencyPaused := emergencyPaused s; owners := owners s;
     tokenApprovals := tokenApprovals s; operatorApprovals := operatorApprovals s;
     roles := roles s; paused := paused s |}.

Definition set_usedHashes (f : gset N -> gset N) (s : State) : State :=
  {| tokenIdCounter := tokenIdCounter s; credentials := credentials s;
     usedHashes := f (usedHashes s);
     revokedCredentials := revokedCredentials s; issuerCredentials := issuerCredentials s;
     emergencyPaused := emergencyPaused s; owners := owners s;
     tokenApprovals := tokenApprovals s; operatorApprovals := operatorApprovals s;
     roles := roles s; paused := paused s |}.

Definition set_revokedCredentials (f : gset N -> gset N) (s : State) : State :=
  {| tokenIdCounter := tokenIdCounter s; credentials := credentials s;
     usedHashes := usedHashes s;
     revokedCredentials := f (revokedCredentials s); issuerCredentials := issuerCredentials s;
     emergencyPaused := emergencyPaused s; owners := owners s;
     tokenApprovals := tokenApprovals s; operatorApprovals := operatorApprovals s;
     roles := roles s; paused := paused s |}.

Definition set_issuerCredentials (f : gmap N (list N) -> gmap N (list N)) (s : State) : State :=
  {| tokenIdCounter := tokenIdCounter s; credentials := credentials s;
     usedHashes := usedHashes s;
     revokedCredentials := revokedCredentials s; issuerCredentials := f (issuerCredentials s);
     emergencyPaused := emergencyPaused s; owners := owners s;
     tokenApprovals := tokenApprovals s; operatorApprovals := operatorApprovals s;
     roles := roles s; paused := paused s |}.

Definition set_emergencyPaused (b : bool) (s : State) : State :=
  {| tokenIdCounter := tokenIdCounter s; credentials := credentials s;
     usedHashes := usedHashes s;
     revokedCredentials := revokedCredentials s; issuerCredentials := issuerCredentials s;
     emergencyPaused := b; owners := owners s;
     tokenApprovals := tokenApprovals s; operatorApprovals := operatorApprovals s;
     roles := roles s; paused := paused s |}.

Definition set_owners (f : gmap N address -> gmap N address) (s : State) : State :=
  {| tokenIdCounter := tokenIdCounter s; credentials := credentials s;
     usedHashes := usedHashes s;
     revokedCredentials := revokedCredentials s; issuerCredentials := issuerCredentials s;
     emergencyPaused := emergencyPaused s; owners := f (owners s);
     tokenApprovals := tokenApprovals s; operatorApprovals := operatorApprovals s;
     roles := roles s; paused := paused s |}.

Definition set_tokenApprovals (f : gmap N address -> gmap N address) (s : State) : State :=
  {| tokenIdCounter := tokenIdCounter s; credentials := credentials s;
     usedHashes := usedHashes s;
     revokedCredentials := revokedCredentials s; issuerCredentials := issuerCredentials s;
     emergencyPaused := emergencyPaused s; owners := owners s;
     tokenApprovals := f (tokenApprovals s); operatorApprovals := operatorApprovals s;
     roles := roles s; paused := paused s |}.

Definition set_operatorApprovals
    (f : gset (address * address) -> gset (address * address)) (s : State) : State :=
  {| tokenIdCounter := tokenIdCounter s; credentials := credentials s;
     usedHashes := usedHashes s;
     revokedCredentials := revokedCredentials s; issuerCredentials := issuerCredentials s;
     emergencyPaused := emergencyPaused s; owners := owners s;
     tokenApprovals := tokenApprovals s; operatorApprovals := f (operatorApprovals s);
     roles := roles s; paused := paused s |}.

Definition set_roles (f : gset (role * address) -> gset (role * address)) (s : State) : State :=
  {| tokenIdCounter := tokenIdCounter s; credentials := credentials s;
     usedHashes := usedHashes s;
     revokedCredentials := revokedCredentials s; issuerCredentials := issuerCredentials s;
     emergencyPaused := emergencyPaused s; owners := owners s;
     tokenApprovals := tokenApprovals s; operatorApprovals := operatorApprovals s;
     roles := f (roles s); paused := paused s |}.

(** *** Inherited behaviour: AccessControl, Pausable, ERC721 *)

Definition hasRole (r : role) (account : address) (s : State) : bool :=
  bool_decide ((r, account) ∈ roles s).

(** [modifier onlyRole(role)]: [_checkRole(role, msg.sender)].  The revert
    string of the library spells out account and role; the model keeps its
    fixed prefix. *)
Definition onlyRole (e : Env) (r : role) : M unit :=
  b ← gets (hasRole r (msg_sender e));
  require b "AccessControl: account is missing role".

(** [modifier whenNotPaused]. *)
Definition whenNotPaused : M unit :=
  p ← gets paused;
  require (negb p) "Pausable: paused".

Definition _ownerOf (s : State) (tokenId : N) : address :=
  default 0 (owners s !! tokenId).

Definition _exists (s : State) (tokenId : N) : bool :=
  negb (_ownerOf s tokenId =? 0).

Definition ownerOf (tokenId : N) : M address :=
  owner ← gets (fun s => _ownerOf s tokenId);
  require (negb (owner =? 0)) "ERC721: invalid token ID";;
  mret owner.

Definition getApproved (tokenId : N) : M address :=
  ex ← gets (fun s => _exists s tokenId);
  require ex "ERC721: invalid token ID";;
  gets (fun s => default 0 (tokenApprovals s !! tokenId)).

Definition isApprovedForAll (owner operator : address) (s : State) : bool :=
  bool_decide ((owner, operator) ∈ operatorApprovals s).

Definition _isApprovedOrOwner (spender : address) (tokenId : N) : M bool :=
  owner ← ownerOf tokenId;
  forAll ← gets (isApprovedForAll owner spender);
  approved ← getApproved tokenId;
  mret ((spender =? owner) || forAll || (approved =? spender)).

(** *** The contract's own hook and the ERC721 internals that call it *)

(** [_beforeTokenTransfer(from, to, tokenId, batchSize)]; every caller
    passes [batchSize = 1], for which the inherited hook does nothing. *)
Definition _beforeTokenTransfer (e : Env) (from to : address) (tokenId : N) : M unit :=
  whenNotPaused;;
  sb ← gets (fun s => isSoulbound (credential_at s tokenId));
  require (negb sb || (from =? 0)) "Soulbound token cannot be transferred";;
  rv ← gets (fun s => is_revoked s tokenId);
  require (negb rv) "Revoked credential cannot be transferred";;
  cred ← gets (fun s => credential_at s tokenId);
  require (negb ((0 <? validUntil cred) && (validUntil cred <? block_timestamp e)))
          "Expired credential cannot be transferred";;
  mret tt.

Definition _mint (e : Env) (to : address) (tokenId : N) : M unit :=
  require (negb (to =? 0)) "ERC721: mint to the zero address";;
  ex ← gets (fun s => _exists s tokenId);
  require (negb ex) "ERC721: token already minted";;
  _beforeTokenTransfer e 0 to tokenId;;
  ex' ← gets (fun s => _exists s tokenId);
  require (negb ex') "ERC721: token already minted";;
  modify (set_owners <[tokenId := to]>).

Definition _safeMint (e : Env) (to : address) (tokenId : N) : M unit :=
  _mint e to tokenId;;
  require (accepts e to) "ERC721: transfer to non ERC721Receiver implementer".

Definition _transfer (e : Env) (from to : address) (tokenId : N) : M unit :=
  owner ← ownerOf tokenId;
  require (owner =? from) "ERC721: transfer from incorrect owner";;
  require (negb (to =? 0)) "ERC721: transfer to the zero address";;
  _beforeTokenTransfer e from to tokenId;;
  owner' ← ownerOf tokenId;
  require (owner' =? from) "ERC721: transfer from incorrect owner";;
  modify (set_tokenApprovals (delete tokenId));;
  modify (set_owners <[tokenId := to]>).

Definition _safeTransfer (e : Env) (from to : address) (tokenId : N) : M unit :=
  _transfer e from to tokenId;;
  require (accepts e to) "ERC721: transfer to non ERC721Receiver implementer".

Definition _burn (e : Env) (tokenId : N) : M unit :=
  owner ← ownerOf tokenId;
  _beforeTokenTransfer e owner 0 tokenId;;
  _ ← ownerOf tokenId;
  modify (set_tokenApprovals (delete tokenId));;
  modify (set_owners (delete tokenId)).

(** [Counters.increment] adds one unchecked; [current] reads the value. *)
Definition counter_increment : M unit :=
  modify (fun s => set_tokenIdCounter ((tokenIdCounter s + 1) mod uint256_modulus) s).

Definition counter_current : M N := gets tokenIdCounter.

(** [issuerCredentials[issuer].push(tokenId)]. *)
Definition push_issuer (iss : address) (tokenId : N) : M unit :=
  modify (set_issuerCredentials (fun m => <[iss := (default [] (m !! iss) ++ [tokenId])%list]> m)).

(** The first index of [tokenId] in an issuer list, from index [i]. *)
Fixpoint index_from (i : nat) (tokenId : N) (l : list N) : option nat :=
  match l with
  | [] => None
  | x :: l' => if x =? tokenId then Some i else index_from (S i) tokenId l'
  end.

(** The loop body of [_removeFromIssuerList]: overwrite the first
    occurrence with the last element, then pop. *)
Definition swap_remove (tokenId : N) (l : list N) : list N :=
  match index_from 0 tokenId l with
  | Some i => removelast (<[i := List.last l 0]> l)
  | None => l
  end.

Definition _removeFromIssuerList (iss : address) (tokenId : N) : M unit :=
  modify (set_issuerCredentials
            (fun m => <[iss := swap_remove tokenId (default [] (m !! iss))]> m)).

Section Contract.

(** [keccak256] over the packed encoding of two strings, which is their
    concatenation. *)
Context (keccak256 : string -> N).

Definition credentialHash_of (courseHash studentHash : string) : N :=
  keccak256 (courseHash ++ studentHash).

(** The statements shared by [mintCredential] and [_mintSingleCredential],
    from the duplicate guard on.  The struct literal of the source names
    eleven members; [isVerified] keeps its zero value. *)
Definition mint_body (e : Env) (to : address)
    (courseHash studentHash evaluationHash ipfsMetadata : string)
    (credentialType : N) (isSoulbound : bool) (validUntil : N) (zkProof : N) : M N :=
  let credentialHash := credentialHash_of courseHash studentHash in
  used ← gets (fun s => hash_used s credentialHash);
  require (negb used) "Credential already exists";;
  counter_increment;;
  tokenId ← counter_current;
  modify (set_credentials <[tokenId := {|
    courseHash := courseHash;
    studentHash := studentHash;
    completionDate := block_timestamp e;
    evaluationHash := evaluationHash;
    ipfsMetadata := ipfsMetadata;
    credentialType := credentialType;
    isRevocable := negb isSoulbound;
    isSoulbound := isSoulbound;
    issuer := msg_sender e;
    validUntil := validUntil;
    zkProof := zkProof;
    isVerified := false |}]>);;
  modify (set_usedHashes (fun u => {[credentialHash]} ∪ u));;
  push_issuer (msg_sender e) tokenId;;
  _safeMint e to tokenId;;
  mret tokenId.

Definition mintCredential (e : Env) (to : address)
    (courseHash studentHash evaluationHash ipfsMetadata : string)
    (credentialType : N) (isSoulbound : bool) (validUntil : N) (zkProof : N) : M N :=
  onlyRole e ISSUER_ROLE;;
  whenNotPaused;;
  require (negb (to =? 0)) "Cannot mint to zero address";;
  require (0 <? String.length courseHash)%nat "Course hash cannot be empty";;
  require (0 <? String.length studentHash)%nat "Student hash cannot be empty";;
  require (0 <? String.length ipfsMetadata)%nat "IPFS metadata cannot be empty";;
  require ((1 <=? credentialType) && (credentialType <=? 4)) "Invalid credential type";;
  require ((validUntil =? 0) || (block_timestamp e <? validUntil)) "Invalid expiration date";;
  mint_body e to courseHash studentHash evaluationHash ipfsMetadata
            credentialType isSoulbound validUntil zkProof.

Definition _mintSingleCredential (e : Env) (to : address)
    (courseHash studentHash evaluationHash ipfsMetadata : string)
    (credentialType : N) (isSoulbound : bool) (validUntil : N) (zkProof : N) : M unit :=
  _ ← mint_body e to courseHash studentHash evaluationHash ipfsMetadata
                credentialType isSoulbound validUntil zkProof;
  mret tt.

(** [struct BatchMintRequest]. *)
Record BatchMintRequest := {
  recipients : list address;
  courseHashes : list string;
  studentHashes : list string;
  evaluationHashes : list string;
  ipfsMetadatas : list string;
  credentialTypes : list N;
  isSoulbounds : list bool;
  validUntils : list N;
  zkProofs : list N
}.

(** Reading a memory array past its end panics. *)
Definition array_get {A} (l : list A) (i : nat) : M A :=
  match l !! i with
  | Some x => mret x
  | None => revert "Panic(0x32)"
  end.

Fixpoint batch_loop (e : Env) (request : BatchMintRequest) (indices : list nat) : M unit :=
  match indices with
  | [] => mret tt
  | i :: rest =>
      to ← array_get (recipients request) i;
      ch ← array_get (courseHashes request) i;
      sh ← array_get (studentHashes request) i;
      eh ← array_get (evaluationHashes request) i;
      im ← array_get (ipfsMetadatas request) i;
      ct ← array_get (credentialTypes request) i;
      sb ← array_get (isSoulbounds request) i;
      vu ← array_get (validUntils request) i;
      zk ← array_get (zkProofs request) i;
      _mintSingleCredential e to ch sh eh im ct sb vu zk;;
      batch_loop e request rest
  end.

Definition batchMintCredentials (e : Env) (request : BatchMintRequest) : M unit :=
  onlyRole e ISSUER_ROLE;;
  whenNotPaused;;
  require (length (recipients request) <=? 50)%nat "Batch size too large";;
  require (length (recipients request) =? length (courseHashes request))%nat
          "Array length mismatch";;
  batch_loop e request (seq 0 (length (recipients request))).

Definition revokeCredential (e : Env) (tokenId : N) (reason : string) : M unit :=
  onlyRole e ISSUER_ROLE;;
  ex ← gets (fun s => _exists s tokenId);
  require ex "Credential does not exist";;
  cred ← gets (fun s => credential_at s tokenId);
  require (isRevocable cred) "Credential is not revocable";;
  admin ← gets (hasRole DEFAULT_ADMIN_ROLE (msg_sender e));
  require ((issuer cred =? msg_sender e) || admin)
          "Not authorized to revoke this credential";;
  modify (set_revokedCredentials (fun r => {[tokenId]} ∪ r)).

Definition transferFrom (e : Env) (from to : address) (tokenId : N) : M unit :=
  sb ← gets (fun s => isSoulbound (credential_at s tokenId));
  require (negb sb) "Soulbound tokens cannot be transferred";;
  ok ← _isApprovedOrOwner (msg_sender e) tokenId;
  require ok "ERC721: caller is not token owner or approved";;
  _transfer e from to tokenId.

(** [safeTransferFrom(from, to, tokenId, data)]. *)
Definition safeTransferFrom_data (e : Env) (from to : address) (tokenId : N) : M unit :=
  sb ← gets (fun s => isSoulbound (credential_at s tokenId));
  require (negb sb) "Soulbound tokens cannot be transferred";;
  ok ← _isApprovedOrOwner (msg_sender e) tokenId;
  require ok "ERC721: caller is not token owner or approved";;
  _safeTransfer e from to tokenId.

(** [safeTransferFrom(from, to, tokenId)]: the inherited body forwards to
    the four-argument overload, which this contract overrides. *)
Definition safeTransferFrom (e : Env) (from to : address) (tokenId : N) : M unit :=
  sb ← gets (fun s => isSoulbound (credential_at s tokenId));
  require (negb sb) "Soulbound tokens cannot be transferred";;
  safeTransferFrom_data e from to tokenId.

Definition burn (e : Env) (tokenId : N) : M unit :=
  ok ← _isApprovedOrOwner (msg_sender e) tokenId;
  require ok "Caller is not owner nor approved";;
  cred ← gets (fun s => credential_at s tokenId);
  require (isRevocable cred) "Soulbound tokens cannot be burned";;
  _burn e tokenId;;
  modify (set_credentials (delete tokenId));;
  modify (set_revokedCredentials (fun r => r ∖ {[tokenId]}));;
  _removeFromIssuerList (issuer cred) tokenId.

Definition set_isVerified (b : bool) (c : Credential) : Credential :=
  {| courseHash := courseHash c; studentHash := studentHash c;
     completionDate := completionDate c; evaluationHash := evaluationHash c;
     ipfsMetadata := ipfsMetadata c; credentialType := credentialType c;
     isRevocable := isRevocable c; isSoulbound := isSoulbound c; issuer := issuer c;
     validUntil := validUntil c; zkProof := zkProof c; isVerified := b |}.

Definition setCredentialVerification (e : Env) (tokenId : N) (isValid : bool)
    (reason : string) : M unit :=
  onlyRole e VERIFIER_ROLE;;
  ex ← gets (fun s => _exists s tokenId);
  require ex "Credential does not exist";;
  modify (fun s => set_credentials <[tokenId := set_isVerified isValid (credential_at s tokenId)]> s).

Definition setEmergencyPause (e : Env) (_paused : bool) : M unit :=
  onlyRole e DEFAULT_ADMIN_ROLE;;
  modify (set_emergencyPaused _paused).

(** Inherited external functions that write state. *)
Definition approve (e : Env) (to : address) (tokenId : N) : M unit :=
  owner ← ownerOf tokenId;
  require (negb (to =? owner)) "ERC721: approval to current owner";;
  forAll ← gets (isApprovedForAll owner (msg_sender e));
  require ((msg_sender e =? owner) || forAll)
          "ERC721: approve caller is not token owner or approved for all";;
  modify (set_tokenApprovals <[tokenId := to]>).

Definition setApprovalForAll (e : Env) (operator : address) (approved : bool) : M unit :=
  require (negb (msg_sender e =? operator)) "ERC721: approve to caller";;
  modify (set_operatorApprovals
            (fun o => if approved then {[(msg_sender e, operator)]} ∪ o
                      else o ∖ {[(msg_sender e, operator)]})).

(** Every role of the contract is administered by [DEFAULT_ADMIN_ROLE]. *)
Definition grantRole (e : Env) (r : role) (account : address) : M unit :=
  onlyRole e DEFAULT_ADMIN_ROLE;;
  modify (set_roles (fun rs => {[(r, account)]} ∪ rs)).

Definition revokeRole (e : Env) (r : role) (account : address) : M unit :=
  onlyRole e DEFAULT_ADMIN_ROLE;;
  modify (set_roles (fun rs => rs ∖ {[(r, account)]})).

Definition renounceRole (e : Env) (r : role) (account : address) : M unit :=
  require (account =? msg_sender e) "AccessControl: can only renounce roles for self";;
  modify (set_roles (fun rs => rs ∖ {[(r, account)]})).

(** *** Views *)

Definition verifyCredential (e : Env) (tokenId : N) (s : State) : bool * string :=
  if negb (_exists s tokenId) then (false, "Credential does not exist")
  else if is_revoked s tokenId then (false, "Credential has been revoked")
  else
    let cred := credential_at s tokenId in
    if (0 <? validUntil cred) && (validUntil cred <? block_timestamp e)
    then (false, "Credential has expired")
    else (true, "Credential is valid").

Definition getCredential (tokenId : N) : M Credential :=
  ex ← gets (fun s => _exists s tokenId);
  require ex "Credential does not exist";;
  gets (fun s => credential_at s tokenId).

Definition isCredentialExpired (e : Env) (tokenId : N) (s : State) : bool :=
  if negb (_exists s tokenId) then true
  else
    let cred := credential_at s tokenId in
    (0 <? validUntil cred) && (validUntil cred <? block_timestamp e).

Definition totalSupply (s : State) : N := tokenIdCounter s.

(** *** Transactions *)

(** The external entry points that write the modelled storage.  Left
    out: [initialize] (see [initial_state]), the proxy upgrade and the
    [Ownable] transfer functions, which no guard of these entry points
    reads.  [nonReentrant] has no effect here: a call into a recipient
    contract is modelled by its answer, [accepts]. *)
Inductive Call :=
| MintCredential (to : address) (courseHash studentHash evaluationHash ipfsMetadata : string)
                 (credentialType : N) (isSoulbound : bool) (validUntil : N) (zkProof : N)
| BatchMintCredentials (request : BatchMintRequest)
| RevokeCredential (tokenId : N) (reason : string)
| TransferFrom (from to : address) (tokenId : N)
| SafeTransferFrom (from to : address) (tokenId : N)
| SafeTransferFromData (from to : address) (tokenId : N)
| Burn (tokenId : N)
| SetCredentialVerification (tokenId : N) (isValid : bool) (reason : string)
| SetEmergencyPause (_paused : bool)
| Approve (to : address) (tokenId : N)
| SetApprovalForAll (operator : address) (approved : bool)
| GrantRole (r : role) (account : address)
| RevokeRole (r : role) (account : address)
| RenounceRole (r : role) (account : address).

(** What a transaction returns: the new token id for [mintCredential]. *)
Definition exec (e : Env) (c : Call) : M (option N) :=
  match c with
  | MintCredential to ch sh eh im ct sb vu zk =>
      tokenId ← mintCredential e to ch sh eh im ct sb vu zk; mret (Some tokenId)
  | BatchMintCredentials request => batchMintCredentials e request;; mret None
  | RevokeCredential tokenId reason => revokeCredential e tokenId reason;; mret None
  | TransferFrom from to tokenId => transferFrom e from to tokenId;; mret None
  | SafeTransferFrom from to tokenId => safeTransferFrom e from to tokenId;; mret None
  | SafeTransferFromData from to tokenId => safeTransferFrom_data e from to tokenId;; mret None
  | Burn tokenId => burn e tokenId;; mret None
  | SetCredentialVerification tokenId isValid reason =>
      setCredentialVerification e tokenId isValid reason;; mret None
  | SetEmergencyPause p => setEmergencyPause e p;; mret None
  | Approve to tokenId => approve e to tokenId;; mret None
  | SetApprovalForAll operator approved => setApprovalForAll e operator approved;; mret None
  | GrantRole r account => grantRole e r account;; mret None
  | RevokeRole r account => revokeRole e r account;; mret None
  | RenounceRole r account => renounceRole e r account;; mret None
  end.

(** The outcome of a transaction as the chain records it. *)
Inductive outcome :=
| Success (returned : option N)
| Reverted (reason : string).

(** A transaction that reverts leaves the storage as it was. *)
Definition apply_call (e : Env) (c : Call) (s : State) : State * outcome :=
  match exec e c s with
  | Ok (r, s') => (s', Success r)
  | Revert reason => (s, Reverted reason)
  end.

(** A run of transactions, each in its own context. *)
Fixpoint run (txs : list (Env * Call)) (s : State) : State :=
  match txs with
  | [] => s
  | (e, c) :: rest => run rest (fst (apply_call e c s))
  end.

End Contract.

(** The storage after [initialize()] called by [deployer]. *)
Definition initial_state (deployer : address) : State := {|
  tokenIdCounter := 0;
  credentials := ∅;
  usedHashes := ∅;
  revokedCredentials := ∅;
  issuerCredentials := ∅;
  emergencyPaused := false;
  owners := ∅;
  tokenApprovals := ∅;
  operatorApprovals := ∅;
  roles := {[(DEFAULT_ADMIN_ROLE, deployer); (ISSUER_ROLE, deployer);
             (VERIFIER_ROLE, deployer); (UPGRADER_ROLE, deployer)]};
  paused := false |}.

(** *** Vocabulary of the properties *)

(** The calls that mint. *)
Definition is_mint (c : Call) : bool :=
  match c with
  | MintCredential _ _ _ _ _ _ _ _ _ | BatchMintCredentials _ => true
  | _ => false
  end.

Section Vocabulary.
Context (keccak256 : string -> N).

(** The registry key of a credential record. *)
Definition commitment_of (c : Credential) : N :=
  credentialHash_of keccak256 (courseHash c) (studentHash c).

(** What holds in every state reached from deployment: the contract is
    never paused (no entry point sets [_paused]), only existing tokens are
    revoked, the commitment of every existing token is registered, and a
    soulbound record is not revocable. *)
Definition ledger_inv (s : State) : Prop :=
  paused s = false ∧
  (∀ id, is_revoked s id = true → _exists s id = true) ∧
  (∀ id, _exists s id = true → hash_used s (commitment_of (credential_at s id)) = true) ∧
  (∀ id, isSoulbound (credential_at s id) = true → isRevocable (credential_at s id) = false).

(** What one successful primitive step does to one token. *)
Inductive token_effect (s s' : State) (id : N) : Prop :=
| te_kept :
    _ownerOf s' id = _ownerOf s id ->
    is_revoked s' id = is_revoked s id ->
    set_isVerified false (credential_at s' id) = set_isVerified false (credential_at s id) ->
    token_effect s s' id
| te_revoked :
    _exists s id = true ->
    _ownerOf s' id = _ownerOf s id ->
    isRevocable (credential_at s id) = true ->
    credential_at s' id = credential_at s id ->
    is_revoked s' id = true ->
    token_effect s s' id
| te_moved :
    _exists s id = true ->
    _exists s' id = true ->
    isSoulbound (credential_at s id) = false ->
    is_revoked s id = false ->
    is_revoked s' id = false ->
    credential_at s' id = credential_at s id ->
    token_effect s s' id
| te_burned :
    _exists s id = true ->
    isRevocable (credential_at s id) = true ->
    _exists s' id = false ->
    credential_at s' id = zero_credential ->
    is_revoked s' id = false ->
    token_effect s s' id
| te_minted :
    _exists s id = false ->
    id = tokenIdCounter s' ->
    tokenIdCounter s' = (tokenIdCounter s + 1) mod uint256_modulus ->
    _exists s' id = true ->
    isRevocable (credential_at s' id) = negb (isSoulbound (credential_at s' id)) ->
    is_revoked s' id = false ->
    hash_used s' (commitment_of (credential_at s' id)) = true ->
    token_effect s s' id.

(** What one successful primitive step does to the storage. *)
Record effect (s s' : State) : Prop := {
  eff_tokens : ∀ id, token_effect s s' id;
  eff_hashes : usedHashes s ⊆ usedHashes s';
  eff_paused : paused s' = paused s;
  eff_counter : tokenIdCounter s' = tokenIdCounter s ∨
                tokenIdCounter s' = (tokenIdCounter s + 1) mod uint256_modulus
}.

(** The number of credentials a transaction asks to mint. *)
Definition mint_requests (c : Call) : N :=
  match c with
  | MintCredential _ _ _ _ _ _ _ _ _ => 1
  | BatchMintCredentials request => N.of_nat (length (recipients request))
  | _ => 0
  end.

(** The same for a run of transactions. *)
Fixpoint mint_requests_run (txs : list (Env * Call)) : N :=
  match txs with
  | [] => 0
  | (_, c) :: rest => mint_requests c + mint_requests_run rest
  end.

(** Token ids are the counter values [1 .. tokenIdCounter], as long as
    the counter has [budget] increments left before it wraps. *)
Definition counter_inv (budget : N) (s : State) : Prop :=
  tokenIdCounter s + budget < uint256_modulus ∧
  ∀ id, _exists s id = true → 1 <= id <= tokenIdCounter s.


(** A soulbound token held by [o]. *)
Definition soulbound_held (t : N) (o : address) (s : State) : Prop :=
  _ownerOf s t = o ∧ _exists s t = true ∧
  isSoulbound (credential_at s t) = true ∧ isRevocable (credential_at s t) = false.

(** The guards of [mintCredential] that precede the duplicate check. *)
Definition issuance_inputs_valid (e : Env) (to : address) (ch sh im : string)
    (ct vu : N) (s : State) : bool :=
  hasRole ISSUER_ROLE (msg_sender e) s && negb (paused s) && negb (to =? 0) &&
  (0 <? String.length ch)%nat && (0 <? String.length sh)%nat && (0 <? String.length im)%nat &&
  ((1 <=? ct) && (ct <=? 4)) && ((vu =? 0) || (block_timestamp e <? vu)).

(** The caller test of [burn] and of the transfer entry points. *)
Definition approved_or_owner (spender : address) (tokenId : N) (s : State) : bool :=
  (spender =? _ownerOf s tokenId) || isApprovedForAll (_ownerOf s tokenId) spender s ||
  (default 0 (tokenApprovals s !! tokenId) =? spender).

(** The storage [burn] leaves behind when it succeeds. *)
Definition burn_post (tokenId : N) (s : State) : State :=
  set_issuerCredentials
    (fun m => <[issuer (credential_at s tokenId) :=
                  swap_remove tokenId (default [] (m !! issuer (credential_at s tokenId)))]> m)
    (set_revokedCredentials (fun r => r ∖ {[tokenId]})
       (set_credentials (delete tokenId)
          (set_owners (delete tokenId) (set_tokenApprovals (delete tokenId) s)))).

End Vocabulary.

(** *** Further views *)

(** [isPaused()]. *)
Definition isPaused (s : State) : bool := emergencyPaused s || paused s.

(** [tokenURI(tokenId)]. *)
Definition tokenURI (tokenId : N) : M string :=
  ex ← gets (fun s => _exists s tokenId);
  require ex "URI query for nonexistent token";;
  cred ← gets (fun s => credential_at s tokenId);
  require (0 <? String.length (ipfsMetadata cred))%nat "IPFS metadata not set";;
  mret ("https://ipfs.io/ipfs/" ++ ipfsMetadata cred).

(** [getIssuerCredentials(issuer)]. *)
Definition getIssuerCredentials (iss : address) (s : State) : list N :=
  default [] (issuerCredentials s !! iss).

(** The values of [i] in [for (uint256 i = 1; i <= total; i++)]. *)
Definition token_ids (total : N) : list N := N.of_nat <$> seq 1 (N.to_nat total).

(** [getCertificatesByOwner(owner)].  The first loop collects the ids,
    the second copies them; [new uint256[](totalTokens)] panics on a
    length above [2^64 - 1]. *)
Definition getCertificatesByOwner (owner : address) (s : State) : result (list N) :=
  let totalTokens := totalSupply s in
  if 2 ^ 64 <=? totalTokens then Revert "Panic(0x41)"
  else Ok (List.filter (fun i => _exists s i && (_ownerOf s i =? owner))
                       (token_ids totalTokens)).

(** *** Vocabulary of the further properties *)

(** Every issuer list holds, once each, the live tokens its address
    issued. *)
Definition issuer_lists_inv (s : State) : Prop :=
  ∀ iss, NoDup (getIssuerCredentials iss s) ∧
         ∀ id, id ∈ getIssuerCredentials iss s ↔
               _exists s id = true ∧ issuer (credential_at s id) = iss.

(** A revoked token held by [o]. *)
Definition revoked_held (t : N) (o : address) (s : State) : Prop :=
  _ownerOf s t = o ∧ _exists s t = true ∧ is_revoked s t = true.

(** A request for one credential. *)
Definition single_request (to : address) (ch sh eh im : string) (ct : N) (sb : bool)
    (vu zk : N) : BatchMintRequest :=
  {| recipients := [to]; courseHashes := [ch]; studentHashes := [sh];
     evaluationHashes := [eh]; ipfsMetadatas := [im]; credentialTypes := [ct];
     isSoulbounds := [sb]; validUntils := [vu]; zkProofs := [zk] |}.

Section FurtherVocabulary.
Context (keccak256 : string -> N).

(** The storage a mint leaves behind when it succeeds. *)
Definition mint_post (e : Env) (to : address) (ch sh eh im : string) (ct : N) (sb : bool)
    (vu zk : N) (s : State) : State :=
  let tokenId := (tokenIdCounter s + 1) mod uint256_modulus in
  set_owners <[tokenId := to]>
    (set_issuerCredentials
       (fun m => <[msg_sender e := (default [] (m !! msg_sender e) ++ [tokenId])%list]> m)
       (set_usedHashes (fun u => {[credentialHash_of keccak256 ch sh]} ∪ u)
          (set_credentials <[tokenId := {|
             courseHash := ch; studentHash := sh; completionDate := block_timestamp e;
             evaluationHash := eh; ipfsMetadata := im; credentialType := ct;
             isRevocable := negb sb; isSoulbound := sb; issuer := msg_sender e;
             validUntil := vu; zkProof := zk; isVerified := false |}]>
             (set_tokenIdCounter tokenId s)))).

(** The guards a mint passes after the entry point's own checks. *)
Definition mint_guards (e : Env) (to : address) (ch sh : string) (vu : N) (s : State) : bool :=
  let tokenId := (tokenIdCounter s + 1) mod uint256_modulus in
  negb (hash_used s (credentialHash_of keccak256 ch sh)) &&
  negb (to =? 0) && negb (_exists s tokenId) && negb (paused s) &&
  negb (is_revoked s tokenId) && negb ((0 <? vu) && (vu <? block_timestamp e)) &&
  accepts e to.

End FurtherVocabulary.

(** The storage a transfer leaves behind when it succeeds. *)
Definition transfer_post (to : address) (tokenId : N) (s : State) : State :=
  set_owners <[tokenId := to]> (set_tokenApprovals (delete tokenId) s).

(** The transfer entry points. *)
Definition is_transfer (c : Call) (from to : address) (tokenId : N) : Prop :=
  c = TransferFrom from to tokenId ∨ c = SafeTransferFrom from to tokenId ∨
  c = SafeTransferFromData from to tokenId.

(** A token held by [o] whose validity ended before the time [since]. *)
Definition expired_held (t : N) (o : address) (since : N) (s : State) : Prop :=
  _ownerOf s t = o ∧ _exists s t = true ∧
  0 < validUntil (credential_at s t) < since.

(** [getCredentialStats()].  The loop counter is a checked [uint256]:
    incrementing it past the last token id [2^256 - 1] panics. *)
Definition getCredentialStats (e : Env) (s : State) : result (N * N * N * N) :=
  let total := tokenIdCounter s in
  if total =? uint256_modulus - 1 then Revert "Panic(0x11)"
  else
    let live := List.filter (_exists s) (token_ids total) in
    Ok (total,
        N.of_nat (length (List.filter (is_revoked s) live)),
        N.of_nat (length (List.filter (fun i => isSoulbound (credential_at s i)) live)),
        N.of_nat (length (List.filter (fun i => isCredentialExpired e i s) live))).

End Ledger.

(* --------------------------------------------------------------------- *)
(** ** The JavaScript fragment the backend uses *)
(* --------------------------------------------------------------------- *)

Module JS.

Inductive error :=
| TypeError (msg : string)
| ReferenceError (msg : string)
| Error (msg : string).

(** [error.message]. *)
Definition message (e : error) : string :=
  match e with
  | TypeError m | ReferenceError m | Error m => m
  end.

(** How the evaluation of an expression or a block ends. *)
Inductive completion (A : Type) : Type :=
| Normal (a : A)
| Throw (e : error).
Arguments Normal {A} a.
Arguments Throw {A} e.

#[global] Instance completion_ret : MRet completion := @Normal.
#[global] Instance completion_bind : MBind completion :=
  fun A B k m => match m with
                 | Normal a => k a
                 | Throw e => Throw e
                 end.

(** [try { body } catch (error) { handler }]. *)
Definition try_catch {A} (body : completion A) (handler : error -> completion A)
  : completion A :=
  match body with
  | Normal a => Normal a
  | Throw e => handler e
  end.

(** The primitive values that reach the modelled code. Numbers are the
    non-negative integers the code handles (scores, types, timestamps). *)
Inductive value :=
| Undefined
| Null
| Bool (b : bool)
| Num (n : N)
| Str (s : string).

Definition truthy (v : value) : bool :=
  match v with
  | Undefined | Null => false
  | Bool b => b
  | Num n => negb (n =? 0)
  | Str s => negb (String.eqb s "")
  end.

(** [a || b]. *)
Definition or (a b : value) : value := if truthy a then a else b.

Definition of_option (o : option string) : value :=
  match o with
  | Some s => Str s
  | None => Undefined
  end.

Definition decimal (n : N) : string := NilZero.string_of_uint (N.to_uint n).

(** [String(v)]. *)
Definition to_String (v : value) : string :=
  match v with
  | Undefined => "undefined"
  | Null => "null"
  | Bool true => "true"
  | Bool false => "false"
  | Num n => decimal n
  | Str s => s
  end.

Definition lower_ascii (a : ascii) : ascii :=
  let n := N_of_ascii a in
  if (65 <=? n) && (n <=? 90) then ascii_of_N (n + 32) else a.

(** Lower-casing of the ASCII letters, which is all that the hexadecimal
    addresses compared here hold. *)
Fixpoint lower (s : string) : string :=
  match s with
  | EmptyString => EmptyString
  | String a s' => String (lower_ascii a) (lower s')
  end.

(** [v.toLowerCase()] for a receiver that is a string or [undefined]. *)
Definition toLowerCase (v : option string) : completion string :=
  match v with
  | Some s => Normal (lower s)
  | None => Throw (TypeError "Cannot read properties of undefined (reading 'toLowerCase')")
  end.

(** The text an array element contributes to [join]. *)
Definition join_item (v : value) : string :=
  match v with
  | Undefined | Null => ""
  | _ => to_String v
  end.

(** [Array.prototype.join(sep)]. *)
Fixpoint join (sep : string) (items : list value) : string :=
  match items with
  | [] => ""
  | [v] => join_item v
  | v :: rest => join_item v ++ sep ++ join sep rest
  end.

(** Identifier resolution: a name that no enclosing scope binds throws. *)
Definition resolve (scope : list string) (name : string) : completion unit :=
  if bool_decide (name ∈ scope) then Normal tt
  else Throw (ReferenceError (name ++ " is not defined")).

End JS.

(* --------------------------------------------------------------------- *)
(** ** The ledger adapter: class [BlockchainService] *)
(* --------------------------------------------------------------------- *)

Module Adapter.

(** Arguments of the contract method [mintCredential], as the adapter
    passes them. *)
Record MintArgs := {
  arg_to : JS.value;
  arg_courseHash : string;
  arg_studentHash : string;
  arg_evaluationHash : string;
  arg_ipfsMetadata : JS.value;
  arg_credentialType : JS.value;
  arg_isSoulbound : JS.value;
  arg_validUntil : JS.value;
  arg_zkProof : string
}.

(** A state-changing contract method with its arguments. *)
Inductive contract_call :=
| MintCredentialCall (args : MintArgs)
| TransferFromCall (from to tokenId : JS.value).

(** What the adapter does on the wire, in order. *)
Inductive rpc_event :=
| EstimateGas (call : contract_call)
| SendTransaction (call : contract_call) (gasLimit : option N)
| WaitForReceipt (txHash : string).

(** A gas estimate as the client library hands it over.  ethers v6, whose
    interface the adapter uses ([ethers.JsonRpcProvider],
    [contract.method.estimateGas], [receipt.hash]), resolves with a bigint;
    a client that resolves with a Number is the other alternative.  A
    Number is given by its value, a non-negative integer that a double
    holds exactly. *)
Inductive gas_value :=
| GasNumber (n : N)
| GasBigInt (n : N).

(** A log entry of a receipt as [interface.parseLog] sees it: the event
    name when the entry parses, and its [tokenId] argument. *)
Record ReceiptLog := {
  parsed_name : option string;
  log_tokenId : N
}.

Record Receipt := {
  receipt_hash : string;
  receipt_blockNumber : N;
  receipt_gasUsed : N;
  receipt_logs : list ReceiptLog
}.

(** The answers of the node and of the metadata store: what the awaited
    promises resolve or reject with. *)
Record Node := {
  estimateGas : contract_call -> JS.completion gas_value;
  sendTransaction : contract_call -> option N -> JS.completion string;
  wait : string -> JS.completion Receipt;
  call_ownerOf : JS.value -> JS.completion string;
  call_verifyCertificate : JS.value -> JS.completion bool;
  uploadMetadata : JS.completion string
}.

(** The fields of the service object the methods read. *)
Record Service := {
  contract : bool;     (* this.contract is set *)
  signer : bool;       (* this.signer is set *)
  node : Node
}.

(** Adapter methods run against the wire log; a thrown error leaves the
    log as it is. *)
Definition Act (A : Type) : Type := list rpc_event -> JS.completion A * list rpc_event.

#[global] Instance Act_ret : MRet Act := fun A a log => (JS.Normal a, log).
#[global] Instance Act_bind : MBind Act :=
  fun A B k m log =>
    match m log with
    | (JS.Normal a, log') => k a log'
    | (JS.Throw e, log') => (JS.Throw e, log')
    end.

Definition throw {A} (e : JS.error) : Act A := fun log => (JS.Throw e, log).

Definition emit (ev : rpc_event) : Act unit := fun log => (JS.Normal tt, (log ++ [ev])%list).

Definition await {A} (c : JS.completion A) : Act A := fun log => (c, log).

Definition try_catch {A} (body : Act A) (handler : JS.error -> Act A) : Act A :=
  fun log =>
    match body log with
    | (JS.Normal a, log') => (JS.Normal a, log')
    | (JS.Throw e, log') => handler e log'
    end.

(** The literal [1.2] denotes the double [double_1_2 / 2^52]. *)
Definition double_1_2 : Z := 5404319552844595.

(** Rounding to a double, on numerators over [2^52]: the integer nearest
    to [p] among those with at most 53 significant bits, a tie going to
    the even significand. *)
Definition round53 (p : Z) : Z :=
  let k := (Z.log2 p - 52)%Z in
  if (k <=? 0)%Z then p
  else
    let q := (p / 2 ^ k)%Z in
    let r := (p mod 2 ^ k)%Z in
    let half := (2 ^ (k - 1))%Z in
    if (half <? r)%Z || ((r =? half)%Z && Z.odd q)
    then ((q + 1) * 2 ^ k)%Z
    else (q * 2 ^ k)%Z.

(** [Math.ceil(gasEstimate * 1.2)].  A bigint operand makes [*] throw.
    For a Number the product is the double nearest to the exact product
    of the two doubles (no overflow below [2^1023]), and [Math.ceil]
    rounds that double up to an integer. *)
Definition gas_with_buffer (gasEstimate : gas_value) : JS.completion N :=
  match gasEstimate with
  | GasNumber n =>
      let product := round53 (Z.of_N n * double_1_2) in
      JS.Normal (Z.to_N ((product + (2 ^ 52 - 1)) / 2 ^ 52))
  | GasBigInt _ =>
      JS.Throw (JS.TypeError "Cannot mix BigInt and other types, use explicit conversions")
  end.

(** The fields [mintCertificate] reads from its argument. *)
Record CertificateData := {
  recipientAddress : JS.value;
  courseId : JS.value;
  courseName : JS.value;
  userId : JS.value;
  studentName : JS.value;
  studentEmail : JS.value;
  completionDate : option N;
  aiEvaluation : JS.value;
  aiScore : JS.value;
  credentialType : JS.value;
  isSoulbound : JS.value;
  validUntil : JS.value;
  ipfsHash : JS.value;
  metadata : JS.value
}.

(** What [mintCertificate] resolves with. *)
Record MintResult := {
  tokenId : string;
  transactionHash : string;
  blockNumber : N;
  gasUsed : string
}.

(** What [verifyCertificate] resolves with. *)
Record Verification := {
  isValid : bool;
  owner : option string;
  isVerified : bool;
  error : option string
}.

(** What [transferCertificate] resolves with. *)
Record TransferResult := {
  transfer_success : bool;
  transfer_transactionHash : string;
  transfer_blockNumber : N
}.

(** A destructuring default applies when the property is [undefined]. *)
Definition with_default (v d : JS.value) : JS.value :=
  match v with
  | JS.Undefined => d
  | _ => v
  end.

Definition quote : string := String (ascii_of_N 34) EmptyString.

(** [JSON.stringify] of the constant object [generateZKProof] is called on. *)
Definition zk_payload : string :=
  "{" ++ quote ++ "courseCompleted" ++ quote ++ ":true," ++
  quote ++ "evaluationValid" ++ quote ++ ":true," ++
  quote ++ "issuerAuthorized" ++ quote ++ ":true}".

Section BlockchainService.

(** [crypto.createHash('sha256').update(text).digest('hex')]. *)
Context (sha256_hex : string -> string).

Definition generateHash (data : JS.value) : string :=
  sha256_hex (JS.to_String data).

(** The text [generateCompositeHash] hands to [generateHash]. *)
Definition combined (data : list JS.value) : string := JS.join "|" data.

Definition generateCompositeHash (data : list JS.value) : string :=
  generateHash (JS.Str (combined data)).

Definition generateZKProof (json_text : string) : string :=
  substring 0 32 (sha256_hex json_text).

Definition find_minted_event (logs : list ReceiptLog) : option ReceiptLog :=
  List.find (fun log => match parsed_name log with
                        | Some name => String.eqb name "CertificateMinted"
                        | None => false
                        end) logs.

Definition mintCertificate (svc : Service) (certificateData : CertificateData)
  : Act MintResult :=
  try_catch
    (if negb (contract svc) || negb (signer svc)
     then throw (JS.Error "Contract not initialized or no signer available")
     else
       let credentialType := with_default (credentialType certificateData) (JS.Num 1) in
       let isSoulbound := with_default (isSoulbound certificateData) (JS.Bool false) in
       let validUntil := with_default (validUntil certificateData) (JS.Num 0) in
       let courseHash :=
         generateHash (JS.or (courseId certificateData) (courseName certificateData)) in
       let studentHash := generateHash (userId certificateData) in
       let evaluationHash :=
         generateHash (JS.or (aiEvaluation certificateData) (aiScore certificateData)) in
       let zkProof := generateZKProof zk_payload in
       ipfsMetadata ←
         (if JS.truthy (metadata certificateData)
          then
            match completionDate certificateData with
            | None => throw (JS.TypeError
                "Cannot read properties of undefined (reading 'toISOString')")
            | Some _ => hash ← await (uploadMetadata (node svc)); mret (JS.Str hash)
            end
          else mret (JS.or (ipfsHash certificateData) (JS.Str "")));
       let call := MintCredentialCall {|
         arg_to := recipientAddress certificateData;
         arg_courseHash := courseHash;
         arg_studentHash := studentHash;
         arg_evaluationHash := evaluationHash;
         arg_ipfsMetadata := ipfsMetadata;
         arg_credentialType := credentialType;
         arg_isSoulbound := isSoulbound;
         arg_validUntil := validUntil;
         arg_zkProof := zkProof |} in
       emit (EstimateGas call);;
       gasEstimate ← await (estimateGas (node svc) call);
       gasLimit ← await (gas_with_buffer gasEstimate);
       emit (SendTransaction call (Some gasLimit));;
       tx ← await (sendTransaction (node svc) call (Some gasLimit));
       emit (WaitForReceipt tx);;
       receipt ← await (wait (node svc) tx);
       match find_minted_event (receipt_logs receipt) with
       | None => throw (JS.Error "CertificateMinted event not found in transaction receipt")
       | Some event =>
           mret {| tokenId := JS.decimal (log_tokenId event);
                   transactionHash := receipt_hash receipt;
                   blockNumber := receipt_blockNumber receipt;
                   gasUsed := JS.decimal (receipt_gasUsed receipt) |}
       end)
    (fun error => throw (JS.Error ("Failed to mint certificate: " ++ JS.message error))).

Definition verifyCertificate (svc : Service) (tokenId : JS.value)
    (expectedOwner : option string) : Verification :=
  let body : JS.completion Verification :=
    (if negb (contract svc) then JS.Throw (JS.Error "Contract not initialized") else mret tt);;
    owner ← call_ownerOf (node svc) tokenId;
    isVerified ← call_verifyCertificate (node svc) tokenId;
    isValid ← (if isVerified
               then a ← JS.toLowerCase (Some owner);
                    b ← JS.toLowerCase expectedOwner;
                    mret (String.eqb a b)
               else mret false);
    mret {| isValid := isValid; owner := Some owner; isVerified := isVerified;
            error := None |} in
  match body with
  | JS.Normal r => r
  | JS.Throw e => {| isValid := false; owner := None; isVerified := false;
                     error := Some (JS.message e) |}
  end.

Definition transferCertificate (svc : Service) (from to tokenId : JS.value)
  : Act TransferResult :=
  try_catch
    (if negb (contract svc) || negb (signer svc)
     then throw (JS.Error "Contract not initialized or no signer available")
     else
       let call := TransferFromCall from to tokenId in
       emit (SendTransaction call None);;
       tx ← await (sendTransaction (node svc) call None);
       emit (WaitForReceipt tx);;
       receipt ← await (wait (node svc) tx);
       mret {| transfer_success := true;
               transfer_transactionHash := receipt_hash receipt;
               transfer_blockNumber := receipt_blockNumber receipt |})
    (fun error => throw (JS.Error ("Failed to transfer certificate: " ++ JS.message error))).

End BlockchainService.

(** *** Vocabulary of the properties *)

(** Whether the character occurs in the string. *)
Fixpoint has_char (c : ascii) (s : string) : bool :=
  match s with
  | EmptyString => false
  | String a s' => Ascii.eqb a c || has_char c s'
  end.

(** [String.prototype.split] on a one-character separator. *)
Fixpoint split_on (c : ascii) (s : string) : list string :=
  match s with
  | EmptyString => [EmptyString]
  | String a s' =>
      if Ascii.eqb a c then EmptyString :: split_on c s'
      else match split_on c s' with
           | [] => [String a EmptyString]
           | x :: rest => String a x :: rest
           end
  end.

(** The separator of [generateCompositeHash]. *)
Definition bar : ascii := "|"%char.

End Adapter.

(* --------------------------------------------------------------------- *)
(** ** The certificate controller *)
(* --------------------------------------------------------------------- *)

Module Controller.

(** *** Documents of the off-chain store *)

(** A [User] document: the fields the handlers read. *)
Record User := {
  user_id : string;
  user_name : string;
  user_email : string;
  user_walletAddress : JS.value;
  user_role : string
}.

(** A [Course] document. [instructor] holds a reference, never populated
    by these handlers. *)
Record Course := {
  course_id : string;
  course_title : string;
  course_description : string;
  course_code : JS.value;
  course_instructor : string
}.

Record FinalEvaluation := {
  score : JS.value;
  passed : JS.value;
  feedback : JS.value
}.

(** The [certificate] sub-document of an enrollment: the six paths the
    schema of the Enrollment model declares.  The schema is strict, so a
    property outside them, like the [claimToken] the mint handler assigns,
    is dropped when the document is set and never reaches the store. *)
Record EnrollmentCertificate := {
  tokenId : JS.value;
  transactionHash : JS.value;
  ipfsHash : JS.value;
  mintedAt : option N;
  claimed : bool;
  claimedAt : option N
}.

Record Enrollment := {
  enrollment_id : string;
  user : string;                 (* reference to a User *)
  course : string;               (* reference to a Course *)
  status : string;
  finalEvaluation : FinalEvaluation;
  certificate : EnrollmentCertificate;
  completedAt : option N
}.

(** JSON values of request and response bodies. *)
#[local] Unset Elimination Schemes.
Inductive json :=
| JUndefined
| JNull
| JBool (b : bool)
| JNum (n : N)
| JStr (s : string)
| JDate (t : N)
| JObj (fields : list (string * json))
| JArr (items : list json).
#[local] Set Elimination Schemes.

Definition json_of_value (v : JS.value) : json :=
  match v with
  | JS.Undefined => JUndefined
  | JS.Null => JNull
  | JS.Bool b => JBool b
  | JS.Num n => JNum n
  | JS.Str s => JStr s
  end.

Definition json_of_date (d : option N) : json :=
  match d with
  | Some t => JDate t
  | None => JUndefined
  end.

Definition json_of_string (o : option string) : json :=
  match o with
  | Some s => JStr s
  | None => JNull
  end.

(** A [Certificate] document as the mint handler builds it. *)
Record Certificate := {
  c_tokenId : string;
  c_contractAddress : JS.value;
  c_blockchainNetwork : string;
  c_studentName : string;
  c_studentEmail : string;
  c_courseId : string;
  c_courseName : string;
  c_courseCode : JS.value;
  c_aiScore : JS.value;
  c_aiEvaluation : JS.value;
  c_evaluationDetails : FinalEvaluation;
  c_issuerId : string;
  c_issuerName : string;
  c_recipientId : string;
  c_recipientAddress : JS.value;
  c_credentialType : N;
  c_isSoulbound : bool;
  c_ipfsHash : string;
  c_ipfsMetadata : json;
  c_courseHash : string;
  c_studentHash : string;
  c_evaluationHash : string;
  c_transactionHash : string;
  c_blockNumber : N;
  c_gasUsed : string;
  c_consentGiven : bool;
  c_consentDate : N
}.

Record DB := {
  users : list User;
  courses : list Course;
  enrollments : list Enrollment;
  certificates : list Certificate
}.

(** What a handler can change besides its response: the store, the
    error log and the mail it hands to the notification service. *)
Record World := {
  db : DB;
  logged : list string;
  outbox : list (string * json)
}.

Record Response := {
  http_status : N;
  body : json
}.

(** [res.json(body)] and [res.status(code).json(body)]. *)
Definition res_json (b : json) : Response := {| http_status := 200; body := b |}.
Definition res_status_json (code : N) (b : json) : Response :=
  {| http_status := code; body := b |}.

Definition failure (code : N) (message : string) : Response :=
  res_status_json code (JObj [("success", JBool false); ("message", JStr message)]).

(** *** Store operations *)

Definition findUser (d : DB) (id : string) : option User :=
  List.find (fun u => String.eqb (user_id u) id) (users d).

Definition findCourse (d : DB) (id : string) : option Course :=
  List.find (fun c => String.eqb (course_id c) id) (courses d).

(** [Enrollment.findOne(filter)]: the first document the filter accepts. *)
Definition findOne (filter : Enrollment -> bool) (d : DB) : option Enrollment :=
  List.find filter (enrollments d).

(** [enrollment.save()] on a document loaded from the store. *)
Definition save_enrollment (e : Enrollment) (d : DB) : DB :=
  {| users := users d; courses := courses d;
     enrollments := map (fun x => if String.eqb (enrollment_id x) (enrollment_id e)
                                  then e else x) (enrollments d);
     certificates := certificates d |}.

Definition required (v : JS.value) : bool :=
  match v with
  | JS.Undefined | JS.Null => false
  | JS.Str s => negb (String.eqb s "")
  | _ => true
  end.

(** Schema validation of a [Certificate]: required paths, the score
    range and the unique index on [tokenId]. *)
Definition certificate_valid (c : Certificate) (d : DB) : bool :=
  negb (String.eqb (c_tokenId c) "") &&
  required (c_contractAddress c) &&
  negb (String.eqb (c_studentName c) "") &&
  negb (String.eqb (c_studentEmail c) "") &&
  negb (String.eqb (c_courseName c) "") &&
  match c_aiScore c with JS.Num n => n <=? 100 | _ => false end &&
  match c_aiEvaluation c with JS.Str s => negb (String.eqb s "") | _ => false end &&
  required (c_recipientAddress c) &&
  negb (String.eqb (c_transactionHash c) "") &&
  negb (existsb (fun x => String.eqb (c_tokenId x) (c_tokenId c)) (certificates d)).

(** [certificate.save()] for a new document. *)
Definition save_certificate (c : Certificate) (d : DB) : JS.completion DB :=
  if certificate_valid c d
  then JS.Normal {| users := users d; courses := courses d; enrollments := enrollments d;
                    certificates := (certificates d ++ [c])%list |}
  else JS.Throw (JS.Error "Certificate validation failed").

Definition set_db (d : DB) (w : World) : World :=
  {| db := d; logged := logged w; outbox := outbox w |}.

Definition log_error (label : string) (w : World) : World :=
  {| db := db w; logged := (logged w ++ [label])%list; outbox := outbox w |}.

Definition send_mail (to : string) (payload : json) (w : World) : World :=
  {| db := db w; logged := logged w; outbox := (outbox w ++ [(to, payload)])%list |}.

(** *** claimCertificate *)

(** [!token] is false for these values of [req.body.token], which is
    whatever JSON the request body holds under that key (numbers being the
    non-negative integers, as elsewhere). *)
Definition json_truthy (j : json) : bool :=
  match j with
  | JUndefined | JNull => false
  | JBool b => b
  | JNum n => negb (n =? 0)
  | JStr s => negb (String.eqb s "")
  | JDate _ | JObj _ | JArr _ => true
  end.

(** What the object-document mapper and the database make of the
    condition [{'certificate.claimToken': token}], a condition on a path
    that the schema does not declare and that no stored document holds.
    [strictQuery] is Mongoose's option of that name, whose default differs
    between major versions: when set, the condition is dropped from the
    filter.  Otherwise the database evaluates it against a document
    without the path: equality with a string, a number or a boolean fails;
    for any other value [matches_absent] is the database's verdict (an
    operator document such as [{"$ne": "x"}] accepts such a document, a
    malformed one makes the query fail). *)
Record Mongoose := {
  strictQuery : bool;
  matches_absent : json -> JS.completion bool
}.

Definition claimToken_condition (m : Mongoose) (token : json) : JS.completion bool :=
  if strictQuery m then JS.Normal true
  else match token with
       | JBool _ | JNum _ | JStr _ | JDate _ => JS.Normal false
       | _ => matches_absent m token
       end.

(** The filter [{'certificate.claimToken': token, 'certificate.claimed': false}]
    on an enrollment, given what its first condition amounts to. *)
Definition claim_filter (token_condition : bool) (e : Enrollment) : bool :=
  token_condition && negb (claimed (certificate e)).

Definition mark_claimed (now : N) (e : Enrollment) : Enrollment :=
  {| enrollment_id := enrollment_id e; user := user e; course := course e;
     status := status e; finalEvaluation := finalEvaluation e;
     certificate := {| tokenId := tokenId (certificate e);
                       transactionHash := transactionHash (certificate e);
                       ipfsHash := ipfsHash (certificate e);
                       mintedAt := mintedAt (certificate e);
                       claimed := true;
                       claimedAt := Some now |};
     completedAt := completedAt e |}.

(** [claimCertificate(req, res)] with [req.body.token = token], at time
    [now].  The route's validators are never consulted, so the token
    reaches the query as it came. *)
Definition claimCertificate (m : Mongoose) (now : N) (token : json) (w : World)
  : Response * World :=
  if negb (json_truthy token)
  then (failure 400 "Claim token is required", w)
  else
    match claimToken_condition m token with
    | JS.Throw _ =>
        (failure 500 "Failed to claim certificate",
         log_error "Certificate claiming error:" w)
    | JS.Normal token_condition =>
        match findOne (claim_filter token_condition) (db w) with
        | None => (failure 404 "Invalid or expired claim token", w)
        | Some found =>
            let enrollment := mark_claimed now found in
            let w' := set_db (save_enrollment enrollment (db w)) w in
            match findCourse (db w) (course enrollment),
                  findUser (db w) (user enrollment) with
            | Some c, Some u =>
                (res_json (JObj [
                   ("success", JBool true);
                   ("message", JStr "Certificate claimed successfully");
                   ("data", JObj [
                      ("certificate", JObj [
                         ("tokenId", json_of_value (tokenId (certificate enrollment)));
                         ("courseName", JStr (course_title c));
                         ("studentName", JStr (user_name u));
                         ("completionDate", json_of_date (completedAt enrollment));
                         ("transactionHash",
                          json_of_value (transactionHash (certificate enrollment)))])])]),
                 w')
            | _, _ =>
                (failure 500 "Failed to claim certificate",
                 log_error "Certificate claiming error:" w')
            end
        end
    end.

(** *** verifyCertificate *)

(** The request of [GET /certificates/:tokenId/verify].  The route mounts
    no authentication middleware; [req_user] is the caller's identity as
    such a middleware would have attached it. *)
Record VerifyRequest := {
  params_tokenId : string;
  query_ownerAddress : option string;
  req_user : option User
}.

(** The filter [{'certificate.tokenId': tokenId}]. *)
Definition token_filter (wanted : string) (e : Enrollment) : bool :=
  match tokenId (certificate e) with
  | JS.Str t => String.eqb t wanted
  | _ => false
  end.

Section Handlers.

Context (sha256_hex : string -> string).

(** [verifyCertificate(req, res)]. *)
Definition verifyCertificate (svc : Adapter.Service) (req : VerifyRequest) (w : World)
  : Response * World :=
  let tokenId := params_tokenId req in
  let verification :=
    Adapter.verifyCertificate svc (JS.Str tokenId) (query_ownerAddress req) in
  let enrollment := findOne (token_filter tokenId) (db w) in
  let response := [
    ("tokenId", JStr tokenId);
    ("isValid", JBool (Adapter.isValid verification));
    ("owner", json_of_string (Adapter.owner verification));
    ("isVerified", JBool (Adapter.isVerified verification));
    ("blockchainVerified", JBool (Adapter.isValid verification))] in
  let reply (fields : list (string * json)) :=
    res_json (JObj [("success", JBool true);
                    ("data", JObj [("verification", JObj fields)])]) in
  match enrollment with
  | Some e =>
      match findCourse (db w) (course e), findUser (db w) (user e) with
      | Some c, Some u =>
          (reply (response ++ [
             ("databaseVerified", JBool true);
             ("metadata", JObj [
                ("courseName", JStr (course_title c));
                ("studentName", JStr (user_name u));
                ("studentEmail", JStr (user_email u));
                ("instructorName", JUndefined);
                ("completionDate", json_of_date (completedAt e));
                ("score", json_of_value (score (finalEvaluation e)));
                ("mintedAt", json_of_date (mintedAt (certificate e)))])])%list,
           w)
      | _, _ =>
          (failure 500 "Failed to verify certificate",
           log_error "Certificate verification error:" w)
      end
  | None => (reply (response ++ [("databaseVerified", JBool false)])%list, w)
  end.

(** *** mintCertificate *)

(** The collaborators of the mint handler: what the awaited calls
    resolve or reject with, the random claim token and the clock. *)
Record Services := {
  ipfs_uploadMetadata : json -> JS.completion string;
  blockchain_mintCertificate : Adapter.CertificateData -> JS.completion Adapter.MintResult;
  randomBytes_hex : string;
  now : N;
  contract_address : JS.value
}.

(** The names bound at module level of the controller, with the Node
    globals it mentions. *)
Definition module_scope : list string :=
  ["Enrollment"; "Course"; "User"; "Certificate"; "blockchainService"; "ipfsService";
   "authService"; "logger"; "crypto"; "mintCertificate"; "claimCertificate";
   "getUserCertificates"; "getCertificate"; "verifyCertificate"; "getCertificateStats";
   "require"; "module"; "process"; "Date"].

(** The names [mintCertificate] binds: its parameters and its [const]s. *)
Definition mintCertificate_scope : list string :=
  (["req"; "res"; "enrollmentId"; "userId"; "enrollment"; "metadata"; "ipfsResult";
    "mintingData"; "mintResult"; "certificate"] ++ module_scope)%list.

Definition set_certificate (c : EnrollmentCertificate) (e : Enrollment) : Enrollment :=
  {| enrollment_id := enrollment_id e; user := user e; course := course e;
     status := status e; finalEvaluation := finalEvaluation e;
     certificate := c; completedAt := completedAt e |}.

(** [feedback || details]; the schema of [finalEvaluation] has no
    [details] path. *)
Definition evaluation_text (e : Enrollment) : JS.value :=
  JS.or (feedback (finalEvaluation e)) JS.Undefined.

(** [enrollment.completedAt || new Date()]. *)
Definition completion_time (env : Services) (e : Enrollment) : N :=
  default (now env) (completedAt e).

(** [const metadata = {...}]. *)
Definition mint_metadata (env : Services) (e : Enrollment) (u : User) (c : Course) : json :=
  JObj [
    ("courseName", JStr (course_title c));
    ("studentName", JStr (user_name u));
    ("studentEmail", JStr (user_email u));
    ("aiScore", json_of_value (score (finalEvaluation e)));
    ("aiEvaluation", json_of_value (evaluation_text e));
    ("completionDate", JDate (completion_time env e));
    ("issuedAt", JDate (now env));
    ("courseDescription", JStr (course_description c));
    ("instructorName", JStr "System");
    ("companyName", JStr "Platform")].

(** [const mintingData = {...}]. *)
Definition minting_data (env : Services) (e : Enrollment) (u : User) (c : Course)
    (ipfsHash : string) : Adapter.CertificateData := {|
  Adapter.recipientAddress := user_walletAddress u;
  Adapter.courseId := JS.Str (course_id c);
  Adapter.courseName := JS.Str (course_title c);
  Adapter.userId := JS.Str (user_id u);
  Adapter.studentName := JS.Str (user_name u);
  Adapter.studentEmail := JS.Str (user_email u);
  Adapter.completionDate := Some (completion_time env e);
  Adapter.aiEvaluation := evaluation_text e;
  Adapter.aiScore := score (finalEvaluation e);
  Adapter.credentialType := JS.Num 1;
  Adapter.isSoulbound := JS.Bool false;
  Adapter.validUntil := JS.Num 0;
  Adapter.ipfsHash := JS.Str ipfsHash;
  Adapter.metadata := JS.Undefined |}.

(** [new Certificate({...})]. *)
Definition new_certificate (env : Services) (caller : User) (e : Enrollment) (u : User)
    (c : Course) (ipfsHash : string) (mintResult : Adapter.MintResult) : Certificate := {|
  c_tokenId := Adapter.tokenId mintResult;
  c_contractAddress := contract_address env;
  c_blockchainNetwork := "polygon";
  c_studentName := user_name u;
  c_studentEmail := user_email u;
  c_courseId := course_id c;
  c_courseName := course_title c;
  c_courseCode := course_code c;
  c_aiScore := score (finalEvaluation e);
  c_aiEvaluation := evaluation_text e;
  c_evaluationDetails := finalEvaluation e;
  c_issuerId := user_id caller;
  c_issuerName := if String.eqb (user_name caller) ""
                  then "System Administrator" else user_name caller;
  c_recipientId := user_id u;
  c_recipientAddress := user_walletAddress u;
  c_credentialType := 1;
  c_isSoulbound := false;
  c_ipfsHash := ipfsHash;
  c_ipfsMetadata := mint_metadata env e u c;
  c_courseHash := Adapter.generateHash sha256_hex (JS.Str (course_id c));
  c_studentHash := Adapter.generateHash sha256_hex (JS.Str (user_id u));
  c_evaluationHash := Adapter.generateHash sha256_hex (evaluation_text e);
  c_transactionHash := Adapter.transactionHash mintResult;
  c_blockNumber := Adapter.blockNumber mintResult;
  c_gasUsed := Adapter.gasUsed mintResult;
  c_consentGiven := true;
  c_consentDate := now env |}.

(** The value [enrollment.certificate] takes from the assignment: of the
    object literal's five properties the schema keeps four, the fifth,
    [claimToken: crypto.randomBytes(32).toString('hex')], is dropped. *)
Definition minted_reference (env : Services) (mintResult : Adapter.MintResult)
  : EnrollmentCertificate := {|
  tokenId := JS.Str (Adapter.tokenId mintResult);
  transactionHash := JS.Str (Adapter.transactionHash mintResult);
  ipfsHash := JS.Undefined;
  mintedAt := Some (now env);
  claimed := false;
  claimedAt := None |}.

(** The handler body inside [try]: it ends with the response it sent, or
    throws. *)
Definition mintCertificate_try (env : Services) (caller : User) (enrollmentId : string)
    (w : World) : JS.completion Response * World :=
  match findOne (fun e => String.eqb (enrollment_id e) enrollmentId) (db w) with
  | None => (JS.Normal (failure 404 "Enrollment not found"), w)
  | Some enrollment =>
    match findUser (db w) (user enrollment) with
    | None => (JS.Throw (JS.TypeError "Cannot read properties of null (reading '_id')"), w)
    | Some u =>
      if negb (String.eqb (user_id u) (user_id caller))
      then (JS.Normal (failure 403 "Access denied"), w)
      else if negb (String.eqb (status enrollment) "completed") ||
              negb (JS.truthy (passed (finalEvaluation enrollment)))
      then (JS.Normal (failure 400 "Course not completed or evaluation not passed"), w)
      else if JS.truthy (tokenId (certificate enrollment))
      then (JS.Normal (failure 400 "Certificate already minted"), w)
      else
        match findCourse (db w) (course enrollment) with
        | None => (JS.Throw (JS.TypeError "Cannot read properties of null (reading '_id')"), w)
        | Some c =>
          let metadata := mint_metadata env enrollment u c in
          match ipfs_uploadMetadata env metadata with
          | JS.Throw e => (JS.Throw e, w)
          | JS.Normal ipfsHash =>
            let mintingData := minting_data env enrollment u c ipfsHash in
            match blockchain_mintCertificate env mintingData with
            | JS.Throw e => (JS.Throw e, w)
            | JS.Normal mintResult =>
              let certificate := new_certificate env caller enrollment u c ipfsHash mintResult in
              match save_certificate certificate (db w) with
              | JS.Throw e => (JS.Throw e, w)
              | JS.Normal d1 =>
                let enrollment' :=
                  set_certificate (minted_reference env mintResult) enrollment in
                let w2 := set_db (save_enrollment enrollment' d1) w in
                (* try { await authService.sendNFTClaimEmail(...) } catch (emailError) *)
                let w3 :=
                  match JS.resolve mintCertificate_scope "certificateData" with
                  | JS.Normal _ =>
                      send_mail (user_email u)
                        (JObj [("tokenId", JStr (Adapter.tokenId mintResult));
                               ("claimToken", JStr (randomBytes_hex env));
                               ("score", json_of_value (score (finalEvaluation enrollment)))])
                        w2
                  | JS.Throw _ => log_error "Failed to send NFT claim email:" w2
                  end in
                (* res.json({ ..., claimToken }) *)
                match JS.resolve mintCertificate_scope "claimToken" with
                | JS.Throw e => (JS.Throw e, w3)
                | JS.Normal _ =>
                    (JS.Normal (res_json (JObj [
                       ("success", JBool true);
                       ("message", JStr "Certificate minted successfully. Check your email for claiming instructions.");
                       ("data", JObj [
                          ("certificate", JObj [
                             ("tokenId", JStr (Adapter.tokenId mintResult));
                             ("transactionHash", JStr (Adapter.transactionHash mintResult));
                             ("ipfsHash", JStr ipfsHash);
                             ("claimToken", JStr (randomBytes_hex env))])])])),
                     w3)
                end
              end
            end
          end
        end
    end
  end.

(** [mintCertificate(req, res)] with [req.user = caller] and
    [req.body.enrollmentId = enrollmentId]: the [try] body, and the
    [catch] that answers 500 with the error's message. *)
Definition mintCertificate (env : Services) (caller : User) (enrollmentId : string)
    (w : World) : Response * World :=
  match mintCertificate_try env caller enrollmentId w with
  | (JS.Normal response, w') => (response, w')
  | (JS.Throw error, w') =>
      (failure 500 (if String.eqb (JS.message error) ""
                    then "Failed to mint certificate" else JS.message error),
       log_error "Certificate minting error:" w')
  end.

End Handlers.

(** *** getCertificate *)

(** [{...object, key: v}] and [object.key = v]: an own property keeps its
    place and takes the new value, a new property goes last. *)
Definition obj_set (key : string) (v : json) (fields : list (string * json))
  : list (string * json) :=
  if existsb (fun kv => String.eqb (fst kv) key) fields
  then map (fun kv => if String.eqb (fst kv) key then (key, v) else kv) fields
  else (fields ++ [(key, v)])%list.

Definition obj_assign (fields extra : list (string * json)) : list (string * json) :=
  fold_left (fun acc kv => obj_set (fst kv) (snd kv) acc) extra fields.

(** [value?.key]. *)
Definition prop (key : string) (j : json) : json :=
  match j with
  | JObj fields =>
      match List.find (fun kv => String.eqb (fst kv) key) fields with
      | Some (_, v) => v
      | None => JUndefined
      end
  | _ => JUndefined
  end.

(** [Certificate.findOne({tokenId})]. *)
Definition findCertificate (d : DB) (wanted : string) : option Certificate :=
  List.find (fun c => String.eqb (c_tokenId c) wanted) (certificates d).

(** The collaborators of [getCertificate]: what the adapter's
    [getCertificate] resolves with (an object, or a falsy value) or
    rejects with, and [process.env.FRONTEND_URL]. *)
Record Lookup := {
  blockchain_getCertificate : string -> JS.completion (option (list (string * json)));
  frontend_url : JS.value
}.

(** [isOwner || isIssuer || isAdmin] for [req.user = caller]. *)
Definition may_see_all (caller : option User) (certificate : Certificate) : bool :=
  match caller with
  | Some u =>
      String.eqb (c_recipientId certificate) (user_id u) ||
      String.eqb (c_issuerId certificate) (user_id u) ||
      String.eqb (user_role u) "admin"
  | None => false
  end.

(** [getCertificate(req, res)] with [req.params.tokenId = tokenId] and
    [req.user = caller], which the route's [optionalAuth] may leave unset. *)
Definition getCertificate (env : Lookup) (caller : option User) (tokenId : string)
    (w : World) : Response * World :=
  match blockchain_getCertificate env tokenId with
  | JS.Throw error =>
      (res_status_json 500 (JObj [("success", JBool false);
                                  ("message", JStr "Certificate retrieval failed");
                                  ("error", JStr (JS.message error))]),
       log_error "Certificate retrieval error:" w)
  | JS.Normal None => (failure 404 "Certificate not found", w)
  | JS.Normal (Some blockchainData) =>
      match findCertificate (db w) tokenId with
      | None => (failure 404 "Certificate data not found", w)
      | Some certificate =>
          let responseData :=
            if may_see_all caller certificate
            then obj_assign blockchainData [
                   ("studentName", JStr (c_studentName certificate));
                   ("studentEmail", JStr (c_studentEmail certificate));
                   ("courseName", JStr (c_courseName certificate));
                   ("aiScore", json_of_value (c_aiScore certificate));
                   ("aiEvaluation", json_of_value (c_aiEvaluation certificate));
                   ("issuerName", JStr (c_issuerName certificate));
                   ("completionDate", prop "completionDate" (c_ipfsMetadata certificate));
                   ("issuedAt", prop "issuedAt" (c_ipfsMetadata certificate));
                   ("courseDescription",
                    prop "courseDescription" (c_ipfsMetadata certificate))]
            else obj_assign blockchainData [
                   ("message",
                    JStr "Sensitive personal information can only be viewed by the certificate owner.")] in
          let responseData :=
            obj_set "verificationUrl"
              (JStr (JS.to_String (frontend_url env) ++ "/verify/" ++ tokenId)) responseData in
          let responseData :=
            obj_set "blockchainExplorerUrl"
              (JStr ("https://polygonscan.com/token/" ++
                     JS.to_String (c_contractAddress certificate) ++ "?a=" ++ tokenId))
              responseData in
          (res_json (JObj [("success", JBool true); ("data", JObj responseData)]), w)
      end
  end.

(** The value at a path of nested object keys. *)
Fixpoint json_at (path : list string) (j : json) : option json :=
  match path with
  | [] => Some j
  | key :: rest =>
      match j with
      | JObj fields =>
          match List.find (fun kv => String.eqb (fst kv) key) fields with
          | Some (_, v) => json_at rest v
          | None => None
          end
      | _ => None
      end
  end.

End Controller.

(* --------------------------------------------------------------------- *)
(** ** Sample data for concrete runs *)
(* --------------------------------------------------------------------- *)

Module Sample.

(** A collision-free numbering of strings in the place of the digest. *)
Fixpoint digest_from (acc : N) (s : string) : N :=
  match s with
  | EmptyString => acc
  | String a s' => digest_from (acc * 256 + N_of_ascii a) s'
  end.

Definition digest (s : string) : N := digest_from 1 s.

(** A readable stand-in for the hex digest. *)
Definition sha (s : string) : string := "sha256:" ++ s.

(** A call by [sender] at time [ts], every recipient accepting tokens. *)
Definition env_of (sender ts : N) : Ledger.Env :=
  {| Ledger.msg_sender := sender; Ledger.block_timestamp := ts;
     Ledger.accepts := fun _ => true |}.

(** The issuer [1] mints a revocable certificate for holder [5]. *)
Definition mint_c1_s1 : Ledger.Call :=
  Ledger.MintCredential 5 "c1" "s1" "e1" "Qm1" 1 false 0 0.

(** The same commitment once more, with other details. *)
Definition mint_c1_s1_again : Ledger.Call :=
  Ledger.MintCredential 6 "c1" "s1" "e2" "Qm2" 2 true 0 0.

(** A soulbound certificate for holder [5]. *)
Definition mint_soulbound : Ledger.Call :=
  Ledger.MintCredential 5 "c1" "s1" "e1" "Qm1" 1 true 0 0.

Definition receipt : Adapter.Receipt := {|
  Adapter.receipt_hash := "0xtx";
  Adapter.receipt_blockNumber := 7;
  Adapter.receipt_gasUsed := 90000;
  Adapter.receipt_logs :=
    [{| Adapter.parsed_name := Some "CredentialMinted"; Adapter.log_tokenId := 1 |}] |}.

(** A node on which token [7] is valid and held by [0xAbC]. *)
Definition node : Adapter.Node := {|
  Adapter.estimateGas := fun _ => JS.Normal (Adapter.GasNumber 100000);
  Adapter.sendTransaction := fun _ _ => JS.Normal "0xtx";
  Adapter.wait := fun _ => JS.Normal receipt;
  Adapter.call_ownerOf := fun _ => JS.Normal "0xAbC";
  Adapter.call_verifyCertificate := fun _ => JS.Normal true;
  Adapter.uploadMetadata := JS.Normal "QmMeta" |}.

Definition service : Adapter.Service :=
  {| Adapter.contract := true; Adapter.signer := true; Adapter.node := node |}.

Definition mint_request : Adapter.CertificateData := {|
  Adapter.recipientAddress := JS.Str "0xA11CE";
  Adapter.courseId := JS.Str "c1";
  Adapter.courseName := JS.Str "Blockchain Basics";
  Adapter.userId := JS.Str "u1";
  Adapter.studentName := JS.Str "Alice Kim";
  Adapter.studentEmail := JS.Str "alice@example.com";
  Adapter.completionDate := Some 1700000000;
  Adapter.aiEvaluation := JS.Str "Excellent work";
  Adapter.aiScore := JS.Num 95;
  Adapter.credentialType := JS.Undefined;
  Adapter.isSoulbound := JS.Undefined;
  Adapter.validUntil := JS.Undefined;
  Adapter.ipfsHash := JS.Str "QmMeta";
  Adapter.metadata := JS.Undefined |}.

Definition alice : Controller.User := {|
  Controller.user_id := "u1";
  Controller.user_name := "Alice Kim";
  Controller.user_email := "alice@example.com";
  Controller.user_walletAddress := JS.Str "0xA11CE";
  Controller.user_role := "student" |}.

Definition basics : Controller.Course := {|
  Controller.course_id := "c1";
  Controller.course_title := "Blockchain Basics";
  Controller.course_description := "An introduction";
  Controller.course_code := JS.Str "BC101";
  Controller.course_instructor := "u9" |}.

Definition advanced : Controller.Course := {|
  Controller.course_id := "c2";
  Controller.course_title := "Smart Contracts";
  Controller.course_description := "A second course";
  Controller.course_code := JS.Str "SC201";
  Controller.course_instructor := "u9" |}.

Definition evaluation : Controller.FinalEvaluation := {|
  Controller.score := JS.Num 95;
  Controller.passed := JS.Bool true;
  Controller.feedback := JS.Str "Excellent work" |}.

(** An enrollment that is completed and passed, not yet minted. *)
Definition completed_enrollment : Controller.Enrollment := {|
  Controller.enrollment_id := "e1";
  Controller.user := "u1";
  Controller.course := "c1";
  Controller.status := "completed";
  Controller.finalEvaluation := evaluation;
  Controller.certificate := {|
    Controller.tokenId := JS.Undefined;
    Controller.transactionHash := JS.Undefined;
    Controller.ipfsHash := JS.Undefined;
    Controller.mintedAt := None;
    Controller.claimed := false;
    Controller.claimedAt := None |};
  Controller.completedAt := Some 1700000000 |}.

(** An enrollment whose certificate is token [7], not yet claimed. *)
Definition minted_enrollment : Controller.Enrollment := {|
  Controller.enrollment_id := "e2";
  Controller.user := "u1";
  Controller.course := "c2";
  Controller.status := "completed";
  Controller.finalEvaluation := evaluation;
  Controller.certificate := {|
    Controller.tokenId := JS.Str "7";
    Controller.transactionHash := JS.Str "0xtx7";
    Controller.ipfsHash := JS.Undefined;
    Controller.mintedAt := Some 1699990000;
    Controller.claimed := false;
    Controller.claimedAt := None |};
  Controller.completedAt := Some 1699980000 |}.

Definition world : Controller.World := {|
  Controller.db := {|
    Controller.users := [alice];
    Controller.courses := [basics; advanced];
    Controller.enrollments := [completed_enrollment; minted_enrollment];
    Controller.certificates := [] |};
  Controller.logged := [];
  Controller.outbox := [] |}.

(** Collaborators that all succeed. *)
Definition services : Controller.Services := {|
  Controller.ipfs_uploadMetadata := fun _ => JS.Normal "QmMeta";
  Controller.blockchain_mintCertificate := fun _ =>
    JS.Normal {| Adapter.tokenId := "1"; Adapter.transactionHash := "0xtx";
                 Adapter.blockNumber := 7; Adapter.gasUsed := "90000" |};
  Controller.randomBytes_hex := "9a1b7c";
  Controller.now := 1700000100;
  Controller.contract_address := JS.Str "0xC0FFEE" |}.

(** An anonymous verification request for token [7]. *)
Definition anonymous_verify : Controller.VerifyRequest := {|
  Controller.params_tokenId := "7";
  Controller.query_ownerAddress := None;
  Controller.req_user := None |}.

(** A batch of two credentials, for holders [5] and [6]. *)
Definition batch_of_two : Ledger.BatchMintRequest := {|
  Ledger.recipients := [5; 6];
  Ledger.courseHashes := ["c1"; "c2"];
  Ledger.studentHashes := ["s1"; "s2"];
  Ledger.evaluationHashes := ["e1"; "e2"];
  Ledger.ipfsMetadatas := ["Qm1"; "Qm2"];
  Ledger.credentialTypes := [1; 2];
  Ledger.isSoulbounds := [false; true];
  Ledger.validUntils := [0; 0];
  Ledger.zkProofs := [0; 0] |}.

(** A signed-in user who is neither recipient nor issuer of token [7]. *)
Definition bob : Controller.User := {|
  Controller.user_id := "u2";
  Controller.user_name := "Bob Lee";
  Controller.user_email := "bob@example.com";
  Controller.user_walletAddress := JS.Undefined;
  Controller.user_role := "student" |}.

(** The Certificate record of token [7], issued by [u9] to Alice. *)
Definition certificate7 : Controller.Certificate := {|
  Controller.c_tokenId := "7";
  Controller.c_contractAddress := JS.Str "0xC0FFEE";
  Controller.c_blockchainNetwork := "polygon";
  Controller.c_studentName := "Alice Kim";
  Controller.c_studentEmail := "alice@example.com";
  Controller.c_courseId := "c2";
  Controller.c_courseName := "Smart Contracts";
  Controller.c_courseCode := JS.Str "SC201";
  Controller.c_aiScore := JS.Num 95;
  Controller.c_aiEvaluation := JS.Str "Excellent work";
  Controller.c_evaluationDetails := evaluation;
  Controller.c_issuerId := "u9";
  Controller.c_issuerName := "System Administrator";
  Controller.c_recipientId := "u1";
  Controller.c_recipientAddress := JS.Str "0xA11CE";
  Controller.c_credentialType := 1;
  Controller.c_isSoulbound := false;
  Controller.c_ipfsHash := "QmMeta7";
  Controller.c_ipfsMetadata := Controller.JObj [
    ("completionDate", Controller.JDate 1699980000);
    ("issuedAt", Controller.JDate 1699990000)];
  Controller.c_courseHash := "sha256:c2";
  Controller.c_studentHash := "sha256:u1";
  Controller.c_evaluationHash := "sha256:Excellent work";
  Controller.c_transactionHash := "0xtx7";
  Controller.c_blockNumber := 6;
  Controller.c_gasUsed := "88000";
  Controller.c_consentGiven := true;
  Controller.c_consentDate := 1699990000 |}.

(** The sample store with that record. *)
Definition world_with_certificate : Controller.World := {|
  Controller.db := {|
    Controller.users := [alice; bob];
    Controller.courses := [basics; advanced];
    Controller.enrollments := [completed_enrollment; minted_enrollment];
    Controller.certificates := [certificate7] |};
  Controller.logged := [];
  Controller.outbox := [] |}.

(** What the adapter returns for token [7], with the metadata it fetched
    from IPFS. *)
Definition ledger_data7 : list (string * Controller.json) := [
  ("tokenId", Controller.JStr "7");
  ("courseHash", Controller.JStr "sha256:c2");
  ("studentHash", Controller.JStr "sha256:u1");
  ("metadata", Controller.JObj [
     ("studentName", Controller.JStr "Alice Kim");
     ("studentEmail", Controller.JStr "alice@example.com")])].

Definition lookup : Controller.Lookup := {|
  Controller.blockchain_getCertificate := fun _ => JS.Normal (Some ledger_data7);
  Controller.frontend_url := JS.Str "https://educhain.example" |}.

(** The answer of the ledger mint in the sample services. *)
Definition mint_result : Adapter.MintResult :=
  {| Adapter.tokenId := "1"; Adapter.transactionHash := "0xtx";
     Adapter.blockNumber := 7; Adapter.gasUsed := "90000" |}.

(** A credential for holder [5] that is valid until time 2000. *)
Definition mint_until_2000 : Ledger.Call :=
  Ledger.MintCredential 5 "c1" "s1" "e1" "Qm1" 1 false 2000 0.

(** The sample mint request under another name, e-mail address and
    completion date. *)
Definition mint_request_renamed : Adapter.CertificateData := {|
  Adapter.recipientAddress := JS.Str "0xA11CE";
  Adapter.courseId := JS.Str "c1";
  Adapter.courseName := JS.Str "Blockchain Basics";
  Adapter.userId := JS.Str "u1";
  Adapter.studentName := JS.Str "A. Kim";
  Adapter.studentEmail := JS.Str "kim@example.org";
  Adapter.completionDate := None;
  Adapter.aiEvaluation := JS.Str "Excellent work";
  Adapter.aiScore := JS.Num 95;
  Adapter.credentialType := JS.Undefined;
  Adapter.isSoulbound := JS.Undefined;
  Adapter.validUntil := JS.Undefined;
  Adapter.ipfsHash := JS.Str "QmMeta";
  Adapter.metadata := JS.Undefined |}.

(** The sample node behind a client that resolves estimates with a
    bigint. *)
Definition node_v6 : Adapter.Node := {|
  Adapter.estimateGas := fun _ => JS.Normal (Adapter.GasBigInt 100000);
  Adapter.sendTransaction := fun _ _ => JS.Normal "0xtx";
  Adapter.wait := fun _ => JS.Normal receipt;
  Adapter.call_ownerOf := fun _ => JS.Normal "0xAbC";
  Adapter.call_verifyCertificate := fun _ => JS.Normal true;
  Adapter.uploadMetadata := JS.Normal "QmMeta" |}.

Definition service_v6 : Adapter.Service :=
  {| Adapter.contract := true; Adapter.signer := true; Adapter.node := node_v6 |}.

(** A database verdict on a document without the path: the operator
    document [{"$ne": value}] accepts it, equality with any other document
    or with an array does not. *)
Definition accepts_ne (j : Controller.json) : JS.completion bool :=
  match j with
  | Controller.JObj [(key, _)] => JS.Normal (String.eqb key "$ne")
  | _ => JS.Normal false
  end.

(** A mapper that passes the filter on as it is, and one that drops the
    conditions on paths outside the schema. *)
Definition mongoose_lenient : Controller.Mongoose :=
  {| Controller.strictQuery := false; Controller.matches_absent := accepts_ne |}.

Definition mongoose_strict : Controller.Mongoose :=
  {| Controller.strictQuery := true; Controller.matches_absent := accepts_ne |}.

End Sample.

(* ===================================================================== *)
(** * Part II: theorems *)
(* ===================================================================== *)

(* --------------------------------------------------------------------- *)
(** ** The credential ledger contract *)
(* --------------------------------------------------------------------- *)

Section LedgerProofs.
Context (keccak256 : string -> N).
Import Ledger.

Ltac unfold_sol :=
  unfold exec, mintCredential, _mintSingleCredential, mint_body, batchMintCredentials,
    safeTransferFrom, safeTransferFrom_data, transferFrom, burn, revokeCredential,
    setCredentialVerification, setEmergencyPause,
    approve, setApprovalForAll, grantRole, revokeRole, renounceRole,
    _safeMint, _mint, _safeTransfer, _transfer, _burn, _beforeTokenTransfer,
    _isApprovedOrOwner, getApproved, ownerOf, onlyRole, whenNotPaused,
    counter_increment, counter_current, push_issuer, _removeFromIssuerList,
    mbind, M_bind, bind, mret, M_ret, ret, require, revert, gets, modify in *.

Ltac sol_inv H :=
  unfold_sol; cbn in H;
  repeat match type of H with
  | context [if ?b then _ else _] => destruct b eqn:?; cbn in H; try discriminate H
  end;
  try discriminate H;
  injection H as <- <-.

Ltac acc :=
  unfold _exists, _ownerOf, credential_at, is_revoked, hash_used, hasRole, isApprovedForAll in *;
  cbn [tokenIdCounter credentials usedHashes revokedCredentials issuerCredentials emergencyPaused
       owners tokenApprovals operatorApprovals roles paused
       set_tokenIdCounter set_credentials set_usedHashes set_revokedCredentials
       set_issuerCredentials set_emergencyPaused set_owners set_tokenApprovals
       set_operatorApprovals set_roles] in *.

Ltac map_cases id t :=
  destruct (decide (id = t)) as [->|?];
  [ rewrite ?lookup_insert_eq, ?lookup_delete_eq in *
  | rewrite ?lookup_insert_ne, ?lookup_delete_ne in * by congruence ];
  cbn [default from_option] in *.

Lemma bool_decide_true_iff (P : Prop) `{Decision P} : bool_decide P = true <-> P.
Proof. split; [apply bool_decide_eq_true_1 | apply bool_decide_eq_true_2]. Qed.


Lemma bool_decide_eq_iff (P Q : Prop) `{Decision P} `{Decision Q} :
  (P <-> Q) -> bool_decide P = bool_decide Q.
Proof. intros HPQ. apply bool_decide_ext. exact HPQ. Qed.

Lemma effect_revoke s t :
  _exists s t = true ->
  isRevocable (credential_at s t) = true ->
  effect keccak256 s (set_revokedCredentials (fun r => {[t]} ∪ r) s).
Proof.
  intros Hex Hrv. split; [|reflexivity|reflexivity|left; reflexivity].
  intros id. destruct (decide (id = t)) as [->|Hne].
  - apply te_revoked; try done. acc. apply bool_decide_eq_true_2. set_solver.
  - apply te_kept; try done. acc. apply bool_decide_ext.
    rewrite elem_of_union, elem_of_singleton. intuition congruence.
Qed.

Lemma effect_transfer s t to :
  _exists s t = true ->
  negb (to =? 0) = true ->
  negb (isSoulbound (credential_at s t)) = true ->
  negb (is_revoked s t) = true ->
  effect keccak256 s (set_owners <[t := to]> (set_tokenApprovals (delete t) s)).
Proof.
  intros Hex Hto Hsb Hrv. split; [|reflexivity|reflexivity|left; reflexivity].
  intros id. destruct (decide (id = t)) as [->|Hne].
  - apply te_moved; try done.
    + acc. rewrite lookup_insert_eq. exact Hto.
    + by apply negb_true_iff.
    + by apply negb_true_iff.
    + by apply negb_true_iff.
  - apply te_kept; try done. acc. by rewrite lookup_insert_ne.
Qed.

Lemma effect_burn s t iss l :
  _exists s t = true ->
  isRevocable (credential_at s t) = true ->
  effect keccak256 s
    (set_issuerCredentials (fun m => <[iss := l m]> m)
       (set_revokedCredentials (fun r => r ∖ {[t]})
          (set_credentials (delete t)
             (set_owners (delete t) (set_tokenApprovals (delete t) s))))).
Proof.
  intros Hex Hrv. split; [|reflexivity|reflexivity|left; reflexivity].
  intros id. destruct (decide (id = t)) as [->|Hne].
  - apply te_burned; try done; acc.
    + by rewrite lookup_delete_eq.
    + by rewrite lookup_delete_eq.
    + apply bool_decide_eq_false_2.
      rewrite elem_of_difference, elem_of_singleton. tauto.
  - apply te_kept; acc.
    + by rewrite lookup_delete_ne.
    + apply bool_decide_ext.
      rewrite elem_of_difference, elem_of_singleton. intuition congruence.
    + by rewrite lookup_delete_ne.
Qed.

Lemma set_isVerified_idemp b b' c :
  set_isVerified b (set_isVerified b' c) = set_isVerified b c.
Proof. reflexivity. Qed.

Lemma effect_verify s t b :
  effect keccak256 s (set_credentials <[t := set_isVerified b (credential_at s t)]> s).
Proof.
  split; [|reflexivity|reflexivity|left; reflexivity].
  intros id. apply te_kept; try done.
  destruct (decide (id = t)) as [->|Hne]; acc.
  - by rewrite lookup_insert_eq.
  - by rewrite lookup_insert_ne.
Qed.

Lemma effect_refl s : effect keccak256 s s.
Proof.
  split; [|reflexivity|reflexivity|left; reflexivity].
  intros id. by apply te_kept.
Qed.

Lemma effect_other e c s r s' :
  is_mint c = false ->
  exec keccak256 e c s = Ok (r, s') ->
  effect keccak256 s s' ∧ tokenIdCounter s' = tokenIdCounter s.
Proof.
  intros Hm H.
  destruct c; try discriminate Hm; sol_inv H; (split; [|reflexivity]).
  all: try (split; [intros id; apply te_kept; reflexivity | reflexivity | reflexivity | left; reflexivity]).
  - by apply effect_revoke.
  - by apply effect_transfer.
  - by apply effect_transfer.
  - by apply effect_transfer.
  - by apply (effect_burn s tokenId _ (fun m => swap_remove tokenId (default [] (m !! issuer (credential_at s tokenId))))).
  - apply effect_verify.
Qed.


Lemma mint_body_effect e to ch sh eh im ct sb vu zk s id s' :
  mint_body keccak256 e to ch sh eh im ct sb vu zk s = Ok (id, s') ->
  effect keccak256 s s' ∧
  tokenIdCounter s' = (tokenIdCounter s + 1) mod uint256_modulus ∧
  id = tokenIdCounter s' ∧
  _exists s id = false ∧
  _ownerOf s' id = to ∧
  hash_used s (credentialHash_of keccak256 ch sh) = false ∧
  usedHashes s' = {[credentialHash_of keccak256 ch sh]} ∪ usedHashes s ∧
  isSoulbound (credential_at s' id) = sb ∧
  courseHash (credential_at s' id) = ch ∧
  studentHash (credential_at s' id) = sh.
Proof.
  intros H. sol_inv H.
  set (id := (tokenIdCounter s + 1) mod uint256_modulus) in *.
  acc.
  repeat split; try reflexivity.
  - intros k. destruct (decide (k = id)) as [->|Hne].
    + apply te_minted; acc; try reflexivity.
      * by apply negb_true_iff.
      * rewrite lookup_insert_eq. assumption.
      * rewrite lookup_insert_eq. reflexivity.
      * match goal with H : negb (bool_decide (id ∈ _)) = true |- _ =>
          apply negb_true_iff in H; exact H end.
      * rewrite lookup_insert_eq. cbn. unfold commitment_of. cbn.
        apply bool_decide_eq_true_2. set_solver.
    + apply te_kept; acc; try reflexivity.
      * by rewrite lookup_insert_ne.
      * by rewrite lookup_insert_ne.
  - cbn. set_solver.
  - right. reflexivity.
  - by apply negb_true_iff.
  - by rewrite lookup_insert_eq.
  - by apply negb_true_iff.
  - by rewrite lookup_insert_eq.
  - by rewrite lookup_insert_eq.
  - by rewrite lookup_insert_eq.
Qed.


Lemma mintCredential_inv e to ch sh eh im ct sb vu zk s r s' :
  exec keccak256 e (MintCredential to ch sh eh im ct sb vu zk) s = Ok (r, s') ->
  ∃ id, r = Some id ∧ mint_body keccak256 e to ch sh eh im ct sb vu zk s = Ok (id, s').
Proof.
  intros H.
  unfold exec, mintCredential, onlyRole, whenNotPaused in H.
  unfold mbind, M_bind, bind, gets, require, mret, M_ret, ret, revert in H.
  cbn -[mint_body] in H.
  repeat match type of H with
  | context [if ?b then _ else _] => destruct b eqn:?; cbn -[mint_body] in H;
                                     try discriminate H
  end.
  destruct (mint_body keccak256 e to ch sh eh im ct sb vu zk s) as [[id st1]|] eqn:Hb;
    [|discriminate H].
  injection H as <- <-. by exists id.
Qed.

(** ** Lifting a step property to transactions and runs *)

Section Budget.
Variable P : N -> State -> Prop.
Hypothesis P_keep : ∀ b s s',
  effect keccak256 s s' -> tokenIdCounter s' = tokenIdCounter s -> P b s -> P b s'.
Hypothesis P_mint : ∀ b s s',
  effect keccak256 s s' ->
  tokenIdCounter s' = (tokenIdCounter s + 1) mod uint256_modulus ->
  P (b + 1) s -> P b s'.
Hypothesis P_weaken : ∀ b s, P (b + 1) s -> P b s.

Lemma P_weaken_many k : ∀ b s, P (b + N.of_nat k) s -> P b s.
Proof.
  induction k as [|k IH]; intros b s H.
  - by rewrite N.add_0_r in H.
  - apply IH. apply P_weaken. replace (b + N.of_nat k + 1) with (b + N.of_nat (S k)) by lia.
    exact H.
Qed.

Lemma P_weaken_N k b s : P (b + k) s -> P b s.
Proof. rewrite <- (N2Nat.id k). apply P_weaken_many. Qed.

Lemma array_get_inv {A} (l : list A) i s x s' :
  array_get l i s = Ok (x, s') -> s' = s.
Proof.
  unfold array_get. destruct (l !! i); cbn; [|discriminate].
  unfold mret, M_ret, ret. by intros [= _ ->].
Qed.

Lemma batch_loop_budget e request indices : ∀ b s u s',
  batch_loop keccak256 e request indices s = Ok (u, s') ->
  P (b + N.of_nat (length indices)) s -> P b s'.
Proof.
  induction indices as [|i rest IH]; intros b s u s' H HP.
  - cbn in H. injection H as _ <-. by rewrite N.add_0_r in HP.
  - cbn [batch_loop] in H. unfold mbind, M_bind, bind in H.
    repeat match type of H with
    | context [array_get ?l ?i ?st] =>
        let E := fresh "E" in
        destruct (array_get l i st) as [[? ?]|] eqn:E; [|discriminate H];
        apply array_get_inv in E; rewrite E in *; clear E
    end.
    unfold _mintSingleCredential, mbind, M_bind, bind in H.
    match type of H with
    | context [mint_body ?k ?e ?a1 ?a2 ?a3 ?a4 ?a5 ?a6 ?a7 ?a8 ?a9 ?st] =>
        destruct (mint_body k e a1 a2 a3 a4 a5 a6 a7 a8 a9 st) as [[id st1]|] eqn:Hm;
        [|discriminate H]
    end.
    cbn in H.
    apply mint_body_effect in Hm as (Heff & Hc & _).
    apply (IH b st1 u s' H).
    apply (P_mint _ s st1 Heff Hc).
    replace (b + N.of_nat (length rest) + 1) with (b + N.of_nat (length (i :: rest)))
      by (cbn [length]; lia).
    exact HP.
Qed.

Lemma exec_budget e c b s r s' :
  exec keccak256 e c s = Ok (r, s') ->
  P (b + mint_requests c) s -> P b s'.
Proof.
  intros H HP. destruct (is_mint c) eqn:Hm.
  - destruct c; try discriminate Hm; cbn [mint_requests] in HP.
    + apply mintCredential_inv in H as (id & _ & Hb).
      apply mint_body_effect in Hb as (Heff & Hc & _).
      by apply (P_mint _ s s' Heff Hc).
    + unfold exec, batchMintCredentials, onlyRole, whenNotPaused in H.
      unfold mbind, M_bind, bind, gets, require, mret, M_ret, ret, revert in H.
      cbn -[batch_loop] in H.
      repeat match type of H with
      | context [if ?b then _ else _] => destruct b eqn:?; cbn -[batch_loop] in H;
                                         try discriminate H
      end.
      destruct (batch_loop keccak256 e request (seq 0 (length (recipients request))) s)
        as [[u st1]|] eqn:Hl; [|discriminate H].
      injection H as _ <-.
      apply (batch_loop_budget _ _ _ b s u st1 Hl).
      by rewrite length_seq.
  - apply effect_other in H as [Heff Hc]; [|exact Hm].
    apply (P_keep _ s s' Heff Hc). apply (P_weaken_N (mint_requests c)). exact HP.
Qed.

Lemma apply_call_budget e c b s :
  P (b + mint_requests c) s -> P b (fst (apply_call keccak256 e c s)).
Proof.
  intros HP. unfold apply_call.
  destruct (exec keccak256 e c s) as [[r s']|reason] eqn:H; cbn [fst].
  - by apply (exec_budget e c b s r s').
  - by apply (P_weaken_N (mint_requests c)).
Qed.

Lemma run_budget txs : ∀ b s,
  P (b + mint_requests_run txs) s -> P b (run keccak256 txs s).
Proof.
  induction txs as [|[e c] rest IH]; intros b s HP; cbn [run mint_requests_run] in *.
  - by rewrite N.add_0_r in HP.
  - apply IH. apply apply_call_budget.
    replace (b + mint_requests_run rest + mint_requests c)
      with (b + (mint_requests c + mint_requests_run rest)) by lia.
    exact HP.
Qed.

End Budget.


(** ** Invariants of the ledger *)

Lemma exists_of_owner s s' id :
  _ownerOf s' id = _ownerOf s id -> _exists s' id = _exists s id.
Proof. unfold _exists. by intros ->. Qed.

Lemma same_record_fields c c' :
  set_isVerified false c' = set_isVerified false c ->
  courseHash c' = courseHash c ∧ studentHash c' = studentHash c ∧
  isRevocable c' = isRevocable c ∧ isSoulbound c' = isSoulbound c ∧
  validUntil c' = validUntil c.
Proof.
  intros E. repeat split.
  - exact (f_equal courseHash E).
  - exact (f_equal studentHash E).
  - exact (f_equal isRevocable E).
  - exact (f_equal isSoulbound E).
  - exact (f_equal validUntil E).
Qed.

Lemma hash_used_mono s s' h :
  usedHashes s ⊆ usedHashes s' -> hash_used s h = true -> hash_used s' h = true.
Proof.
  unfold hash_used. intros Hsub H. apply bool_decide_eq_true_1 in H.
  apply bool_decide_eq_true_2. set_solver.
Qed.

Lemma ledger_inv_effect s s' :
  effect keccak256 s s' -> ledger_inv keccak256 s -> ledger_inv keccak256 s'.
Proof.
  intros [Htok Hhash Hp _] (Hpaused & Hrev & Hused & Hsb).
  split; [congruence|]. split; [|split].
  - intros id Hr. destruct (Htok id) as [Ho Hr' _|Hex0 Ho _ _ _| | |]; try congruence.
    + rewrite (exists_of_owner _ _ _ Ho). apply Hrev. congruence.
    + by rewrite (exists_of_owner _ _ _ Ho).
  - intros id Hex. destruct (Htok id) as [Ho _ Hc|Hex0 Ho _ Hc _|Hex0 _ _ _ _ Hc| |]; try congruence.
    + apply same_record_fields in Hc as (Hch & Hsh & _).
      unfold commitment_of. rewrite Hch, Hsh.
      apply (hash_used_mono s); [exact Hhash|]. apply Hused.
      by rewrite <- (exists_of_owner _ _ _ Ho).
    + rewrite Hc. apply (hash_used_mono s); [exact Hhash|]. by apply Hused.
    + rewrite Hc. apply (hash_used_mono s); [exact Hhash|]. by apply Hused.
  - intros id Hs. destruct (Htok id) as [_ _ Hc|_ _ _ Hc _|_ _ _ _ _ Hc|_ _ _ Hc _|_ _ _ _ Hc _ _].
    + apply same_record_fields in Hc as (_ & _ & Hr & Hs' & _).
      rewrite Hr. apply Hsb. congruence.
    + rewrite Hc in *. by apply Hsb.
    + rewrite Hc in *. by apply Hsb.
    + rewrite Hc in *. reflexivity.
    + rewrite Hc, Hs. reflexivity.
Qed.

Lemma uint256_modulus_gt_1 : 1 < uint256_modulus.
Proof. unfold uint256_modulus. reflexivity. Qed.

Lemma increment_no_wrap c b :
  c + (b + 1) < uint256_modulus -> (c + 1) mod uint256_modulus = c + 1.
Proof. intros H. apply N.mod_small. lia. Qed.

Lemma increment_changes c :
  c < uint256_modulus -> (c + 1) mod uint256_modulus ≠ c.
Proof.
  intros H E. pose proof uint256_modulus_gt_1 as H1.
  destruct (decide (c + 1 < uint256_modulus)) as [Hlt|Hge].
  - rewrite N.mod_small in E by exact Hlt. lia.
  - assert (c + 1 = uint256_modulus) as Heq by lia.
    rewrite Heq, N.Div0.mod_same in E. lia.
Qed.

Lemma counter_inv_keep b s s' :
  effect keccak256 s s' -> tokenIdCounter s' = tokenIdCounter s ->
  counter_inv b s -> counter_inv b s'.
Proof.
  intros [Htok _ _ _] Hc [Hb Hids]. split; [by rewrite Hc|].
  intros id Hex. rewrite Hc.
  destruct (Htok id) as [Ho _ _|Hex0 _ _ _ _|Hex0 _ _ _ _ _|_ _ Hex' _ _|_ _ Hc' _ _ _ _];
    try (by apply Hids); try congruence.
  - apply Hids. by rewrite <- (exists_of_owner _ _ _ Ho).
  - exfalso. apply (increment_changes (tokenIdCounter s)); [lia|congruence].
Qed.

Lemma counter_inv_mint b s s' :
  effect keccak256 s s' ->
  tokenIdCounter s' = (tokenIdCounter s + 1) mod uint256_modulus ->
  counter_inv (b + 1) s -> counter_inv b s'.
Proof.
  intros [Htok _ _ _] Hc [Hb Hids].
  rewrite (increment_no_wrap _ b) in Hc by exact Hb.
  split; [rewrite Hc; lia|].
  intros id Hex. rewrite Hc.
  assert (_exists s id = true ∨ id = tokenIdCounter s') as [Hold| ->].
  { destruct (Htok id) as [Ho _ _|Hex0 _ _ _ _|Hex0 _ _ _ _ _|_ _ Hex' _ _|_ Hid _ _ _ _ _];
      try (by left); try congruence.
    - left. by rewrite <- (exists_of_owner _ _ _ Ho).
    - by right. }
  - specialize (Hids id Hold). lia.
  - lia.
Qed.

Lemma counter_inv_weaken b s : counter_inv (b + 1) s -> counter_inv b s.
Proof. intros [Hb Hids]. split; [lia|exact Hids]. Qed.




Lemma soulbound_held_effect t o s s' :
  effect keccak256 s s' -> soulbound_held t o s -> soulbound_held t o s'.
Proof.
  intros [Htok _ _ _] (Ho & Hex & Hsb & Hrv).
  destruct (Htok t) as [Ho' _ Hc| | | |]; try congruence.
  apply same_record_fields in Hc as (_ & _ & Hr & Hs & _).
  split; [congruence|]. split; [by rewrite (exists_of_owner _ _ _ Ho')|].
  split; congruence.
Qed.


(** ** Reachable states *)

Lemma initial_ledger_inv deployer : ledger_inv keccak256 (initial_state deployer).
Proof.
  split; [reflexivity|]. split; [|split]; intros id; acc; cbn [initial_state owners credentials revokedCredentials].
  - intros H. apply bool_decide_eq_true_1 in H. set_solver.
  - rewrite lookup_empty. cbn. discriminate.
  - rewrite lookup_empty. cbn. discriminate.
Qed.

Lemma initial_counter_inv deployer b :
  b < uint256_modulus -> counter_inv b (initial_state deployer).
Proof.
  intros Hb. split; [cbn; lia|]. intros id. acc. cbn [initial_state owners].
  rewrite lookup_empty. cbn. discriminate.
Qed.

Lemma run_ledger_inv txs s :
  ledger_inv keccak256 s -> ledger_inv keccak256 (run keccak256 txs s).
Proof.
  intros H.
  apply (run_budget (fun _ => ledger_inv keccak256)) with (b := 0); eauto using ledger_inv_effect.
Qed.

Lemma run_counter_inv txs b s :
  counter_inv (b + mint_requests_run txs) s -> counter_inv b (run keccak256 txs s).
Proof.
  apply (run_budget counter_inv);
    eauto using counter_inv_keep, counter_inv_mint, counter_inv_weaken.
Qed.


Lemma run_soulbound_held t o txs s :
  soulbound_held t o s -> soulbound_held t o (run keccak256 txs s).
Proof.
  intros H.
  apply (run_budget (fun _ => soulbound_held t o)) with (b := 0);
    eauto using soulbound_held_effect.
Qed.

Lemma run_hash_used h txs s :
  hash_used s h = true -> hash_used (run keccak256 txs s) h = true.
Proof.
  intros H.
  apply (run_budget (fun _ s => hash_used s h = true)) with (b := 0); auto.
  - intros _ s1 s2 [_ Hh _ _] _. by apply hash_used_mono.
  - intros _ s1 s2 [_ Hh _ _] _. by apply hash_used_mono.
Qed.

(** ** Forward execution of the guards *)

Lemma mintCredential_duplicate e to ch sh eh im ct sb vu zk s :
  issuance_inputs_valid e to ch sh im ct vu s = true ->
  hash_used s (credentialHash_of keccak256 ch sh) = true ->
  apply_call keccak256 e (MintCredential to ch sh eh im ct sb vu zk) s
  = (s, Reverted "Credential already exists").
Proof.
  unfold issuance_inputs_valid. rewrite !andb_true_iff.
  intros [[[[[[[Hr Hp] Hto] Hch] Hsh] Him] [Hct1 Hct2]] Hvu] Hused.
  unfold apply_call. unfold_sol. cbn. cbn in Hch, Hsh, Him.
  rewrite Hr; cbn. rewrite Hp; cbn. rewrite Hto; cbn.
  rewrite Hch; cbn. rewrite Hsh; cbn. rewrite Him; cbn. rewrite Hct1, Hct2; cbn. rewrite Hvu; cbn.
  rewrite Hused; cbn. reflexivity.
Qed.


Lemma not_expired_of_valid vu ts :
  (vu =? 0) || (ts <? vu) = true -> negb ((0 <? vu) && (vu <? ts)) = true.
Proof.
  intros H. apply negb_true_iff, andb_false_iff.
  apply orb_true_iff in H as [H|H].
  - left. apply N.eqb_eq in H. subst. reflexivity.
  - right. apply N.ltb_lt in H. apply N.ltb_ge. lia.
Qed.

Lemma mintCredential_succeeds e to ch sh eh im ct sb vu zk s :
  issuance_inputs_valid e to ch sh im ct vu s = true ->
  hash_used s (credentialHash_of keccak256 ch sh) = false ->
  accepts e to = true ->
  let tokenId := (tokenIdCounter s + 1) mod uint256_modulus in
  _exists s tokenId = false ->
  is_revoked s tokenId = false ->
  ∃ s1, exec keccak256 e (MintCredential to ch sh eh im ct sb vu zk) s = Ok (Some tokenId, s1).
Proof.
  intros Hv Hused Hacc tokenId Hex Hrv.
  unfold issuance_inputs_valid in Hv. rewrite !andb_true_iff in Hv.
  destruct Hv as [[[[[[[Hr Hp] Hto] Hch] Hsh] Him] [Hct1 Hct2]] Hvu].
  unfold_sol. cbn. cbn in Hch, Hsh, Him.
  rewrite Hr; cbn. rewrite Hp; cbn. rewrite Hto; cbn.
  rewrite Hch; cbn. rewrite Hsh; cbn. rewrite Him; cbn. rewrite Hct1, Hct2; cbn. rewrite Hvu; cbn.
  rewrite Hused; cbn.
  subst tokenId. acc. cbn.
  rewrite Hex; cbn. rewrite Hp; cbn. rewrite lookup_insert_eq; cbn.
  rewrite orb_true_r; cbn. rewrite Hrv; cbn.
  rewrite !lookup_insert_eq; cbn. rewrite (not_expired_of_valid _ _ Hvu); cbn.
  rewrite Hex; cbn. rewrite Hacc; cbn.
  eexists. reflexivity.
Qed.


Lemma transfers_revert_soulbound e from to t s :
  isSoulbound (credential_at s t) = true ->
  apply_call keccak256 e (TransferFrom from to t) s
    = (s, Reverted "Soulbound tokens cannot be transferred") ∧
  apply_call keccak256 e (SafeTransferFrom from to t) s
    = (s, Reverted "Soulbound tokens cannot be transferred") ∧
  apply_call keccak256 e (SafeTransferFromData from to t) s
    = (s, Reverted "Soulbound tokens cannot be transferred").
Proof.
  intros Hsb. unfold apply_call. unfold_sol. cbn. rewrite Hsb. cbn. done.
Qed.


Lemma burn_post_purged t s :
  _exists (burn_post t s) t = false ∧
  credentials (burn_post t s) !! t = None ∧
  is_revoked (burn_post t s) t = false ∧
  usedHashes (burn_post t s) = usedHashes s ∧
  tokenIdCounter (burn_post t s) = tokenIdCounter s.
Proof.
  unfold burn_post. acc. repeat split.
  - by rewrite lookup_delete_eq.
  - by rewrite lookup_delete_eq.
  - apply bool_decide_eq_false_2.
    rewrite elem_of_difference, elem_of_singleton. tauto.
Qed.


Lemma reachable_fresh deployer txs0 :
  let s := run keccak256 txs0 (initial_state deployer) in
  mint_requests_run txs0 + 1 < uint256_modulus ->
  (tokenIdCounter s + 1) mod uint256_modulus = tokenIdCounter s + 1 ∧
  _exists s (tokenIdCounter s + 1) = false ∧
  is_revoked s (tokenIdCounter s + 1) = false.
Proof.
  intros s Hb.
  assert (counter_inv 1 s) as [Hc Hids].
  { apply run_counter_inv, initial_counter_inv. lia. }
  assert (ledger_inv keccak256 s) as (_ & Hrev & _).
  { apply run_ledger_inv, initial_ledger_inv. }
  assert (_exists s (tokenIdCounter s + 1) = false) as Hex.
  { destruct (_exists s (tokenIdCounter s + 1)) eqn:E; [|reflexivity].
    apply Hids in E. lia. }
  split; [apply N.mod_small; lia|]. split; [exact Hex|].
  destruct (is_revoked s (tokenIdCounter s + 1)) eqn:E; [|reflexivity].
  apply Hrev in E. congruence.
Qed.

(** C2: in a state reached from deployment, an issuance with valid inputs
    and an unused (courseHash, studentHash) commitment succeeds and returns
    the fresh token id [tokenIdCounter + 1], owned by the recipient; after
    any further transactions (so in particular while that token has not
    been burned) a second issuance with the same commitment and otherwise
    valid inputs reverts with "Credential already exists" and leaves the
    storage as it was; the batch path, [_mintSingleCredential], reverts on
    the same guard. *)
Theorem duplicate_issuance_rejected
    deployer txs0 e1 to1 ch sh eh1 im1 ct1 sb1 vu1 zk1 txs e2 to2 eh2 im2 ct2 sb2 vu2 zk2 :
  let s := run keccak256 txs0 (initial_state deployer) in
  let first := MintCredential to1 ch sh eh1 im1 ct1 sb1 vu1 zk1 in
  let second := MintCredential to2 ch sh eh2 im2 ct2 sb2 vu2 zk2 in
  let tokenId := tokenIdCounter s + 1 in
  let s1 := fst (apply_call keccak256 e1 first s) in
  let s2 := run keccak256 txs s1 in
  mint_requests_run txs0 + 1 < uint256_modulus ->
  issuance_inputs_valid e1 to1 ch sh im1 ct1 vu1 s = true ->
  accepts e1 to1 = true ->
  hash_used s (credentialHash_of keccak256 ch sh) = false ->
  issuance_inputs_valid e2 to2 ch sh im2 ct2 vu2 s2 = true ->
  snd (apply_call keccak256 e1 first s) = Success (Some tokenId) ∧
  _exists s tokenId = false ∧
  _ownerOf s1 tokenId = to1 ∧
  apply_call keccak256 e2 second s2 = (s2, Reverted "Credential already exists") ∧
  _mintSingleCredential keccak256 e2 to2 ch sh eh2 im2 ct2 sb2 vu2 zk2 s2
  = Revert "Credential already exists".
Proof.
  intros s first second tokenId s1 s2 Hb Hv1 Hacc Hfree Hv2.
  destruct (reachable_fresh deployer txs0 Hb) as (Hmod & Hex & Hrv).
  fold s in Hmod, Hex, Hrv.
  destruct (mintCredential_succeeds e1 to1 ch sh eh1 im1 ct1 sb1 vu1 zk1 s Hv1 Hfree Hacc)
    as [st Hst]; rewrite ?Hmod; try assumption.
  rewrite Hmod in Hst.
  assert (apply_call keccak256 e1 first s = (st, Success (Some tokenId))) as Hcall.
  { unfold apply_call, first. by rewrite Hst. }
  assert (s1 = st) as Hs1 by (unfold s1; by rewrite Hcall).
  apply mintCredential_inv in Hst as (id & [= <-] & Hbody).
  apply mint_body_effect in Hbody as (_ & _ & Hid & _ & Hown & _ & Hused & _).
  assert (hash_used s2 (credentialHash_of keccak256 ch sh) = true) as Hused2.
  { apply run_hash_used. rewrite Hs1. unfold hash_used. rewrite Hused.
    apply bool_decide_eq_true_2.
    apply elem_of_union. left. by apply elem_of_singleton. }
  split; [by rewrite Hcall|]. split; [exact Hex|]. split; [rewrite Hs1; exact Hown|].
  split; [by apply mintCredential_duplicate|].
  unfold _mintSingleCredential, mint_body, mbind, M_bind, bind, gets, require. cbn.
  rewrite Hused2. reflexivity.
Qed.

(** C4: for a token that exists in a reachable state with
    [isSoulbound = true], the owner stays the same through every later run
    of transactions, and [transferFrom] and both [safeTransferFrom]
    overloads revert with "Soulbound tokens cannot be transferred" for
    every caller, sender and recipient. *)
Theorem soulbound_owner_never_changes deployer txs0 tokenId txs e from to :
  let s := run keccak256 txs0 (initial_state deployer) in
  let s' := run keccak256 txs s in
  _exists s tokenId = true ->
  isSoulbound (credential_at s tokenId) = true ->
  _ownerOf s' tokenId = _ownerOf s tokenId ∧
  apply_call keccak256 e (TransferFrom from to tokenId) s'
    = (s', Reverted "Soulbound tokens cannot be transferred") ∧
  apply_call keccak256 e (SafeTransferFrom from to tokenId) s'
    = (s', Reverted "Soulbound tokens cannot be transferred") ∧
  apply_call keccak256 e (SafeTransferFromData from to tokenId) s'
    = (s', Reverted "Soulbound tokens cannot be transferred").
Proof.
  intros s s' Hex Hsb.
  assert (ledger_inv keccak256 s) as (_ & _ & _ & Hnr).
  { apply run_ledger_inv, initial_ledger_inv. }
  assert (soulbound_held tokenId (_ownerOf s tokenId) s') as (Ho & _ & Hsb' & _).
  { apply run_soulbound_held. repeat split; auto. }
  split; [exact Ho|]. by apply transfers_revert_soulbound.
Qed.

(** C5, as amended: a successful [burn] (which needs a revocable
    credential) removes the token, its credential record and its revoked
    flag, and leaves [usedHashes] as it was; the (courseHash, studentHash)
    commitment of the burned credential stays registered, so every later
    [mintCredential] with that pair and otherwise valid inputs reverts with
    "Credential already exists". *)
Theorem burn_keeps_commitment_slot
    deployer txs0 e tokenId txs e2 to2 eh2 im2 ct2 sb2 vu2 zk2 :
  let s := run keccak256 txs0 (initial_state deployer) in
  let cred := credential_at s tokenId in
  let s1 := fst (apply_call keccak256 e (Burn tokenId) s) in
  let s2 := run keccak256 txs s1 in
  snd (apply_call keccak256 e (Burn tokenId) s) = Success None ->
  issuance_inputs_valid e2 to2 (courseHash cred) (studentHash cred) im2 ct2 vu2 s2 = true ->
  isRevocable cred = true ∧
  _exists s1 tokenId = false ∧
  credentials s1 !! tokenId = None ∧
  is_revoked s1 tokenId = false ∧
  usedHashes s1 = usedHashes s ∧
  hash_used s1 (commitment_of keccak256 cred) = true ∧
  apply_call keccak256 e2
    (MintCredential to2 (courseHash cred) (studentHash cred) eh2 im2 ct2 sb2 vu2 zk2) s2
  = (s2, Reverted "Credential already exists").
Proof.
  intros s cred s1 s2 Hok Hv2.
  assert (ledger_inv keccak256 s) as (_ & _ & Hhash & _).
  { apply run_ledger_inv, initial_ledger_inv. }
  unfold s1 in *. unfold apply_call in *.
  destruct (exec keccak256 e (Burn tokenId) s) as [[r st]|reason] eqn:Hexec; [|discriminate Hok].
  cbn [fst snd] in *.
  assert (_exists s tokenId = true ∧ isRevocable cred = true ∧ st = burn_post tokenId s)
    as (Hex & Hrv & ->).
  { clear Hv2 s2. unfold cred. sol_inv Hexec. repeat split; assumption. }
  destruct (burn_post_purged tokenId s) as (P1 & P2 & P3 & P4 & _).
  assert (hash_used (burn_post tokenId s) (commitment_of keccak256 cred) = true) as Hused.
  { unfold hash_used. rewrite P4. by apply Hhash. }
  repeat split; try assumption.
  apply mintCredential_duplicate; [exact Hv2|].
  apply run_hash_used. exact Hused.
Qed.


(** ** Further properties of the ledger *)

(** A mint succeeds exactly when its guards hold, and then leaves
    [mint_post]. *)
Lemma mint_body_inv e to ch sh eh im ct sb vu zk s id s' :
  mint_body keccak256 e to ch sh eh im ct sb vu zk s = Ok (id, s') ->
  mint_guards keccak256 e to ch sh vu s = true ∧
  id = (tokenIdCounter s + 1) mod uint256_modulus ∧
  s' = mint_post keccak256 e to ch sh eh im ct sb vu zk s.
Proof.
  intros H. unfold mint_guards. sol_inv H. acc.
  rewrite !lookup_insert_eq in *. cbn [default from_option id validUntil isSoulbound] in *.
  repeat match goal with
  | H : _ = true |- _ => rewrite H
  | H : negb _ = true |- _ => rewrite H
  end.
  split; [|split]; reflexivity.
Qed.

Lemma mint_body_run e to ch sh eh im ct sb vu zk s :
  mint_guards keccak256 e to ch sh vu s = true ->
  mint_body keccak256 e to ch sh eh im ct sb vu zk s
  = Ok ((tokenIdCounter s + 1) mod uint256_modulus,
        mint_post keccak256 e to ch sh eh im ct sb vu zk s).
Proof.
  unfold mint_guards. rewrite !andb_true_iff.
  intros [[[[[[Hused Hto] Hex] Hp] Hrv] Hvu] Hacc].
  unfold_sol. cbn. rewrite Hused; cbn. rewrite Hto; cbn.
  acc. cbn. rewrite Hex; cbn. rewrite Hp; cbn.
  rewrite lookup_insert_eq; cbn. rewrite orb_true_r; cbn. rewrite Hrv; cbn.
  rewrite !lookup_insert_eq; cbn. rewrite Hvu; cbn. rewrite Hex; cbn. rewrite Hacc; cbn.
  reflexivity.
Qed.

Section Preserved.
Variable P : State -> Prop.
Hypothesis P_mint : ∀ e to ch sh eh im ct sb vu zk s id s',
  mint_body keccak256 e to ch sh eh im ct sb vu zk s = Ok (id, s') -> P s -> P s'.
Hypothesis P_other : ∀ e c s r s',
  is_mint c = false -> exec keccak256 e c s = Ok (r, s') -> P s -> P s'.

Lemma batch_loop_preserved e request indices : ∀ s u s',
  batch_loop keccak256 e request indices s = Ok (u, s') -> P s -> P s'.
Proof.
  induction indices as [|i rest IH]; intros s u s' H HP.
  - cbn in H. by injection H as _ <-.
  - cbn [batch_loop] in H. unfold mbind, M_bind, bind in H.
    repeat match type of H with
    | context [array_get ?l ?i ?st] =>
        let E := fresh "E" in
        destruct (array_get l i st) as [[? ?]|] eqn:E; [|discriminate H];
        apply array_get_inv in E; rewrite E in *; clear E
    end.
    unfold _mintSingleCredential, mbind, M_bind, bind in H.
    match type of H with
    | context [mint_body ?k ?e ?a1 ?a2 ?a3 ?a4 ?a5 ?a6 ?a7 ?a8 ?a9 ?st] =>
        destruct (mint_body k e a1 a2 a3 a4 a5 a6 a7 a8 a9 st) as [[id st1]|] eqn:Hm;
        [|discriminate H]
    end.
    cbn in H. apply (IH st1 u s' H). by eapply P_mint.
Qed.

Lemma batchMint_inv e request s r s' :
  exec keccak256 e (BatchMintCredentials request) s = Ok (r, s') ->
  hasRole ISSUER_ROLE (msg_sender e) s = true ∧ paused s = false ∧
  (length (recipients request) <= 50)%nat ∧
  length (recipients request) = length (courseHashes request) ∧
  batch_loop keccak256 e request (seq 0 (length (recipients request))) s = Ok (tt, s').
Proof.
  intros H.
  unfold exec, batchMintCredentials, onlyRole, whenNotPaused in H.
  unfold mbind, M_bind, bind, gets, require, mret, M_ret, ret, revert in H.
  cbn -[batch_loop] in H.
  repeat match type of H with
  | context [if ?b then _ else _] => destruct b eqn:?; cbn -[batch_loop] in H;
                                     try discriminate H
  end.
  destruct (batch_loop keccak256 e request (seq 0 (length (recipients request))) s)
    as [[[] st1]|] eqn:Hl; [|discriminate H].
  injection H as _ <-.
  repeat split; try assumption.
  - by apply negb_true_iff.
  - by apply Nat.leb_le.
  - by apply Nat.eqb_eq.
Qed.

Lemma exec_preserved e c s r s' :
  exec keccak256 e c s = Ok (r, s') -> P s -> P s'.
Proof.
  intros H HP. destruct (is_mint c) eqn:Hm; [|by eapply P_other].
  destruct c; try discriminate Hm.
  - apply mintCredential_inv in H as (id & _ & Hb). by eapply P_mint.
  - apply batchMint_inv in H as (_ & _ & _ & _ & Hl). by eapply batch_loop_preserved.
Qed.

Lemma apply_call_preserved e c s : P s -> P (fst (apply_call keccak256 e c s)).
Proof.
  intros HP. unfold apply_call.
  destruct (exec keccak256 e c s) as [[r s']|reason] eqn:H; cbn [fst]; [|exact HP].
  by eapply exec_preserved.
Qed.

Lemma run_preserved txs : ∀ s, P s -> P (run keccak256 txs s).
Proof.
  induction txs as [|[e c] rest IH]; intros s HP; cbn [run]; [exact HP|].
  by apply IH, apply_call_preserved.
Qed.

End Preserved.

(** ** Issuer lists *)

Lemma index_from_spec t l : ∀ k,
  match index_from k t l with
  | Some i => ∃ l1 l2, l = (l1 ++ t :: l2)%list ∧ i = (k + length l1)%nat ∧ t ∉ l1
  | None => t ∉ l
  end.
Proof.
  induction l as [|x l IH]; intros k; cbn [index_from].
  - apply not_elem_of_nil.
  - destruct (x =? t) eqn:E.
    + apply N.eqb_eq in E as ->. exists [], l.
      split; [reflexivity|]. split; [cbn; lia|apply not_elem_of_nil].
    + apply N.eqb_neq in E. specialize (IH (S k)).
      destruct (index_from (S k) t l) as [i|].
      * destruct IH as (l1 & l2 & -> & -> & Hn). exists (x :: l1), l2.
        split; [reflexivity|]. split; [cbn; lia|].
        rewrite not_elem_of_cons. split; [congruence|exact Hn].
      * rewrite not_elem_of_cons. split; [congruence|exact IH].
Qed.

Lemma swap_remove_perm t l : t ∈ l -> l ≡ₚ t :: swap_remove t l.
Proof.
  intros Hin. unfold swap_remove. pose proof (index_from_spec t l 0) as Hs.
  destruct (index_from 0 t l) as [i|]; [|done].
  destruct Hs as (l1 & l2 & -> & -> & _). cbn [Nat.add].
  rewrite <- (Nat.add_0_r (length l1)), insert_app_r. cbn [list_insert insert].
  induction l2 as [|z l2 _] using rev_ind.
  - rewrite (last_last l1 t 0), removelast_last. symmetry. apply Permutation_cons_append.
  - replace (l1 ++ t :: l2 ++ [z])%list with ((l1 ++ t :: l2) ++ [z])%list
      by (by rewrite <- app_assoc).
    rewrite last_last.
    replace (l1 ++ z :: l2 ++ [z])%list with ((l1 ++ z :: l2) ++ [z])%list
      by (by rewrite <- app_assoc).
    rewrite removelast_last. solve_Permutation.
Qed.

Lemma swap_remove_absent t l : t ∉ l -> swap_remove t l = l.
Proof.
  intros Hn. unfold swap_remove. pose proof (index_from_spec t l 0) as Hs.
  destruct (index_from 0 t l) as [i|]; [|reflexivity].
  destruct Hs as (l1 & l2 & -> & _ & _). exfalso. apply Hn.
  apply elem_of_app. right. apply elem_of_cons. by left.
Qed.

Lemma swap_remove_NoDup t l :
  NoDup l -> t ∈ l ->
  NoDup (swap_remove t l) ∧ ∀ id, id ∈ swap_remove t l ↔ id ∈ l ∧ id ≠ t.
Proof.
  intros Hnd Hin. pose proof (swap_remove_perm t l Hin) as Hp.
  rewrite Hp in Hnd. apply NoDup_cons in Hnd as [Hnt Hnd'].
  split; [exact Hnd'|]. intros id.
  pose proof (elem_of_Permutation_proper id _ _ Hp) as Hiff.
  rewrite Hiff, elem_of_cons. split.
  - intros H. split; [by right|]. intros ->. contradiction.
  - intros [[->|H] Hne]; [contradiction|exact H].
Qed.

(** X1: the loop of [_removeFromIssuerList] takes exactly one occurrence
    of the token out of the list, whatever its position (the order of the
    others may change), and leaves a list without the token as it is. *)
Theorem swap_remove_removes_one (tokenId : N) (l : list N) :
  (tokenId ∈ l -> l ≡ₚ tokenId :: swap_remove tokenId l) ∧
  (tokenId ∈ l -> length (swap_remove tokenId l) = pred (length l)) ∧
  (tokenId ∉ l -> swap_remove tokenId l = l).
Proof.
  split; [apply swap_remove_perm|]. split; [|apply swap_remove_absent].
  intros Hin. apply swap_remove_perm, Permutation_length in Hin.
  cbn [length] in Hin. by rewrite Hin.
Qed.

Lemma issuer_lists_inv_same s s' :
  issuerCredentials s' = issuerCredentials s ->
  (∀ id, _ownerOf s' id = _ownerOf s id ∨ (_exists s' id = true ∧ _exists s id = true)) ->
  (∀ id, issuer (credential_at s' id) = issuer (credential_at s id)) ->
  issuer_lists_inv s -> issuer_lists_inv s'.
Proof.
  intros Hl Hex Hiss Hinv iss. destruct (Hinv iss) as [Hnd Hmem].
  unfold getIssuerCredentials in *. rewrite Hl. split; [exact Hnd|].
  intros id. rewrite Hmem, Hiss.
  assert (_exists s' id = _exists s id) as ->; [|done].
  destruct (Hex id) as [Ho|[-> ->]]; [|done]. by apply exists_of_owner.
Qed.

Lemma issuer_lists_mint e to ch sh eh im ct sb vu zk s id s' :
  mint_body keccak256 e to ch sh eh im ct sb vu zk s = Ok (id, s') ->
  issuer_lists_inv s -> issuer_lists_inv s'.
Proof.
  intros H Hinv. apply mint_body_inv in H as (Hg & -> & ->).
  unfold mint_guards in Hg. rewrite !andb_true_iff in Hg.
  destruct Hg as [[[[[[_ Hto] Hex] _] _] _] _].
  apply negb_true_iff in Hex.
  set (t := (tokenIdCounter s + 1) mod uint256_modulus) in *.
  assert (∀ iss, t ∉ getIssuerCredentials iss s) as Hfresh.
  { intros iss Hin. apply (Hinv iss) in Hin as [Hin _]. congruence. }
  intros iss. destruct (Hinv iss) as [Hnd Hmem]. specialize (Hfresh iss).
  unfold getIssuerCredentials, mint_post in *. fold t. acc.
  destruct (decide (iss = msg_sender e)) as [->|Hne].
  - rewrite lookup_insert_eq. cbn [default from_option id]. split.
    + apply NoDup_app. split; [exact Hnd|]. split; [|apply NoDup_singleton].
      intros x Hx Hx'. apply list_elem_of_singleton in Hx'. by subst.
    + intros k. rewrite elem_of_app, list_elem_of_singleton, Hmem.
      destruct (decide (k = t)) as [->|Hk].
      * rewrite !lookup_insert_eq. cbn. rewrite Hto. intuition congruence.
      * rewrite !lookup_insert_ne by congruence. intuition congruence.
  - rewrite lookup_insert_ne by congruence. split; [exact Hnd|].
    intros k. rewrite Hmem.
    destruct (decide (k = t)) as [->|Hk].
    + rewrite !lookup_insert_eq. cbn. rewrite Hto.
      split; [intros [Hk _]; congruence|intros [_ Hk]; congruence].
    + by rewrite !lookup_insert_ne by congruence.
Qed.

Lemma issuer_lists_burn t s :
  _exists s t = true ->
  issuer_lists_inv s -> issuer_lists_inv (burn_post t s).
Proof.
  intros Hex Hinv iss. set (iss0 := issuer (credential_at s t)).
  assert (t ∈ getIssuerCredentials iss0 s) as Hin by (by apply (Hinv iss0)).
  destruct (Hinv iss0) as [Hnd0 Hmem0].
  destruct (swap_remove_NoDup t _ Hnd0 Hin) as [Hnd1 Hmem1].
  destruct (Hinv iss) as [Hnd Hmem].
  assert (∀ k, (_exists (burn_post t s) k = true ∧
                issuer (credential_at (burn_post t s) k) = iss) ↔
               (_exists s k = true ∧ issuer (credential_at s k) = iss) ∧ k ≠ t) as Hpost.
  { intros k. unfold burn_post. acc. destruct (decide (k = t)) as [->|Hk].
    - rewrite !lookup_delete_eq. cbn.
      split; [intros [? _]; discriminate|by intros [_ ?]].
    - rewrite !lookup_delete_ne by congruence. tauto. }
  assert (getIssuerCredentials iss (burn_post t s)
          = if decide (iss = iss0) then swap_remove t (getIssuerCredentials iss0 s)
            else getIssuerCredentials iss s) as ->.
  { unfold getIssuerCredentials, burn_post. acc. fold iss0.
    destruct (decide (iss = iss0)) as [->|Hne].
    - by rewrite lookup_insert_eq.
    - by rewrite lookup_insert_ne by congruence. }
  destruct (decide (iss = iss0)) as [->|Hne].
  - split; [exact Hnd1|]. intros k. by rewrite Hmem1, Hmem0, Hpost.
  - split; [exact Hnd|]. intros k. rewrite Hpost, Hmem. split; [|tauto].
    intros [Hk1 Hk2]. split; [by split|]. intros ->. apply Hne. symmetry. exact Hk2.
Qed.

(** What a successful burn and a successful transfer passed, and left. *)
Lemma burn_inv e t s r s' :
  exec keccak256 e (Burn t) s = Ok (r, s') ->
  s' = burn_post t s ∧ _exists s t = true ∧ is_revoked s t = false ∧
  isRevocable (credential_at s t) = true ∧ isSoulbound (credential_at s t) = false ∧
  approved_or_owner (msg_sender e) t s = true ∧ paused s = false ∧
  isCredentialExpired e t s = false.
Proof.
  intros H. unfold approved_or_owner, isCredentialExpired. sol_inv H. acc.
  repeat match goal with
  | H : negb _ = true |- _ => apply negb_true_iff in H
  end.
  repeat match goal with
  | H : _ = _ |- _ => rewrite H
  end.
  cbn. repeat split; try reflexivity; try assumption.
  match goal with
  | H : negb ?x || ?y = true, H' : ?y = false |- ?x = false =>
      rewrite H', orb_false_r in H; by apply negb_true_iff in H
  end.
Qed.

Lemma transfer_inv e c from to t s r s' :
  is_transfer c from to t ->
  exec keccak256 e c s = Ok (r, s') ->
  s' = transfer_post to t s ∧ _exists s t = true ∧ _ownerOf s t = from ∧
  negb (to =? 0) = true ∧ is_revoked s t = false ∧
  isSoulbound (credential_at s t) = false ∧
  approved_or_owner (msg_sender e) t s = true ∧ paused s = false ∧
  isCredentialExpired e t s = false.
Proof.
  intros [->|[->| ->]] H; unfold approved_or_owner, isCredentialExpired; sol_inv H; acc.
  all: repeat match goal with
       | H : negb _ = true |- _ => apply negb_true_iff in H
       | H : (_ =? _) = true |- _ => apply N.eqb_eq in H
       end.
  all: repeat match goal with
       | H : _ = _ |- _ => rewrite H
       end.
  all: cbn; repeat split; try reflexivity; try assumption.
Qed.

Lemma issuer_lists_other e c s r s' :
  is_mint c = false -> exec keccak256 e c s = Ok (r, s') ->
  issuer_lists_inv s -> issuer_lists_inv s'.
Proof.
  intros Hm H Hinv.
  destruct c; try discriminate Hm.
  5: { apply burn_inv in H as (-> & Hex & _). by apply issuer_lists_burn. }
  all: sol_inv H; (apply (issuer_lists_inv_same s); [reflexivity| | |exact Hinv]); intros id; acc.
  all: try (left; reflexivity); try reflexivity.
  all: try (destruct (decide (id = tokenId)) as [->|Hne];
            [right; rewrite lookup_insert_eq; cbn; split; assumption
            |left; by rewrite lookup_insert_ne by congruence]).
  destruct (decide (id = tokenId)) as [->|Hne];
    [by rewrite lookup_insert_eq|by rewrite lookup_insert_ne by congruence].
Qed.

Lemma initial_issuer_lists deployer : issuer_lists_inv (initial_state deployer).
Proof.
  intros iss. unfold getIssuerCredentials. acc.
  cbn [initial_state issuerCredentials owners credentials].
  rewrite lookup_empty. cbn. split; [apply NoDup_nil_2|].
  intros id. rewrite lookup_empty. cbn. split; [by intros ?%elem_of_nil|by intros [? _]].
Qed.

(** X2: in every state reached from deployment, [getIssuerCredentials]
    of an address lists, once each, exactly the live tokens whose record
    names that address as issuer: minting appends the new token to the
    caller's list, burning takes the token out of its issuer's list, and
    nothing else touches the lists. *)
Theorem issuer_list_exact deployer txs iss :
  let s := run keccak256 txs (initial_state deployer) in
  NoDup (getIssuerCredentials iss s) ∧
  ∀ tokenId, tokenId ∈ getIssuerCredentials iss s ↔
             _exists s tokenId = true ∧ issuer (credential_at s tokenId) = iss.
Proof.
  intros s.
  apply (run_preserved issuer_lists_inv issuer_lists_mint issuer_lists_other txs
           (initial_state deployer) (initial_issuer_lists deployer)).
Qed.

(** ** Revocation *)

Lemma revoked_held_mint t o e to ch sh eh im ct sb vu zk s id s' :
  mint_body keccak256 e to ch sh eh im ct sb vu zk s = Ok (id, s') ->
  revoked_held t o s -> revoked_held t o s'.
Proof.
  intros H (Ho & Hex & Hrv). apply mint_body_inv in H as (Hg & -> & ->).
  unfold mint_guards in Hg. rewrite !andb_true_iff in Hg.
  destruct Hg as [[[[[[_ _] Hfresh] _] _] _] _]. apply negb_true_iff in Hfresh.
  assert (t ≠ (tokenIdCounter s + 1) mod uint256_modulus) as Hne.
  { intros Heq. rewrite Heq, Hfresh in Hex. discriminate. }
  unfold revoked_held, mint_post in *. acc.
  rewrite lookup_insert_ne by (intros Heq; by apply Hne). done.
Qed.

Lemma revoked_held_transfer t o to t' s :
  revoked_held t o s -> is_revoked s t' = false -> revoked_held t o (transfer_post to t' s).
Proof.
  intros (Ho & Hex & Hrv) Hrv'.
  assert (t ≠ t') as Hne by (intros Heq; rewrite Heq, Hrv' in Hrv; discriminate).
  unfold revoked_held, transfer_post in *. acc.
  rewrite lookup_insert_ne by (intros Heq; by apply Hne). done.
Qed.

Lemma revoked_held_burn t o t' s :
  revoked_held t o s -> is_revoked s t' = false -> revoked_held t o (burn_post t' s).
Proof.
  intros (Ho & Hex & Hrv) Hrv'.
  assert (t ≠ t') as Hne by (intros Heq; rewrite Heq, Hrv' in Hrv; discriminate).
  unfold revoked_held, burn_post in *. acc.
  rewrite lookup_delete_ne by (intros Heq; by apply Hne). split; [exact Ho|]. split; [exact Hex|].
  apply bool_decide_eq_true_1 in Hrv. apply bool_decide_eq_true_2.
  rewrite elem_of_difference, elem_of_singleton. by split.
Qed.

Lemma revoked_held_other t o e c s r s' :
  is_mint c = false -> exec keccak256 e c s = Ok (r, s') ->
  revoked_held t o s -> revoked_held t o s'.
Proof.
  intros Hm H HP. destruct c; try discriminate Hm.
  2: { apply (transfer_inv _ _ from to tokenId) in H as (-> & _ & _ & _ & Hrv & _);
         [by apply revoked_held_transfer|by left]. }
  2: { apply (transfer_inv _ _ from to tokenId) in H as (-> & _ & _ & _ & Hrv & _);
         [by apply revoked_held_transfer|right; by left]. }
  2: { apply (transfer_inv _ _ from to tokenId) in H as (-> & _ & _ & _ & Hrv & _);
         [by apply revoked_held_transfer|right; by right]. }
  2: { apply burn_inv in H as (-> & _ & Hrv & _). by apply revoked_held_burn. }
  all: sol_inv H; try exact HP.
  all: destruct HP as (Ho & Hex & Hrv); unfold revoked_held; acc.
  all: split; [exact Ho|]; split; [exact Hex|].
  all: apply bool_decide_eq_true_1 in Hrv; apply bool_decide_eq_true_2.
  all: rewrite elem_of_union; by right.
Qed.

Lemma run_revoked_held t o txs s :
  revoked_held t o s -> revoked_held t o (run keccak256 txs s).
Proof.
  apply (run_preserved (revoked_held t o)).
  - intros *. apply revoked_held_mint.
  - intros *. apply revoked_held_other.
Qed.

Lemma transfer_reverts_if e c from to t s :
  is_transfer c from to t ->
  is_revoked s t = true ∨ isSoulbound (credential_at s t) = true ∨ _exists s t = false ->
  ∃ reason, apply_call keccak256 e c s = (s, Reverted reason).
Proof.
  intros Hc Hbad. unfold apply_call.
  destruct (exec keccak256 e c s) as [[r s1]|reason] eqn:H; [|by eexists].
  apply (transfer_inv _ _ _ _ _ _ _ _ Hc) in H as (_ & Hex & _ & _ & Hrv & Hsb & _).
  destruct Hbad as [?|[?|?]]; congruence.
Qed.

Lemma burn_reverts_if e t s :
  is_revoked s t = true ∨ isSoulbound (credential_at s t) = true ∨ _exists s t = false ->
  ∃ reason, apply_call keccak256 e (Burn t) s = (s, Reverted reason).
Proof.
  intros Hbad. unfold apply_call.
  destruct (exec keccak256 e (Burn t) s) as [[r s1]|reason] eqn:H; [|by eexists].
  apply burn_inv in H as (_ & Hex & Hrv & _ & Hsb & _).
  destruct Hbad as [?|[?|?]]; congruence.
Qed.

(** X3: revocation is final.  After a successful [revokeCredential], and
    whatever transactions follow, the token still exists with the owner it
    had, is still revoked, [verifyCredential] answers
    (false, "Credential has been revoked"), and every transfer entry point
    and [burn] revert on it. *)
Theorem revocation_is_permanent e tokenId reason s txs e' :
  let res := apply_call keccak256 e (RevokeCredential tokenId reason) s in
  let s' := run keccak256 txs (fst res) in
  snd res = Success None ->
  _exists s' tokenId = true ∧
  _ownerOf s' tokenId = _ownerOf s tokenId ∧
  is_revoked s' tokenId = true ∧
  verifyCredential e' tokenId s' = (false, "Credential has been revoked") ∧
  (∀ c from to, is_transfer c from to tokenId ->
     ∃ reason', apply_call keccak256 e' c s' = (s', Reverted reason')) ∧
  (∃ reason', apply_call keccak256 e' (Burn tokenId) s' = (s', Reverted reason')).
Proof.
  intros res s' Hok.
  assert (revoked_held tokenId (_ownerOf s tokenId) (fst res)) as Hheld.
  { unfold res, apply_call in *.
    destruct (exec keccak256 e (RevokeCredential tokenId reason) s) as [[r s1]|] eqn:H;
      [|discriminate Hok].
    cbn [fst]. sol_inv H. unfold revoked_held. acc.
    split; [reflexivity|]. split; [assumption|].
    apply bool_decide_eq_true_2. rewrite elem_of_union, elem_of_singleton. by left. }
  apply (run_revoked_held _ _ txs) in Hheld. fold s' in Hheld.
  destruct Hheld as (Ho & Hex & Hrv).
  split; [exact Hex|]. split; [exact Ho|]. split; [exact Hrv|]. split.
  - unfold verifyCredential. by rewrite Hex, Hrv.
  - split.
    + intros c from to Hc. apply (transfer_reverts_if _ _ _ _ _ _ Hc). by left.
    + apply burn_reverts_if. by left.
Qed.

(** ** Soulbound credentials *)

Lemma run_app txs1 txs2 : ∀ s,
  run keccak256 (txs1 ++ txs2) s = run keccak256 txs2 (run keccak256 txs1 s).
Proof.
  induction txs1 as [|[e c] rest IH]; intros s; cbn [run app]; [reflexivity|apply IH].
Qed.

Lemma revoked_revocable_effect s s' :
  effect keccak256 s s' ->
  (∀ id, is_revoked s id = true -> isRevocable (credential_at s id) = true) ->
  (∀ id, is_revoked s' id = true -> isRevocable (credential_at s' id) = true).
Proof.
  intros [Htok _ _ _] Hinv id Hr.
  destruct (Htok id) as [_ Hr' Hc|_ _ Hrv Hc _|_ _ _ _ Hr' _|_ _ _ _ Hr'|_ _ _ _ _ Hr' _];
    try congruence.
  apply same_record_fields in Hc as (_ & _ & Hc & _). rewrite Hc. apply Hinv. congruence.
Qed.

Lemma run_revoked_revocable deployer txs id :
  let s := run keccak256 txs (initial_state deployer) in
  is_revoked s id = true -> isRevocable (credential_at s id) = true.
Proof.
  intros s. revert id.
  apply (run_budget (fun _ s => ∀ id, is_revoked s id = true ->
                                isRevocable (credential_at s id) = true)) with (b := 0).
  - intros _ s1 s2 Heff _. by apply revoked_revocable_effect.
  - intros _ s1 s2 Heff _. by apply revoked_revocable_effect.
  - auto.
  - intros id. acc. cbn [initial_state revokedCredentials].
    intros H. apply bool_decide_eq_true_1 in H. set_solver.
Qed.

Lemma revoke_soulbound_reverts e t reason s :
  _exists s t = true -> isRevocable (credential_at s t) = false ->
  apply_call keccak256 e (RevokeCredential t reason) s
  = (s, Reverted (if hasRole ISSUER_ROLE (msg_sender e) s
                  then "Credential is not revocable"
                  else "AccessControl: account is missing role")).
Proof.
  intros Hex Hrv. unfold apply_call. unfold_sol. cbn.
  destruct (hasRole ISSUER_ROLE (msg_sender e) s); cbn; [|reflexivity].
  rewrite Hex; cbn. rewrite Hrv; cbn. reflexivity.
Qed.

Lemma burn_soulbound_reverts e t s :
  _exists s t = true -> isRevocable (credential_at s t) = false ->
  apply_call keccak256 e (Burn t) s
  = (s, Reverted (if approved_or_owner (msg_sender e) t s
                  then "Soulbound tokens cannot be burned"
                  else "Caller is not owner nor approved")).
Proof.
  intros Hex Hrv. unfold apply_call, approved_or_owner. unfold_sol. cbn.
  pose proof Hex as Hex'. unfold _exists in Hex'.
  repeat progress (rewrite ?Hex', ?Hex; cbn).
  match goal with |- context [if ?b then _ else _] => destruct b end; cbn; [|reflexivity].
  rewrite Hrv; cbn. reflexivity.
Qed.

(** X4: a soulbound credential can be neither revoked nor burned.  For a
    soulbound token of a state reached from deployment, in every later
    state the token exists, is soulbound and not revoked,
    [revokeCredential] reverts ("Credential is not revocable" for an
    issuer, the role error otherwise) and [burn] reverts ("Soulbound tokens
    cannot be burned" for the owner or an approved caller); so
    [verifyCredential] can reject it only as expired. *)
Theorem soulbound_never_revoked_or_burned deployer txs0 tokenId txs e reason :
  let s := run keccak256 txs0 (initial_state deployer) in
  let s' := run keccak256 txs s in
  _exists s tokenId = true ->
  isSoulbound (credential_at s tokenId) = true ->
  _exists s' tokenId = true ∧
  isSoulbound (credential_at s' tokenId) = true ∧
  is_revoked s' tokenId = false ∧
  apply_call keccak256 e (RevokeCredential tokenId reason) s'
  = (s', Reverted (if hasRole ISSUER_ROLE (msg_sender e) s'
                   then "Credential is not revocable"
                   else "AccessControl: account is missing role")) ∧
  apply_call keccak256 e (Burn tokenId) s'
  = (s', Reverted (if approved_or_owner (msg_sender e) tokenId s'
                   then "Soulbound tokens cannot be burned"
                   else "Caller is not owner nor approved")) ∧
  verifyCredential e tokenId s'
  = if isCredentialExpired e tokenId s' then (false, "Credential has expired")
    else (true, "Credential is valid").
Proof.
  intros s s' Hex Hsb.
  assert (ledger_inv keccak256 s) as (_ & _ & _ & Hinv).
  { apply run_ledger_inv, initial_ledger_inv. }
  assert (soulbound_held tokenId (_ownerOf s tokenId) s') as (_ & Hex' & Hsb' & Hrv').
  { apply run_soulbound_held. split; [reflexivity|]. split; [exact Hex|].
    split; [exact Hsb|]. by apply Hinv. }
  assert (is_revoked s' tokenId = false) as Hnr.
  { destruct (is_revoked s' tokenId) eqn:E; [|reflexivity].
    unfold s', s in E. rewrite <- run_app in E.
    apply run_revoked_revocable in E. unfold s', s in Hrv'. rewrite <- run_app in Hrv'.
    congruence. }
  split; [exact Hex'|]. split; [exact Hsb'|]. split; [exact Hnr|].
  split; [by apply revoke_soulbound_reverts|].
  split; [by apply burn_soulbound_reverts|].
  unfold verifyCredential, isCredentialExpired. rewrite Hex', Hnr. cbn.
  by destruct (_ && _).
Qed.

(** ** Batch issuance *)

Lemma array_get_some {A} (l : list A) i s x s' :
  array_get l i s = Ok (x, s') -> l !! i = Some x ∧ s' = s.
Proof.
  unfold array_get. destruct (l !! i); cbn; [|discriminate].
  unfold mret, M_ret, ret. by intros [= -> ->].
Qed.

Lemma mintCredential_checks e to ch sh eh im ct sb vu zk s r s' :
  exec keccak256 e (MintCredential to ch sh eh im ct sb vu zk) s = Ok (r, s') ->
  issuance_inputs_valid e to ch sh im ct vu s = true.
Proof.
  intros H. unfold issuance_inputs_valid.
  unfold exec, mintCredential, onlyRole, whenNotPaused in H.
  unfold mbind, M_bind, bind, gets, require, mret, M_ret, ret, revert in H.
  cbn -[mint_body] in H.
  repeat match type of H with
  | context [if ?b then _ else _] => destruct b eqn:?; cbn -[mint_body] in H;
                                     try discriminate H
  end.
  cbn.
  repeat match goal with
  | H : ?x = true |- context [?x] => rewrite H
  end.
  reflexivity.
Qed.

(** X5: the batch path performs none of the input checks of
    [mintCredential].  A one-entry batch by an issuer whose entry passes
    the guards of the shared mint body succeeds and stores the record as
    given, whatever the course hash, student hash, metadata pointer and
    credential type are (so also empty strings and a type outside 1..4),
    while [mintCredential] reverts on the same values whenever they fail
    its checks; for an empty metadata pointer [tokenURI] of the new token
    reverts. *)
Theorem batch_mint_skips_input_checks e to ch sh eh im ct sb vu zk s :
  let request := single_request to ch sh eh im ct sb vu zk in
  let tokenId := (tokenIdCounter s + 1) mod uint256_modulus in
  let s' := mint_post keccak256 e to ch sh eh im ct sb vu zk s in
  hasRole ISSUER_ROLE (msg_sender e) s = true ->
  mint_guards keccak256 e to ch sh vu s = true ->
  apply_call keccak256 e (BatchMintCredentials request) s = (s', Success None) ∧
  _ownerOf s' tokenId = to ∧
  credential_at s' tokenId = {|
    courseHash := ch; studentHash := sh; completionDate := block_timestamp e;
    evaluationHash := eh; ipfsMetadata := im; credentialType := ct;
    isRevocable := negb sb; isSoulbound := sb; issuer := msg_sender e;
    validUntil := vu; zkProof := zk; isVerified := false |} ∧
  (issuance_inputs_valid e to ch sh im ct vu s = false ->
   ∃ reason, apply_call keccak256 e (MintCredential to ch sh eh im ct sb vu zk) s
             = (s, Reverted reason)) ∧
  (im = "" -> tokenURI tokenId s' = Revert "IPFS metadata not set").
Proof.
  intros request tokenId s' Hrole Hg.
  pose proof (mint_body_run e to ch sh eh im ct sb vu zk s Hg) as Hrun.
  assert (paused s = false) as Hp.
  { unfold mint_guards in Hg. rewrite !andb_true_iff in Hg.
    destruct Hg as [[[[[[_ _] _] Hp] _] _] _]. by apply negb_true_iff. }
  assert (negb (to =? 0) = true) as Hto.
  { unfold mint_guards in Hg. rewrite !andb_true_iff in Hg.
    by destruct Hg as [[[[[[_ Hto] _] _] _] _] _]. }
  split; [|split; [|split; [|split]]].
  - unfold apply_call, exec, batchMintCredentials, onlyRole, whenNotPaused.
    unfold mbind, M_bind, bind, gets, require, mret, M_ret, ret, revert.
    rewrite Hrole, Hp. cbn -[mint_body mint_post].
    unfold _mintSingleCredential, mbind, M_bind, bind, array_get, mret, M_ret, ret.
    cbn -[mint_body mint_post]. rewrite Hrun. reflexivity.
  - unfold s', mint_post. acc. fold tokenId. by rewrite lookup_insert_eq.
  - unfold s', mint_post. acc. fold tokenId. by rewrite lookup_insert_eq.
  - intros Hbad. unfold apply_call.
    destruct (exec keccak256 e (MintCredential to ch sh eh im ct sb vu zk) s)
      as [[r s1]|reason] eqn:H; [|by eexists].
    apply mintCredential_checks in H. congruence.
  - intros ->. unfold tokenURI, s', mint_post.
    unfold mbind, M_bind, bind, gets, require, mret, M_ret, ret, revert. acc. fold tokenId.
    repeat progress (cbn; rewrite ?lookup_insert_eq, ?Hto). reflexivity.
Qed.

(** One round of the batch loop: the nine reads and the mint. *)
Lemma batch_loop_cons e request i rest s u s' :
  batch_loop keccak256 e request (i :: rest) s = Ok (u, s') ->
  ∃ to ch sh eh im ct sb vu zk id s1,
    recipients request !! i = Some to ∧ courseHashes request !! i = Some ch ∧
    studentHashes request !! i = Some sh ∧ evaluationHashes request !! i = Some eh ∧
    ipfsMetadatas request !! i = Some im ∧ credentialTypes request !! i = Some ct ∧
    isSoulbounds request !! i = Some sb ∧ validUntils request !! i = Some vu ∧
    zkProofs request !! i = Some zk ∧
    mint_body keccak256 e to ch sh eh im ct sb vu zk s = Ok (id, s1) ∧
    batch_loop keccak256 e request rest s1 = Ok (u, s').
Proof.
  intros H. cbn [batch_loop] in H. unfold mbind, M_bind, bind in H.
  repeat match type of H with
  | context [array_get ?l ?i ?st] =>
      let E := fresh "E" in
      destruct (array_get l i st) as [[? ?]|] eqn:E; [|discriminate H];
      apply array_get_some in E as [? ->]
  end.
  unfold _mintSingleCredential, mbind, M_bind, bind in H.
  match type of H with
  | context [mint_body ?k ?e ?a1 ?a2 ?a3 ?a4 ?a5 ?a6 ?a7 ?a8 ?a9 ?st] =>
      destruct (mint_body k e a1 a2 a3 a4 a5 a6 a7 a8 a9 st) as [[id st1]|] eqn:Hm;
      [|discriminate H]
  end.
  cbn in H. repeat eexists; eassumption.
Qed.

Lemma batch_loop_reads e request indices : ∀ s u s',
  batch_loop keccak256 e request indices s = Ok (u, s') ->
  ∀ i, i ∈ indices ->
    (i < length (studentHashes request) ∧ i < length (evaluationHashes request) ∧
     i < length (ipfsMetadatas request) ∧ i < length (credentialTypes request) ∧
     i < length (isSoulbounds request) ∧ i < length (validUntils request) ∧
     i < length (zkProofs request))%nat.
Proof.
  induction indices as [|i0 rest IH]; intros s u s' H i Hi.
  - by apply elem_of_nil in Hi.
  - apply batch_loop_cons in H
      as (to & ch & sh & eh & im & ct & sb & vu & zk & id & s1 &
          _ & _ & Hsh & Heh & Him & Hct & Hsb & Hvu & Hzk & _ & Hrest).
    apply elem_of_cons in Hi as [->|Hi]; [|by eapply IH].
    repeat split; eapply lookup_lt_Some; eassumption.
Qed.

Lemma owner_kept_mint t o e to ch sh eh im ct sb vu zk s id s' :
  o ≠ 0 ->
  mint_body keccak256 e to ch sh eh im ct sb vu zk s = Ok (id, s') ->
  _ownerOf s t = o -> _ownerOf s' t = o.
Proof.
  intros Ho H Hown. apply mint_body_inv in H as (Hg & -> & ->).
  unfold mint_guards in Hg. rewrite !andb_true_iff in Hg.
  destruct Hg as [[[[[[_ _] Hfresh] _] _] _] _]. apply negb_true_iff in Hfresh.
  unfold mint_post, _exists in *. acc.
  destruct (decide (t = (tokenIdCounter s + 1) mod uint256_modulus)) as [Heq|Hne].
  - rewrite <- Heq, Hown in Hfresh. apply negb_false_iff, N.eqb_eq in Hfresh. contradiction.
  - rewrite lookup_insert_ne by (intros Heq; by apply Hne). exact Hown.
Qed.

Lemma batch_loop_mints e request indices : ∀ s u s',
  batch_loop keccak256 e request indices s = Ok (u, s') ->
  tokenIdCounter s + N.of_nat (length indices) < uint256_modulus ->
  tokenIdCounter s' = tokenIdCounter s + N.of_nat (length indices) ∧
  ∀ k i to, indices !! k = Some i -> recipients request !! i = Some to ->
            _ownerOf s' (tokenIdCounter s + 1 + N.of_nat k) = to.
Proof.
  induction indices as [|i0 rest IH]; intros s u s' H Hb.
  - cbn in H. injection H as _ <-. split; [cbn; lia|]. intros k i to Hk. discriminate Hk.
  - apply batch_loop_cons in H
      as (to0 & ch & sh & eh & im & ct & sb & vu & zk & id & s1 &
          Hto0 & _ & _ & _ & _ & _ & _ & _ & _ & Hm & Hrest).
    pose proof Hm as Hm'. apply mint_body_inv in Hm' as (Hg & Hid & Hs1).
    assert (tokenIdCounter s1 = tokenIdCounter s + 1) as Hc1.
    { rewrite Hs1. unfold mint_post. acc. apply N.mod_small. cbn [length] in Hb. lia. }
    assert (_ownerOf s1 (tokenIdCounter s + 1) = to0 ∧ to0 ≠ 0) as [Ho1 Hne0].
    { unfold mint_guards in Hg. rewrite !andb_true_iff in Hg.
      destruct Hg as [[[[[[_ Hto] _] _] _] _] _].
      apply negb_true_iff, N.eqb_neq in Hto. split; [|exact Hto].
      rewrite <- Hc1, Hs1. unfold mint_post. acc. by rewrite lookup_insert_eq. }
    destruct (IH s1 u s' Hrest) as [Hc' Hown'].
    { rewrite Hc1. cbn [length] in Hb. lia. }
    split; [rewrite Hc', Hc1; cbn [length]; lia|].
    intros k i to Hk Hi. destruct k as [|k]; cbn in Hk.
    + injection Hk as <-. rewrite Hto0 in Hi. injection Hi as <-.
      replace (tokenIdCounter s + 1 + N.of_nat 0) with (tokenIdCounter s + 1) by lia.
      apply (batch_loop_preserved (fun st => _ownerOf st (tokenIdCounter s + 1) = to0))
        with (e := e) (request := request) (indices := rest) (s := s1) (u := u);
        [|exact Hrest|exact Ho1].
      intros *. by apply owner_kept_mint.
    + replace (tokenIdCounter s + 1 + N.of_nat (S k))
        with (tokenIdCounter s1 + 1 + N.of_nat k) by lia.
      by eapply Hown'.
Qed.

(** X6: a batch that succeeds has at most 50 entries, as many course
    hashes as recipients and no array shorter than the recipients (a
    shorter one makes the loop read past its end and revert); when the
    counter does not wrap it raises [totalSupply] by the number of entries
    and entry [i] is the token [totalSupply + 1 + i], owned by recipient
    [i]. *)
Theorem batch_mint_shape e request s r s' :
  let n := length (recipients request) in
  exec keccak256 e (BatchMintCredentials request) s = Ok (r, s') ->
  ((n <= 50)%nat ∧ length (courseHashes request) = n ∧
   (n <= length (studentHashes request))%nat ∧
   (n <= length (evaluationHashes request))%nat ∧
   (n <= length (ipfsMetadatas request))%nat ∧
   (n <= length (credentialTypes request))%nat ∧
   (n <= length (isSoulbounds request))%nat ∧
   (n <= length (validUntils request))%nat ∧
   (n <= length (zkProofs request))%nat) ∧
  (totalSupply s + N.of_nat n < uint256_modulus ->
   totalSupply s' = totalSupply s + N.of_nat n ∧
   ∀ i to, recipients request !! i = Some to ->
           _ownerOf s' (totalSupply s + 1 + N.of_nat i) = to).
Proof.
  intros n H. apply batchMint_inv in H as (_ & _ & Hn & Hlen & Hl). fold n in Hn, Hlen, Hl.
  split.
  - split; [exact Hn|]. split; [by symmetry|].
    destruct n as [|m] eqn:En; [repeat split; lia|].
    assert (m ∈ seq 0 (S m)) as Hm by (apply elem_of_seq; lia).
    pose proof (batch_loop_reads _ _ _ _ _ _ Hl m Hm). lia.
  - intros Hb. unfold totalSupply in *.
    destruct (batch_loop_mints _ _ _ _ _ _ Hl) as [Hc Hown];
      [by rewrite length_seq|].
    rewrite length_seq in Hc. split; [exact Hc|].
    intros i to Hi. apply (Hown i i to); [|exact Hi].
    apply lookup_seq. split; [reflexivity|]. by apply lookup_lt_Some in Hi.
Qed.

(** ** Where tokens come from *)

Lemma absent_kept_other e c s r s' id :
  is_mint c = false -> exec keccak256 e c s = Ok (r, s') ->
  _exists s id = false -> _exists s' id = false.
Proof.
  intros Hm H Habs. destruct c; try discriminate Hm.
  2,3,4: apply (transfer_inv _ _ from to tokenId) in H as (-> & Hex & _);
         [|unfold is_transfer; tauto].
  5: apply burn_inv in H as (-> & Hex & _).
  2,3,4: unfold transfer_post, _exists in *; acc;
         destruct (decide (id = tokenId)) as [->|Hne];
         [congruence|by rewrite lookup_insert_ne by (intros Heq; by apply Hne)].
  2: { unfold burn_post, _exists in *. acc.
       destruct (decide (id = tokenId)) as [->|Hne];
         [congruence|by rewrite lookup_delete_ne by (intros Heq; by apply Hne)]. }
  all: sol_inv H; exact Habs.
Qed.

(** X7: tokens come into existence only through the two mint entry
    points, called by a holder of [ISSUER_ROLE] while the contract is not
    paused: if a token that did not exist exists after a transaction, the
    transaction was such a call. *)
Theorem tokens_created_only_by_issuers e c s tokenId :
  _exists s tokenId = false ->
  _exists (fst (apply_call keccak256 e c s)) tokenId = true ->
  is_mint c = true ∧ hasRole ISSUER_ROLE (msg_sender e) s = true ∧ paused s = false.
Proof.
  intros Habs Hex. unfold apply_call in Hex.
  destruct (exec keccak256 e c s) as [[r s']|reason] eqn:H; cbn [fst] in Hex;
    [|congruence].
  destruct (is_mint c) eqn:Hm.
  - split; [reflexivity|]. destruct c; try discriminate Hm.
    + apply mintCredential_checks in H. unfold issuance_inputs_valid in H.
      rewrite !andb_true_iff in H. destruct H as [[[[[[[Hr Hp] _] _] _] _] _] _].
      split; [exact Hr|]. by apply negb_true_iff.
    + by apply batchMint_inv in H as (Hr & Hp & _).
  - apply (absent_kept_other _ _ _ _ _ tokenId Hm H) in Habs. congruence.
Qed.

(** ** Transfers *)

(** X8: a transfer entry point succeeds only for a credential that
    [verifyCredential] reports valid, held by [from], on behalf of its
    owner, an operator or the approved address; it hands the token to
    [to], clears the token's approval, keeps the record and the validity,
    and changes no other token's owner. *)
Theorem transfer_moves_only_valid_credentials e c from to tokenId s r s' :
  is_transfer c from to tokenId ->
  exec keccak256 e c s = Ok (r, s') ->
  verifyCredential e tokenId s = (true, "Credential is valid") ∧
  _ownerOf s tokenId = from ∧
  approved_or_owner (msg_sender e) tokenId s = true ∧
  _ownerOf s' tokenId = to ∧
  tokenApprovals s' !! tokenId = None ∧
  credential_at s' tokenId = credential_at s tokenId ∧
  verifyCredential e tokenId s' = (true, "Credential is valid") ∧
  ∀ id, id ≠ tokenId -> _ownerOf s' id = _ownerOf s id.
Proof.
  intros Hc H.
  apply (transfer_inv _ _ _ _ _ _ _ _ Hc) in H
    as (-> & Hex & Hfrom & Hto & Hrv & Hsb & Hap & Hp & Hexp).
  unfold isCredentialExpired in Hexp. rewrite Hex in Hexp. cbn in Hexp.
  assert (_ownerOf (transfer_post to tokenId s) tokenId = to) as Hown.
  { unfold transfer_post. acc. by rewrite lookup_insert_eq. }
  assert (credential_at (transfer_post to tokenId s) tokenId = credential_at s tokenId)
    as Hcred by reflexivity.
  repeat split; try assumption.
  - unfold verifyCredential. by rewrite Hex, Hrv, Hexp.
  - unfold transfer_post. acc. by rewrite lookup_delete_eq.
  - unfold verifyCredential. rewrite Hcred, Hexp.
    unfold _exists. rewrite Hown, Hto. cbn.
    assert (is_revoked (transfer_post to tokenId s) tokenId = is_revoked s tokenId)
      as -> by reflexivity.
    by rewrite Hrv.
  - intros id Hne. unfold transfer_post. acc.
    by rewrite lookup_insert_ne by (intros Heq; by apply Hne).
Qed.

(** ** The verification flag *)

(** X9: [setCredentialVerification] needs [VERIFIER_ROLE] and an existing
    token, sets the record's [isVerified] and nothing that
    [verifyCredential] reads: the answer of [verifyCredential] is the same
    before and after, for every token and time, whatever the flag. *)
Theorem verification_flag_not_consulted e tokenId isValid reason s r s' :
  exec keccak256 e (SetCredentialVerification tokenId isValid reason) s = Ok (r, s') ->
  hasRole VERIFIER_ROLE (msg_sender e) s = true ∧
  _exists s tokenId = true ∧
  isVerified (credential_at s' tokenId) = isValid ∧
  ∀ e' id, verifyCredential e' id s' = verifyCredential e' id s.
Proof.
  intros H. sol_inv H. split; [reflexivity|]. split; [reflexivity|]. split.
  - acc. by rewrite lookup_insert_eq.
  - intros e' id. unfold verifyCredential. acc.
    destruct (decide (id = tokenId)) as [->|Hne].
    + by rewrite lookup_insert_eq.
    + by rewrite lookup_insert_ne by (intros Heq; by apply Hne).
Qed.

(** ** The emergency flag *)

Ltac same_guards :=
  unfold_sol; acc; cbn;
  repeat (match goal with
          | |- context [if ?c then _ else _] => destruct c
          end; cbn);
  reflexivity.

Lemma mint_body_emergency b e to ch sh eh im ct sb vu zk s :
  mint_body keccak256 e to ch sh eh im ct sb vu zk (set_emergencyPaused b s)
  = match mint_body keccak256 e to ch sh eh im ct sb vu zk s with
    | Ok (id, s') => Ok (id, set_emergencyPaused b s')
    | Revert reason => Revert reason
    end.
Proof. same_guards. Qed.

Lemma batch_loop_emergency b e request indices : ∀ s,
  batch_loop keccak256 e request indices (set_emergencyPaused b s)
  = match batch_loop keccak256 e request indices s with
    | Ok (u, s') => Ok (u, set_emergencyPaused b s')
    | Revert reason => Revert reason
    end.
Proof.
  induction indices as [|i rest IH]; intros s; [reflexivity|].
  cbn [batch_loop]. unfold mbind, M_bind, bind, array_get, mret, M_ret, ret, revert.
  repeat match goal with
  | |- context [match ?l !! i with _ => _ end] => destruct (l !! i); cbn -[mint_body batch_loop]
  end; try reflexivity.
  unfold _mintSingleCredential, mbind, M_bind, bind, mret, M_ret, ret.
  rewrite mint_body_emergency.
  match goal with
  | |- context [mint_body ?k ?e ?a1 ?a2 ?a3 ?a4 ?a5 ?a6 ?a7 ?a8 ?a9 ?st] =>
      destruct (mint_body k e a1 a2 a3 a4 a5 a6 a7 a8 a9 st) as [[id st1]|]
  end; cbn -[batch_loop]; [apply IH|reflexivity].
Qed.

Lemma exec_emergency b e c s :
  (∀ p, c ≠ SetEmergencyPause p) ->
  exec keccak256 e c (set_emergencyPaused b s)
  = match exec keccak256 e c s with
    | Ok (r, s') => Ok (r, set_emergencyPaused b s')
    | Revert reason => Revert reason
    end.
Proof.
  intros Hc. destruct c; try (exfalso; by eapply Hc).
  2: { unfold exec, batchMintCredentials, onlyRole, whenNotPaused.
       unfold mbind, M_bind, bind, gets, require, mret, M_ret, ret, revert. acc.
       cbn -[batch_loop].
       repeat (match goal with
               | |- context [if ?c then _ else _] => destruct c
               end; cbn -[batch_loop]); try reflexivity.
       rewrite batch_loop_emergency.
       by destruct (batch_loop keccak256 e request _ s) as [[u st1]|]. }
  all: same_guards.
Qed.

(** X10: the emergency flag stops nothing.  Once an administrator has
    called [setEmergencyPause(true)], [isPaused] answers true, yet every
    transaction other than [setEmergencyPause] has the outcome it has
    without the flag, and the same effect on the rest of the storage: no
    guard of the contract reads the flag. *)
Theorem emergency_pause_stops_nothing e0 e c s :
  let flagged := fst (apply_call keccak256 e0 (SetEmergencyPause true) s) in
  hasRole DEFAULT_ADMIN_ROLE (msg_sender e0) s = true ->
  (∀ p, c ≠ SetEmergencyPause p) ->
  isPaused flagged = true ∧
  apply_call keccak256 e c flagged
  = (set_emergencyPaused true (fst (apply_call keccak256 e c s)),
     snd (apply_call keccak256 e c s)).
Proof.
  intros flagged Hadmin Hc.
  assert (flagged = set_emergencyPaused true s) as ->.
  { unfold flagged, apply_call. unfold_sol. cbn. by rewrite Hadmin. }
  split; [reflexivity|].
  unfold apply_call. rewrite (exec_emergency _ _ _ _ Hc).
  by destruct (exec keccak256 e c s) as [[r s']|reason].
Qed.

(** ** Enumerating the tokens of an owner *)

Lemma elem_of_token_ids total id : id ∈ token_ids total ↔ 1 <= id <= total.
Proof.
  unfold token_ids. rewrite list_elem_of_fmap. split.
  - intros (k & -> & Hk). apply elem_of_seq in Hk. lia.
  - intros Hid. exists (N.to_nat id). split; [by rewrite N2Nat.id|].
    apply elem_of_seq. lia.
Qed.

Lemma NoDup_token_ids total : NoDup (token_ids total).
Proof.
  unfold token_ids. apply NoDup_fmap_2; [|apply NoDup_seq].
  intros x y Hxy. by apply Nat2N.inj.
Qed.

Lemma run_counter_bound txs s :
  tokenIdCounter (run keccak256 txs s) <= tokenIdCounter s + mint_requests_run txs.
Proof.
  pose proof (run_budget (fun b st => tokenIdCounter st + b
                                      <= tokenIdCounter s + mint_requests_run txs)) as H.
  rewrite <- (N.add_0_r (tokenIdCounter (run keccak256 txs s))).
  apply H.
  - intros b s1 s2 _ Hc. by rewrite Hc.
  - intros b s1 s2 _ Hc H1. rewrite Hc.
    pose proof (N.Div0.mod_le (tokenIdCounter s1 + 1) uint256_modulus). lia.
  - intros b s1 H1. lia.
  - lia.
Qed.

(** X11: in a state reached from deployment by fewer than [2^64] mint
    requests, [getCertificatesByOwner] returns, once each, exactly the live
    tokens the address owns: the loop over [1 .. totalSupply] misses none,
    since every live token id lies in that range. *)
Theorem certificates_by_owner_exact deployer txs owner :
  let s := run keccak256 txs (initial_state deployer) in
  mint_requests_run txs < 2 ^ 64 ->
  ∃ l, getCertificatesByOwner owner s = Ok l ∧ NoDup l ∧
       ∀ tokenId, tokenId ∈ l ↔ _exists s tokenId = true ∧ _ownerOf s tokenId = owner.
Proof.
  intros s Hb.
  assert (counter_inv 0 s) as [_ Hids].
  { apply run_counter_inv, initial_counter_inv. rewrite N.add_0_l.
    eapply N.lt_trans; [exact Hb|]. reflexivity. }
  pose proof (run_counter_bound txs (initial_state deployer)) as Hc. fold s in Hc.
  cbn [initial_state tokenIdCounter] in Hc.
  unfold getCertificatesByOwner, totalSupply.
  destruct (2 ^ 64 <=? tokenIdCounter s) eqn:E; [apply N.leb_le in E; lia|].
  eexists. split; [reflexivity|]. split.
  - apply NoDup_ListNoDup, List.NoDup_filter, NoDup_ListNoDup, NoDup_token_ids.
  - intros id. rewrite list_elem_of_In, List.filter_In, <- list_elem_of_In, elem_of_token_ids.
    rewrite andb_true_iff, N.eqb_eq. split; [tauto|].
    intros [Hex Ho]. split; [by apply Hids|by split].
Qed.

(** ** Expiry *)

Lemma expired_held_expired t o since e s :
  expired_held t o since s -> since <= block_timestamp e ->
  isCredentialExpired e t s = true.
Proof.
  intros (_ & Hex & Hv) Hts. unfold isCredentialExpired. rewrite Hex. cbn [negb].
  apply andb_true_iff. split; [apply N.ltb_lt|apply N.ltb_lt]; lia.
Qed.

Lemma expired_held_mint t o since e to ch sh eh im ct sb vu zk s id s' :
  mint_body keccak256 e to ch sh eh im ct sb vu zk s = Ok (id, s') ->
  expired_held t o since s -> expired_held t o since s'.
Proof.
  intros H (Ho & Hex & Hv). apply mint_body_inv in H as (Hg & -> & ->).
  unfold mint_guards in Hg. rewrite !andb_true_iff in Hg.
  destruct Hg as [[[[[[_ _] Hfresh] _] _] _] _]. apply negb_true_iff in Hfresh.
  assert (t ≠ (tokenIdCounter s + 1) mod uint256_modulus) as Hne.
  { intros Heq. rewrite Heq, Hfresh in Hex. discriminate. }
  unfold expired_held, mint_post in *. acc.
  rewrite !lookup_insert_ne by (intros Heq; by apply Hne). done.
Qed.

Lemma expired_held_step t o since e c s r s' :
  since <= block_timestamp e ->
  exec keccak256 e c s = Ok (r, s') ->
  expired_held t o since s -> expired_held t o since s'.
Proof.
  intros Hts H HP.
  assert (∀ t', isCredentialExpired e t' s = false -> t ≠ t') as Hother.
  { intros t' Hexp ->. rewrite (expired_held_expired _ _ _ _ _ HP Hts) in Hexp.
    discriminate. }
  destruct c.
  - apply mintCredential_inv in H as (id & _ & Hb). by eapply expired_held_mint.
  - apply batchMint_inv in H as (_ & _ & _ & _ & Hl).
    eapply (batch_loop_preserved (expired_held t o since)); [|exact Hl|exact HP].
    intros *. apply expired_held_mint.
  - sol_inv H; exact HP.
  - apply (transfer_inv _ _ from to tokenId) in H
      as (-> & _ & _ & _ & _ & _ & _ & _ & Hexp); [|by left].
    apply Hother in Hexp. destruct HP as (Ho & Hex & Hv).
    unfold expired_held, transfer_post in *. acc.
    rewrite lookup_insert_ne by (intros Heq; by apply Hexp). done.
  - apply (transfer_inv _ _ from to tokenId) in H
      as (-> & _ & _ & _ & _ & _ & _ & _ & Hexp); [|right; by left].
    apply Hother in Hexp. destruct HP as (Ho & Hex & Hv).
    unfold expired_held, transfer_post in *. acc.
    rewrite lookup_insert_ne by (intros Heq; by apply Hexp). done.
  - apply (transfer_inv _ _ from to tokenId) in H
      as (-> & _ & _ & _ & _ & _ & _ & _ & Hexp); [|right; by right].
    apply Hother in Hexp. destruct HP as (Ho & Hex & Hv).
    unfold expired_held, transfer_post in *. acc.
    rewrite lookup_insert_ne by (intros Heq; by apply Hexp). done.
  - apply burn_inv in H as (-> & _ & _ & _ & _ & _ & _ & Hexp).
    apply Hother in Hexp. destruct HP as (Ho & Hex & Hv).
    unfold expired_held, burn_post in *. acc.
    rewrite !lookup_delete_ne by (intros Heq; by apply Hexp). done.
  - sol_inv H. destruct HP as (Ho & Hex & Hv). unfold expired_held. acc.
    split; [exact Ho|]. split; [exact Hex|].
    destruct (decide (t = tokenId)) as [->|Hne].
    + by rewrite lookup_insert_eq.
    + by rewrite lookup_insert_ne by (intros Heq; by apply Hne).
  - sol_inv H; exact HP.
  - sol_inv H; exact HP.
  - sol_inv H; exact HP.
  - sol_inv H; exact HP.
  - sol_inv H; exact HP.
  - sol_inv H; exact HP.
Qed.

Lemma run_expired_held t o since txs : ∀ s,
  Forall (fun tx => since <= block_timestamp (fst tx)) txs ->
  expired_held t o since s -> expired_held t o since (run keccak256 txs s).
Proof.
  induction txs as [|[e c] rest IH]; intros s Hts HP; cbn [run]; [exact HP|].
  apply Forall_cons in Hts as [Hts Hrest]. cbn [fst] in Hts.
  apply IH; [exact Hrest|]. unfold apply_call.
  destruct (exec keccak256 e c s) as [[r s1]|reason] eqn:H; cbn [fst]; [|exact HP].
  by eapply expired_held_step.
Qed.

(** X19: expiry is final.  A token that exists and whose validity has ended
    by the time of [e] stays as it is under all transactions sent at that
    time or later: it keeps existing with its owner, it is expired at every
    later time, [verifyCredential] rejects it, and every transfer entry
    point and [burn] revert on it. *)
Theorem expiry_is_final e tokenId s txs e' :
  let s' := run keccak256 txs s in
  _exists s tokenId = true ->
  isCredentialExpired e tokenId s = true ->
  Forall (fun tx => block_timestamp e <= block_timestamp (fst tx)) txs ->
  block_timestamp e <= block_timestamp e' ->
  _exists s' tokenId = true ∧
  _ownerOf s' tokenId = _ownerOf s tokenId ∧
  isCredentialExpired e' tokenId s' = true ∧
  fst (verifyCredential e' tokenId s') = false ∧
  (∀ c from to, is_transfer c from to tokenId ->
     ∃ reason, apply_call keccak256 e' c s' = (s', Reverted reason)) ∧
  (∃ reason, apply_call keccak256 e' (Burn tokenId) s' = (s', Reverted reason)).
Proof.
  intros s' Hex Hexp Hts Hts'.
  assert (expired_held tokenId (_ownerOf s tokenId) (block_timestamp e) s) as Hheld.
  { unfold isCredentialExpired in Hexp. rewrite Hex in Hexp. cbn [negb] in Hexp.
    apply andb_true_iff in Hexp as [H1 H2]. apply N.ltb_lt in H1, H2.
    split; [reflexivity|]. split; [exact Hex|]. lia. }
  apply (run_expired_held _ _ _ txs s Hts) in Hheld. fold s' in Hheld.
  pose proof (expired_held_expired _ _ _ e' _ Hheld Hts') as Hexp'.
  destruct Hheld as (Ho & Hex' & Hv).
  assert (∀ c r s1, exec keccak256 e' c s' = Ok (r, s1) ->
                    isCredentialExpired e' tokenId s' = false -> False) as Hcontra.
  { intros c r s1 _ Hf. rewrite Hf in Hexp'. discriminate. }
  split; [exact Hex'|]. split; [exact Ho|]. split; [exact Hexp'|]. split; [|split].
  - unfold verifyCredential. rewrite Hex'. cbn [negb].
    destruct (is_revoked s' tokenId); [reflexivity|].
    unfold isCredentialExpired in Hexp'. rewrite Hex' in Hexp'. cbn [negb] in Hexp'.
    by rewrite Hexp'.
  - intros c from to Hc. unfold apply_call.
    destruct (exec keccak256 e' c s') as [[r s1]|reason] eqn:H; [|by eexists].
    exfalso. apply (Hcontra _ _ _ H).
    by apply (transfer_inv _ _ _ _ _ _ _ _ Hc) in H
      as (_ & _ & _ & _ & _ & _ & _ & _ & Hf).
  - unfold apply_call.
    destruct (exec keccak256 e' (Burn tokenId) s') as [[r s1]|reason] eqn:H; [|by eexists].
    exfalso. apply (Hcontra _ _ _ H).
    by apply burn_inv in H as (_ & _ & _ & _ & _ & _ & _ & Hf).
Qed.

(** ** Statistics *)

Lemma filter_length_le {A} (p : A -> bool) l : (length (List.filter p l) <= length l)%nat.
Proof.
  induction l as [|x l IH]; cbn [List.filter length]; [lia|].
  destruct (p x); cbn [length]; lia.
Qed.

Lemma filter_disjoint_length {A} (p q : A -> bool) l :
  (∀ x, x ∈ l -> p x = true -> q x = false) ->
  (length (List.filter p l) + length (List.filter q l) <= length l)%nat.
Proof.
  induction l as [|x l IH]; intros H; cbn [List.filter length]; [lia|].
  assert (length (List.filter p l) + length (List.filter q l) <= length l)%nat as IH'.
  { apply IH. intros y Hy. apply H. apply elem_of_cons. by right. }
  destruct (p x) eqn:Ep.
  - rewrite (H x) by (try apply elem_of_cons; auto). cbn [length]. lia.
  - destruct (q x); cbn [length]; lia.
Qed.

Lemma length_token_ids total : N.of_nat (length (token_ids total)) = total.
Proof. unfold token_ids. rewrite length_fmap, length_seq. apply N2Nat.id. Qed.

(** X20: in a state reached from deployment (by fewer than [2^256 - 1]
    mint requests) [getCredentialStats] returns, and its counts are
    consistent: no credential is counted both as revoked and as soulbound,
    so revoked and soulbound together, and the expired alone, are at most
    [totalSupply]. *)
Theorem credential_stats_consistent deployer txs e :
  let s := run keccak256 txs (initial_state deployer) in
  mint_requests_run txs < uint256_modulus - 1 ->
  ∃ revoked soulbound expired,
    getCredentialStats e s = Ok (totalSupply s, revoked, soulbound, expired) ∧
    revoked + soulbound <= totalSupply s ∧
    expired <= totalSupply s.
Proof.
  intros s Hb.
  pose proof (run_counter_bound txs (initial_state deployer)) as Hc. fold s in Hc.
  cbn [initial_state tokenIdCounter] in Hc.
  assert (ledger_inv keccak256 s) as (_ & _ & _ & Hsb).
  { apply run_ledger_inv, initial_ledger_inv. }
  pose proof (run_revoked_revocable deployer txs) as Hrv. cbv zeta in Hrv. fold s in Hrv.
  unfold getCredentialStats, totalSupply.
  destruct (tokenIdCounter s =? uint256_modulus - 1) eqn:E; [apply N.eqb_eq in E; lia|].
  set (live := List.filter (_exists s) (token_ids (tokenIdCounter s))).
  assert (N.of_nat (length live) <= tokenIdCounter s) as Hlive.
  { pose proof (length_token_ids (tokenIdCounter s)) as Hlen.
    pose proof (filter_length_le (_exists s) (token_ids (tokenIdCounter s))).
    unfold live. lia. }
  eexists _, _, _. split; [reflexivity|]. split.
  - pose proof (filter_disjoint_length (is_revoked s)
                  (fun i => isSoulbound (credential_at s i)) live) as Hd.
    assert (∀ x, x ∈ live -> is_revoked s x = true ->
                 isSoulbound (credential_at s x) = false) as Hdis.
    { intros x _ Hr. apply Hrv in Hr.
      destruct (isSoulbound (credential_at s x)) eqn:Es; [|reflexivity].
      apply Hsb in Es. congruence. }
    specialize (Hd Hdis). lia.
  - pose proof (filter_length_le (fun i => isCredentialExpired e i s) live). lia.
Qed.

End LedgerProofs.

(* --------------------------------------------------------------------- *)
(** ** The ledger adapter *)
(* --------------------------------------------------------------------- *)

Section AdapterProofs.
Context (sha256_hex : string -> string).
Import Adapter.

Lemma split_on_plain x : has_char bar x = false -> split_on bar x = [x].
Proof.
  induction x as [|a x IH]; cbn [has_char split_on]; [reflexivity|].
  intros H. apply orb_false_iff in H as [Ha Hx].
  rewrite Ha, (IH Hx). reflexivity.
Qed.

Lemma split_on_segment x rest :
  has_char bar x = false ->
  split_on bar (x ++ String bar rest) = x :: split_on bar rest.
Proof.
  induction x as [|a x IH].
  - intros _. reflexivity.
  - intros H. cbn [has_char] in H. apply orb_false_iff in H as [Ha Hx].
    change (String a x ++ String bar rest) with (String a (x ++ String bar rest)).
    cbn [split_on]. rewrite Ha, (IH Hx). reflexivity.
Qed.

Lemma split_combined (parts : list string) :
  parts ≠ [] ->
  Forall (fun p => has_char bar p = false) parts ->
  split_on bar (combined (JS.Str <$> parts)) = parts.
Proof.
  unfold combined.
  induction parts as [|p [|q rest] IH]; intros Hne Hall.
  - congruence.
  - cbn. apply split_on_plain. by inversion Hall.
  - inversion Hall as [|? ? Hp Hrest]; subst.
    change (JS.join "|" (JS.Str <$> p :: q :: rest))
      with (p ++ String bar (JS.join "|" (JS.Str <$> q :: rest))).
    rewrite (split_on_segment _ _ Hp). f_equal. apply IH; [discriminate|assumption].
Qed.

(** C9, as amended: for two distinct non-empty lists of part strings none
    of which contains the separator character "|", the texts that
    [generateCompositeHash] joins before hashing are distinct. *)
Theorem combined_injective_without_separator (parts1 parts2 : list string) :
  parts1 ≠ [] -> parts2 ≠ [] ->
  Forall (fun p => has_char bar p = false) parts1 ->
  Forall (fun p => has_char bar p = false) parts2 ->
  parts1 ≠ parts2 ->
  combined (JS.Str <$> parts1) ≠ combined (JS.Str <$> parts2).
Proof.
  intros Hne1 Hne2 H1 H2 Hdiff Heq. apply Hdiff.
  rewrite <- (split_combined parts1 Hne1 H1), <- (split_combined parts2 Hne2 H2).
  by rewrite Heq.
Qed.

(** C3: the adapter's [verifyCertificate] called without [expectedOwner]
    answers [isValid = false] and [isVerified = false] whatever the ledger
    says about the token, so also for an existing, non-revoked, non-expired
    token, where the specification expects [isValid = true] with the owner
    and the verified flag. *)
Theorem verify_without_expected_owner_never_valid svc tokenId :
  isValid (verifyCertificate svc tokenId None) = false ∧
  isVerified (verifyCertificate svc tokenId None) = false.
Proof.
  unfold verifyCertificate.
  destruct (contract svc); cbn; [|done].
  destruct (call_ownerOf (node svc) tokenId) as [o|?]; cbn; [|done].
  destruct (call_verifyCertificate (node svc) tokenId) as [[|]|?]; cbn; done.
Qed.

(** ** Gas handling *)

(** The rounding of [round53] moves its argument by at most half a unit,
    and the unit divides [2^52] for arguments below [2^102]. *)
Lemma round53_spec (p : Z) :
  (0 <= p < 2 ^ 102)%Z ->
  ∃ u z : Z, (0 < u <= 2 ^ 49)%Z ∧ (∃ v : Z, (2 ^ 52 = v * u)%Z) ∧
             round53 p = (z * u)%Z ∧ (2 * Z.abs (round53 p - p) <= u)%Z.
Proof.
  intros [Hp0 Hp]. unfold round53.
  destruct (Z.log2 p - 52 <=? 0)%Z eqn:Ek.
  - exists 1%Z, p. split; [split; [lia|apply Z.leb_le; reflexivity]|].
    split; [exists (2 ^ 52)%Z; lia|]. lia.
  - apply Z.leb_gt in Ek. set (k := (Z.log2 p - 52)%Z) in *.
    assert (k <= 49)%Z as Hk.
    { assert (0 < p)%Z as Hpos.
      { destruct (Z.eq_dec p 0%Z) as [->|]; [|lia]. subst k. cbn in Ek. lia. }
      assert (Z.log2 p < 102)%Z; [|lia].
      apply (proj1 (Z.log2_lt_pow2 p 102%Z Hpos)). exact Hp. }
    assert (0 < 2 ^ k)%Z as Hu by (apply Z.pow_pos_nonneg; lia).
    assert (2 ^ k <= 2 ^ 49)%Z as Hu49 by (apply Z.pow_le_mono_r; lia).
    assert (2 ^ k = 2 * 2 ^ (k - 1))%Z as Hhalf.
    { replace k with (Z.succ (k - 1)%Z) at 1 by lia. apply Z.pow_succ_r. lia. }
    assert (∃ v : Z, (2 ^ 52 = v * 2 ^ k)%Z) as Hdiv.
    { exists (2 ^ (52 - k))%Z. rewrite <- Z.pow_add_r by lia. f_equal. lia. }
    pose proof (Z.div_mod p (2 ^ k)%Z ltac:(lia)) as Hdm.
    pose proof (Z.mod_pos_bound p (2 ^ k)%Z Hu) as Hr.
    set (q := (p / 2 ^ k)%Z) in *. set (r := (p mod 2 ^ k)%Z) in *.
    set (h := (2 ^ (k - 1))%Z) in *.
    destruct ((h <? r)%Z || ((r =? h)%Z && Z.odd q)) eqn:Eup.
    + exists (2 ^ k)%Z, (q + 1)%Z. repeat split; try lia; exact Hdiv.
    + exists (2 ^ k)%Z, q. repeat split; try lia; exact Hdiv.
Qed.

(** For a Number below [2^49] the doubles are fine enough: the limit is
    the estimate times 1.2, rounded up. *)
Lemma gas_with_buffer_small n :
  n < 2 ^ 49 ->
  ∃ limit, gas_with_buffer (GasNumber n) = JS.Normal limit ∧
           12 * n <= 10 * limit < 12 * n + 10.
Proof.
  intros Hn. unfold gas_with_buffer. eexists. split; [reflexivity|].
  assert (0 <= Z.of_N n < 2 ^ 49)%Z as Hz.
  { split; [lia|]. change (2 ^ 49)%Z with (Z.of_N (2 ^ 49)). lia. }
  remember (Z.of_N n) as m eqn:Hmn. rename Hz into Hm.
  set (p := (m * double_1_2)%Z).
  assert (0 <= p < 2 ^ 102)%Z as Hp.
  { unfold p, double_1_2. split; [lia|].
    assert (m * 5404319552844595 < 2 ^ 49 * 2 ^ 53)%Z; [|lia].
    apply Z.mul_lt_mono_nonneg; lia. }
  destruct (round53_spec p Hp) as (u & z & Hu & [v Hv] & HR & Herr).
  assert (5 * p = 6 * m * 2 ^ 52 - m)%Z as H5p by (unfold p, double_1_2; lia).
  set (R := round53 p) in *.
  assert ((m mod 5 = 0)%Z -> (R <= p + m / 5)%Z) as Hmult.
  { intros Hm5. pose proof (Z.div_mod m 5%Z ltac:(lia)) as Hn5. rewrite Hm5 in Hn5.
    set (j := (m / 5)%Z) in *.
    assert (p + j = 6 * j * v * u)%Z as Htop by nia.
    destruct (Z_le_gt_dec z (6 * j * v)%Z) as [Hz'|Hz']; [nia|].
    exfalso. assert (R >= (6 * j * v + 1) * u)%Z by nia.
    assert (0 <= j)%Z by lia. nia. }
  pose proof (Z.div_mod m 5%Z ltac:(lia)) as Hn5.
  pose proof (Z.mod_pos_bound m 5%Z ltac:(lia)) as Hm5.
  change (2 ^ 52)%Z with 4503599627370496%Z in *.
  change (2 ^ 49)%Z with 562949953421312%Z in *.
  change (4503599627370496 - 1)%Z with 4503599627370495%Z.
  Z.to_euclidean_division_equations. lia.
Qed.

(** C8: the adapter's writes do not estimate, add the margin and submit.
    With a signer and an estimate that resolves to a bigint, as the
    client library's does, [mintCertificate] asks for the estimate and then
    throws on [gasEstimate * 1.2]: the log holds the estimate and no
    submission, and the caller gets "Failed to mint certificate: Cannot
    mix BigInt and other types, use explicit conversions".
    [transferCertificate] with a signer submits [transferFrom] at once,
    with no gas limit and no estimate before it. *)
Theorem adapter_writes_apply_no_gas_margin svc data n from to tokenId :
  contract svc = true -> signer svc = true ->
  JS.truthy (metadata data) = false ->
  (∀ call, estimateGas (node svc) call = JS.Normal (GasBigInt n)) ->
  (∃ call,
     mintCertificate sha256_hex svc data []
     = (JS.Throw (JS.Error
          "Failed to mint certificate: Cannot mix BigInt and other types, use explicit conversions"),
        [EstimateGas call])) ∧
  (∃ rest,
     snd (transferCertificate svc from to tokenId [])
     = SendTransaction (TransferFromCall from to tokenId) None :: rest ∧
     ∀ ev, ev ∈ rest -> ∃ tx, ev = WaitForReceipt tx).
Proof.
  intros Hc Hs Hmeta Hest. split.
  - unfold mintCertificate, try_catch, throw. rewrite Hc, Hs, Hmeta. cbn [negb orb].
    unfold mbind, Act_bind, mret, Act_ret, emit, await.
    cbn [app]. rewrite Hest. cbn [gas_with_buffer JS.message].
    eexists. reflexivity.
  - unfold transferCertificate, try_catch, throw. rewrite Hc, Hs. cbn [negb orb].
    unfold mbind, Act_bind, mret, Act_ret, emit, await. cbn [app].
    destruct (sendTransaction (node svc) (TransferFromCall from to tokenId) None) as [tx|?];
      cbn [app snd].
    + destruct (wait (node svc) tx) as [receipt|?]; cbn [snd];
        (eexists; split; [reflexivity|]);
        intros ev Hev; apply list_elem_of_singleton in Hev as ->; by exists tx.
    + eexists. split; [reflexivity|]. intros ev Hev. by apply elem_of_nil in Hev.
Qed.

(** ** Outcomes of the adapter *)

Lemma find_minted_event_none logs :
  (∀ l, l ∈ logs -> parsed_name l ≠ Some "CertificateMinted") ->
  find_minted_event logs = None.
Proof.
  intros H. unfold find_minted_event.
  induction logs as [|l logs IH]; [reflexivity|]. cbn [List.find].
  assert (parsed_name l ≠ Some "CertificateMinted") as Hl.
  { apply H. apply elem_of_cons. by left. }
  destruct (parsed_name l) as [name|].
  - destruct (String.eqb name "CertificateMinted") eqn:E.
    + apply String.eqb_eq in E. congruence.
    + apply IH. intros l' Hl'. apply H. apply elem_of_cons. by right.
  - apply IH. intros l' Hl'. apply H. apply elem_of_cons. by right.
Qed.

(** X12: a mint that is mined is still reported as failed unless the
    receipt holds a log that parses to the name "CertificateMinted".  With
    a signer, a numeric estimate, an accepted submission and a receipt none
    of whose logs has that name (the contract's event is
    "CredentialMinted"), [mintCertificate] estimates, submits with the
    buffered limit, waits, and then throws "Failed to mint certificate:
    CertificateMinted event not found in transaction receipt". *)
Theorem mint_mined_but_reported_failed svc data n tx receipt :
  contract svc = true -> signer svc = true ->
  JS.truthy (metadata data) = false ->
  (∀ call, estimateGas (node svc) call = JS.Normal (GasNumber n)) ->
  (∀ call gasLimit, sendTransaction (node svc) call gasLimit = JS.Normal tx) ->
  wait (node svc) tx = JS.Normal receipt ->
  (∀ l, l ∈ receipt_logs receipt -> parsed_name l ≠ Some "CertificateMinted") ->
  fst (mintCertificate sha256_hex svc data [])
  = JS.Throw (JS.Error
      "Failed to mint certificate: CertificateMinted event not found in transaction receipt") ∧
  ∃ call gasLimit,
    gas_with_buffer (GasNumber n) = JS.Normal gasLimit ∧
    snd (mintCertificate sha256_hex svc data [])
    = [EstimateGas call; SendTransaction call (Some gasLimit); WaitForReceipt tx].
Proof.
  intros Hc Hs Hmeta Hest Hsend Hwait Hlogs.
  apply find_minted_event_none in Hlogs.
  unfold mintCertificate, try_catch, throw. rewrite Hc, Hs, Hmeta. cbn [negb orb].
  unfold mbind, Act_bind, mret, Act_ret, emit, await.
  cbn [app]. rewrite Hest. cbn [gas_with_buffer]. rewrite Hsend. cbn [app].
  rewrite Hwait, Hlogs. cbn [fst snd JS.message].
  split; [reflexivity|]. eexists _, _. split; reflexivity.
Qed.

(** X13: every failure of [mintCertificate] and of [transferCertificate]
    reaches the caller as an Error whose message is the cause prefixed with
    "Failed to mint certificate: " or "Failed to transfer certificate: ",
    and a service without contract or signer fails so without putting
    anything on the wire. *)
Theorem adapter_failures_are_wrapped svc data from to tokenId log :
  (∀ e, fst (mintCertificate sha256_hex svc data log) = JS.Throw e ->
        ∃ cause, e = JS.Error ("Failed to mint certificate: " ++ cause)) ∧
  (∀ e, fst (transferCertificate svc from to tokenId log) = JS.Throw e ->
        ∃ cause, e = JS.Error ("Failed to transfer certificate: " ++ cause)) ∧
  (contract svc && signer svc = false ->
   mintCertificate sha256_hex svc data log
   = (JS.Throw (JS.Error
        "Failed to mint certificate: Contract not initialized or no signer available"), log) ∧
   transferCertificate svc from to tokenId log
   = (JS.Throw (JS.Error
        "Failed to transfer certificate: Contract not initialized or no signer available"),
      log)).
Proof.
  split; [|split].
  - intros e. unfold mintCertificate, try_catch, throw.
    match goal with |- context [match ?b log with _ => _ end] => destruct (b log) as [[r|cause] log'] end;
      cbn [fst]; [discriminate|].
    intros [= <-]. by eexists.
  - intros e. unfold transferCertificate, try_catch, throw.
    match goal with |- context [match ?b log with _ => _ end] => destruct (b log) as [[r|cause] log'] end;
      cbn [fst]; [discriminate|].
    intros [= <-]. by eexists.
  - intros H. unfold mintCertificate, transferCertificate, try_catch, throw.
    assert (negb (contract svc) || negb (signer svc) = true) as ->.
    { destruct (contract svc), (signer svc); done. }
    done.
Qed.

Lemma lower_ascii_idemp a : JS.lower_ascii (JS.lower_ascii a) = JS.lower_ascii a.
Proof.
  destruct a as [[] [] [] [] [] [] [] []]; vm_compute; reflexivity.
Qed.

Lemma lower_idemp s : JS.lower (JS.lower s) = JS.lower s.
Proof.
  induction s as [|a s IH]; [reflexivity|]. cbn [JS.lower].
  by rewrite lower_ascii_idemp, IH.
Qed.

(** X14: with an expected owner, the adapter's [verifyCertificate]
    answers [isValid = true] exactly when the contract object is set, both
    ledger reads resolve, the ledger's verdict is true and the owner equals
    the expected address up to the case of ASCII letters; a rejected read
    gives [isValid = false] with the error message and no owner; and the
    answer is the same for the expected address and its lower-case form. *)
Theorem verify_with_expected_owner svc tokenId expected :
  let v := verifyCertificate svc tokenId (Some expected) in
  (isValid v = true ↔
   contract svc = true ∧
   ∃ o, call_ownerOf (node svc) tokenId = JS.Normal o ∧
        call_verifyCertificate (node svc) tokenId = JS.Normal true ∧
        JS.lower o = JS.lower expected) ∧
  (∀ e, call_ownerOf (node svc) tokenId = JS.Throw e -> contract svc = true ->
        v = {| isValid := false; owner := None; isVerified := false;
               error := Some (JS.message e) |}) ∧
  verifyCertificate svc tokenId (Some (JS.lower expected)) = v.
Proof.
  intros v. unfold v, verifyCertificate. split; [|split].
  - destruct (contract svc); cbn.
    2: { split; [discriminate|]. by intros [? _]. }
    destruct (call_ownerOf (node svc) tokenId) as [o|e]; cbn.
    2: { split; [discriminate|]. by intros [_ (o & ? & _)]. }
    destruct (call_verifyCertificate (node svc) tokenId) as [[|]|e]; cbn.
    + rewrite String.eqb_eq. split.
      * intros H. split; [reflexivity|]. by exists o.
      * by intros [_ (o' & [= <-] & _ & H)].
    + split; [discriminate|]. by intros [_ (o' & _ & ? & _)].
    + split; [discriminate|]. by intros [_ (o' & _ & ? & _)].
  - intros e He Hc. rewrite Hc, He. reflexivity.
  - destruct (contract svc); cbn; [|reflexivity].
    destruct (call_ownerOf (node svc) tokenId) as [o|e]; cbn; [|reflexivity].
    destruct (call_verifyCertificate (node svc) tokenId) as [[|]|e]; cbn; try reflexivity.
    by rewrite lower_idemp.
Qed.

(** X21: what [mintCertificate] puts on the wire does not depend on the
    student's name, e-mail address or completion date.  Two requests
    without [metadata] that agree on the recipient address, the course and
    user identifiers, the evaluation, the credential options and the IPFS
    pointer run the same estimate and submission and end the same way: the
    contract call carries the three digests and the pointer only. *)
Theorem mint_call_independent_of_identity svc d1 d2 log :
  recipientAddress d1 = recipientAddress d2 ->
  courseId d1 = courseId d2 -> courseName d1 = courseName d2 ->
  userId d1 = userId d2 ->
  aiEvaluation d1 = aiEvaluation d2 -> aiScore d1 = aiScore d2 ->
  credentialType d1 = credentialType d2 -> isSoulbound d1 = isSoulbound d2 ->
  validUntil d1 = validUntil d2 -> ipfsHash d1 = ipfsHash d2 ->
  JS.truthy (metadata d1) = false -> JS.truthy (metadata d2) = false ->
  mintCertificate sha256_hex svc d1 log = mintCertificate sha256_hex svc d2 log.
Proof.
  intros Hr Hci Hcn Hu Hae Has Hct Hsb Hvu Hip Hm1 Hm2.
  unfold mintCertificate.
  rewrite Hr, Hci, Hcn, Hu, Hae, Has, Hct, Hsb, Hvu, Hip, Hm1, Hm2. reflexivity.
Qed.

End AdapterProofs.

(* --------------------------------------------------------------------- *)
(** ** The certificate controller *)
(* --------------------------------------------------------------------- *)

Section ControllerProofs.
Context (sha256_hex : string -> string).
Import Controller.

(** ** Claim requests *)

Lemma find_none_forall {A} (p : A -> bool) l :
  List.find p l = None <-> Forall (fun x => p x = false) l.
Proof.
  induction l as [|x l IH]; cbn.
  - split; [constructor|reflexivity].
  - destruct (p x) eqn:E.
    + split; [discriminate|]. intros H. inversion H; congruence.
    + rewrite IH. split; [by constructor|]. intros H. by inversion H.
Qed.

Lemma find_some_elem {A} (p : A -> bool) l x :
  List.find p l = Some x -> x ∈ l ∧ p x = true.
Proof.
  intros H. apply List.find_some in H as [Hin Hp]. split; [|exact Hp].
  by apply list_elem_of_In.
Qed.

(** For a string, a number or a boolean the handler passes its first
    check, and the token condition is settled by [strictQuery] alone. *)
Lemma claim_primitive_token m v :
  JS.truthy v = true ->
  json_truthy (json_of_value v) = true ∧
  claimToken_condition m (json_of_value v) = JS.Normal (strictQuery m).
Proof.
  intros Hv. unfold claimToken_condition.
  destruct v; try discriminate Hv; cbn; (split; [exact Hv|]);
    by destruct (strictQuery m).
Qed.

(** C7: the claim handler cannot tell an issued token from any other.  No
    stored enrollment holds a claim token, the schema having dropped the
    one the mint handler assigned.  For every non-empty string, non-zero
    number or [true] sent as the token, so also for the token of an
    issuance at its first use: when the condition on the token reaches the
    database ([strictQuery] off) the answer is 404 "Invalid or expired
    claim token" and nothing changes; when the mapper drops the condition
    ([strictQuery] on) the first unclaimed enrollment of the store,
    whichever it is, is marked claimed and its summary returned.  In both
    cases the outcome is the same for any two such tokens. *)
Theorem claim_cannot_tell_an_issued_token m now v w :
  let result := claimCertificate m now (json_of_value v) w in
  JS.truthy v = true ->
  (strictQuery m = false ->
   result = (failure 404 "Invalid or expired claim token", w)) ∧
  (strictQuery m = true ->
   ∀ e c u,
     findOne (claim_filter true) (db w) = Some e ->
     findCourse (db w) (course e) = Some c ->
     findUser (db w) (user e) = Some u ->
     fst result = res_json (JObj [
       ("success", JBool true);
       ("message", JStr "Certificate claimed successfully");
       ("data", JObj [
          ("certificate", JObj [
             ("tokenId", json_of_value (tokenId (certificate e)));
             ("courseName", JStr (course_title c));
             ("studentName", JStr (user_name u));
             ("completionDate", json_of_date (completedAt e));
             ("transactionHash", json_of_value (transactionHash (certificate e)))])])]) ∧
     mark_claimed now e ∈ enrollments (db (snd result))) ∧
  (∀ v', JS.truthy v' = true -> claimCertificate m now (json_of_value v') w = result).
Proof.
  intros result Hv.
  destruct (claim_primitive_token m v Hv) as [Ht Hcond].
  split; [|split].
  - intros Hs. unfold result, claimCertificate. rewrite Ht, Hcond, Hs. cbn [negb].
    assert (findOne (claim_filter false) (db w) = None) as ->; [|reflexivity].
    unfold findOne. apply find_none_forall, Forall_forall. by intros x _.
  - intros Hs e c u Hfind Hc Hu. unfold result, claimCertificate.
    rewrite Ht, Hcond, Hs. cbn [negb]. rewrite Hfind.
    cbn [mark_claimed course user]. rewrite Hc, Hu. cbn [fst snd].
    split; [reflexivity|].
    apply find_some_elem in Hfind as [Hin _].
    cbn [set_db db save_enrollment enrollments]. apply list_elem_of_fmap.
    exists e. split; [|exact Hin]. cbn [mark_claimed enrollment_id].
    by rewrite String.eqb_refl.
  - intros v' Hv'. destruct (claim_primitive_token m v' Hv') as [Ht' Hcond'].
    unfold result, claimCertificate. by rewrite Ht, Hcond, Ht', Hcond'.
Qed.

(** ** Verification *)

(** C1: [verifyCertificate] never looks at the caller.  For every request,
    so also one by a party that is neither recipient, issuer nor
    administrator, and whatever the ledger says about the token, the
    response for a token with an enrollment on record is a 200 whose
    [metadata] carries the recipient's name and e-mail address (and no
    evaluation narrative). *)
Theorem verify_discloses_recipient_identity svc req w e c u :
  findOne (token_filter (params_tokenId req)) (db w) = Some e ->
  findCourse (db w) (course e) = Some c ->
  findUser (db w) (user e) = Some u ->
  let response := fst (verifyCertificate svc req w) in
  http_status response = 200 ∧
  json_at ["data"; "verification"; "metadata"] (body response)
    = Some (JObj [
        ("courseName", JStr (course_title c));
        ("studentName", JStr (user_name u));
        ("studentEmail", JStr (user_email u));
        ("instructorName", JUndefined);
        ("completionDate", json_of_date (completedAt e));
        ("score", json_of_value (score (finalEvaluation e)));
        ("mintedAt", json_of_date (mintedAt (certificate e)))]) ∧
  json_at ["data"; "verification"; "metadata"; "studentName"] (body response)
    = Some (JStr (user_name u)) ∧
  json_at ["data"; "verification"; "metadata"; "studentEmail"] (body response)
    = Some (JStr (user_email u)).
Proof.
  intros Hfind Hc Hu response. unfold response, verifyCertificate.
  rewrite Hfind, Hc, Hu. cbn. done.
Qed.

(** ** Issuance *)

Lemma certificateData_unbound :
  JS.resolve mintCertificate_scope "certificateData"
  = JS.Throw (JS.ReferenceError "certificateData is not defined").
Proof. vm_compute. reflexivity. Qed.

Lemma claimToken_unbound :
  JS.resolve mintCertificate_scope "claimToken"
  = JS.Throw (JS.ReferenceError "claimToken is not defined").
Proof. vm_compute. reflexivity. Qed.


(** ** Reading a certificate *)

Lemma json_at_obj_set_eq key v fields :
  json_at [key] (JObj (obj_set key v fields)) = Some v.
Proof.
  unfold obj_set. cbn [json_at].
  destruct (existsb (fun kv => String.eqb (fst kv) key) fields) eqn:E.
  - induction fields as [|[k x] fields IH]; [discriminate E|].
    cbn [existsb fst] in E. cbn [map List.find fst].
    destruct (String.eqb k key) eqn:Ek; cbn [fst]; [by rewrite String.eqb_refl|].
    rewrite Ek. by apply IH.
  - induction fields as [|[k x] fields IH]; cbn [app List.find fst].
    + by rewrite String.eqb_refl.
    + cbn [existsb fst] in E. apply orb_false_iff in E as [Ek E].
      rewrite Ek. by apply IH.
Qed.

Lemma json_at_obj_set_ne key key' v fields :
  key' ≠ key ->
  json_at [key'] (JObj (obj_set key v fields)) = json_at [key'] (JObj fields).
Proof.
  intros Hne. unfold obj_set. cbn [json_at].
  assert (String.eqb key key' = false) as Hkk.
  { apply String.eqb_neq. congruence. }
  destruct (existsb (fun kv => String.eqb (fst kv) key) fields).
  - induction fields as [|[k x] fields IH]; [reflexivity|].
    cbn [map List.find fst].
    destruct (String.eqb k key) eqn:Ek; cbn [fst].
    + apply String.eqb_eq in Ek as ->. by rewrite Hkk.
    + destruct (String.eqb k key'); [reflexivity|exact IH].
  - induction fields as [|[k x] fields IH]; cbn [app List.find fst].
    + by rewrite Hkk.
    + destruct (String.eqb k key'); [reflexivity|exact IH].
Qed.

(** X15: [getCertificate] adds the off-chain personal data only for the
    recipient, the issuer or an administrator.  For a token with ledger
    data and a Certificate record the answer is 200 and the store is left
    alone; for such a caller the name, e-mail address, course name, score,
    evaluation and issuer name of the record are in the data, over anything
    the ledger data held under those keys; for any other caller, signed in
    or not, the data is the ledger data as the adapter returned it (its
    IPFS [metadata] property included) with only [message],
    [verificationUrl] and [blockchainExplorerUrl] set by the handler. *)
Theorem getCertificate_filters_by_caller env caller tokenId w blockchainData certificate :
  blockchain_getCertificate env tokenId = JS.Normal (Some blockchainData) ->
  findCertificate (db w) tokenId = Some certificate ->
  let response := fst (getCertificate env caller tokenId w) in
  http_status response = 200 ∧
  snd (getCertificate env caller tokenId w) = w ∧
  if may_see_all caller certificate
  then json_at ["data"; "studentName"] (body response)
         = Some (JStr (c_studentName certificate)) ∧
       json_at ["data"; "studentEmail"] (body response)
         = Some (JStr (c_studentEmail certificate)) ∧
       json_at ["data"; "courseName"] (body response)
         = Some (JStr (c_courseName certificate)) ∧
       json_at ["data"; "aiScore"] (body response)
         = Some (json_of_value (c_aiScore certificate)) ∧
       json_at ["data"; "aiEvaluation"] (body response)
         = Some (json_of_value (c_aiEvaluation certificate)) ∧
       json_at ["data"; "issuerName"] (body response)
         = Some (JStr (c_issuerName certificate))
  else json_at ["data"; "message"] (body response)
         = Some (JStr "Sensitive personal information can only be viewed by the certificate owner.") ∧
       ∀ key, key ∉ ["message"; "verificationUrl"; "blockchainExplorerUrl"] ->
              json_at ["data"; key] (body response) = json_at [key] (JObj blockchainData).
Proof.
  intros Hchain Hcert response. unfold response, getCertificate.
  rewrite Hchain, Hcert. cbn [fst snd].
  split; [by destruct (may_see_all caller certificate)|]. split; [reflexivity|].
  assert (∀ key rd, json_at ["data"; key]
                      (body (res_json (JObj [("success", JBool true); ("data", JObj rd)])))
                    = json_at [key] (JObj rd)) as Hdata by reflexivity.
  destruct (may_see_all caller certificate); rewrite ?Hdata.
  - repeat split; rewrite ?Hdata;
      do 2 (rewrite json_at_obj_set_ne by discriminate);
      unfold obj_assign; cbn [fold_left fst snd];
      repeat (first [apply json_at_obj_set_eq
                    |rewrite json_at_obj_set_ne by discriminate]).
  - split.
    + do 2 (rewrite json_at_obj_set_ne by discriminate).
      unfold obj_assign. cbn [fold_left fst snd]. apply json_at_obj_set_eq.
    + intros key Hkey. rewrite ?Hdata.
      rewrite !not_elem_of_cons in Hkey. destruct Hkey as (Hm & Hv & Hb & _).
      do 2 (rewrite json_at_obj_set_ne by assumption).
      unfold obj_assign. cbn [fold_left fst snd]. by apply json_at_obj_set_ne.
Qed.

(** ** Issuance, again *)

Lemma find_saved (p : Enrollment -> bool) e e' l :
  e ∈ l ->
  enrollment_id e' = enrollment_id e ->
  p e' = true ->
  (∀ x, x ∈ l -> enrollment_id x ≠ enrollment_id e -> p x = false) ->
  List.find p (map (fun x => if String.eqb (enrollment_id x) (enrollment_id e')
                             then e' else x) l) = Some e'.
Proof.
  intros Hin Hid Hp Hother. rewrite Hid.
  induction l as [|x l IH]; [by apply elem_of_nil in Hin|].
  cbn [map List.find].
  destruct (String.eqb (enrollment_id x) (enrollment_id e)) eqn:E.
  - by rewrite Hp.
  - apply String.eqb_neq in E.
    rewrite (Hother x) by (try apply elem_of_cons; auto).
    apply elem_of_cons in Hin as [->|Hin]; [congruence|].
    apply IH; [exact Hin|]. intros y Hy. apply Hother. apply elem_of_cons. by right.
Qed.

(** The world a successful mint leaves, under the conditions of the
    handler's last steps. *)
Lemma mintCertificate_world env caller enrollmentId w e u c ipfsHash mintResult :
  findOne (fun x => String.eqb (enrollment_id x) enrollmentId) (db w) = Some e ->
  findUser (db w) (user e) = Some u ->
  user_id u = user_id caller ->
  status e = "completed" ->
  JS.truthy (passed (finalEvaluation e)) = true ->
  JS.truthy (tokenId (certificate e)) = false ->
  findCourse (db w) (course e) = Some c ->
  ipfs_uploadMetadata env (mint_metadata env e u c) = JS.Normal ipfsHash ->
  blockchain_mintCertificate env (minting_data env e u c ipfsHash) = JS.Normal mintResult ->
  certificate_valid (new_certificate sha256_hex env caller e u c ipfsHash mintResult) (db w)
    = true ->
  let e' := set_certificate (minted_reference env mintResult) e in
  let w' := snd (mintCertificate sha256_hex env caller enrollmentId w) in
  users (db w') = users (db w) ∧ courses (db w') = courses (db w) ∧
  enrollments (db w')
  = map (fun x => if String.eqb (enrollment_id x) (enrollment_id e') then e' else x)
        (enrollments (db w)) ∧
  Adapter.tokenId mintResult ≠ "".
Proof.
  intros Hfind Hu Hown Hst Hpass Htok Hc Hup Hmint Hvalid e' w'.
  unfold w', mintCertificate, mintCertificate_try.
  rewrite Hfind, Hu, Hown, String.eqb_refl. cbn [negb].
  rewrite Hst, String.eqb_refl, Hpass. cbn [negb orb].
  rewrite Htok, Hc, Hup, Hmint.
  unfold save_certificate. rewrite Hvalid.
  rewrite certificateData_unbound, claimToken_unbound.
  cbn -[new_certificate]. repeat split.
  unfold certificate_valid in Hvalid. rewrite !andb_true_iff in Hvalid.
  destruct Hvalid as [[[[[[[[[Hne _] _] _] _] _] _] _] _] _].
  cbn [new_certificate c_tokenId] in Hne.
  intros Heq. rewrite Heq in Hne. discriminate Hne.
Qed.

(** X16: a second mint request is refused.  After a mint request that
    went through issuance (and was answered 500), the same request answers
    400 "Certificate already minted" and changes nothing. *)
Theorem second_mint_is_refused env caller enrollmentId w e u c ipfsHash mintResult env2 :
  findOne (fun x => String.eqb (enrollment_id x) enrollmentId) (db w) = Some e ->
  findUser (db w) (user e) = Some u ->
  user_id u = user_id caller ->
  status e = "completed" ->
  JS.truthy (passed (finalEvaluation e)) = true ->
  JS.truthy (tokenId (certificate e)) = false ->
  findCourse (db w) (course e) = Some c ->
  ipfs_uploadMetadata env (mint_metadata env e u c) = JS.Normal ipfsHash ->
  blockchain_mintCertificate env (minting_data env e u c ipfsHash) = JS.Normal mintResult ->
  certificate_valid (new_certificate sha256_hex env caller e u c ipfsHash mintResult) (db w)
    = true ->
  let w' := snd (mintCertificate sha256_hex env caller enrollmentId w) in
  mintCertificate sha256_hex env2 caller enrollmentId w'
  = (failure 400 "Certificate already minted", w').
Proof.
  intros Hfind Hu Hown Hst Hpass Htok Hc Hup Hmint Hvalid w'.
  destruct (mintCertificate_world env caller enrollmentId w e u c ipfsHash mintResult
              Hfind Hu Hown Hst Hpass Htok Hc Hup Hmint Hvalid)
    as (Husers & _ & Henr & Hne).
  fold w' in Husers, Henr.
  apply find_some_elem in Hfind as Hin. destruct Hin as [Hin Hid].
  set (e' := set_certificate (minted_reference env mintResult) e) in *.
  assert (findOne (fun x => String.eqb (enrollment_id x) enrollmentId) (db w') = Some e')
    as Hfind'.
  { unfold findOne. rewrite Henr. apply (find_saved _ e); try done.
    intros x _ Hx. apply String.eqb_eq in Hid. rewrite <- Hid.
    by apply String.eqb_neq. }
  unfold mintCertificate, mintCertificate_try. rewrite Hfind'.
  unfold findUser in *. rewrite Husers. unfold e'.
  cbn [set_certificate user status finalEvaluation certificate minted_reference tokenId].
  rewrite Hu, Hown, String.eqb_refl. cbn [negb].
  rewrite Hst, String.eqb_refl, Hpass. cbn [negb orb JS.truthy].
  destruct (String.eqb (Adapter.tokenId mintResult) "") eqn:E;
    [apply String.eqb_eq in E; contradiction|].
  reflexivity.
Qed.

(** X17: the mint handler never reports success and never hands a mail
    to the notification service.  Whatever the request, the store and the
    collaborators' answers, the status is 400, 403, 404 or 500, the body
    says [success: false], and the outbox, the users and the courses are as
    before. *)
Theorem mint_handler_never_succeeds env caller enrollmentId w :
  let result := mintCertificate sha256_hex env caller enrollmentId w in
  http_status (fst result) ∈ [400; 403; 404; 500] ∧
  json_at ["success"] (body (fst result)) = Some (JBool false) ∧
  outbox (snd result) = outbox w ∧
  users (db (snd result)) = users (db w) ∧
  courses (db (snd result)) = courses (db w).
Proof.
  intros result. unfold result, mintCertificate, mintCertificate_try.
  destruct (findOne _ (db w)) as [e|]; [|cbn; rewrite !elem_of_cons; auto 10].
  destruct (findUser (db w) (user e)) as [u|]; [|cbn; rewrite !elem_of_cons; auto 10].
  destruct (negb (String.eqb (user_id u) (user_id caller)));
    [cbn; rewrite !elem_of_cons; auto 10|].
  destruct (negb (String.eqb (status e) "completed") ||
            negb (JS.truthy (passed (finalEvaluation e))));
    [cbn; rewrite !elem_of_cons; auto 10|].
  destruct (JS.truthy (tokenId (certificate e))); [cbn; rewrite !elem_of_cons; auto 10|].
  destruct (findCourse (db w) (course e)) as [c|]; [|cbn; rewrite !elem_of_cons; auto 10].
  destruct (ipfs_uploadMetadata env _) as [ipfsHash|?];
    [|cbn; rewrite !elem_of_cons; auto 10].
  destruct (blockchain_mintCertificate env _) as [mintResult|?];
    [|cbn; rewrite !elem_of_cons; auto 10].
  destruct (save_certificate _ (db w)) as [d1|?] eqn:Hsave;
    [|cbn; rewrite !elem_of_cons; auto 10].
  rewrite certificateData_unbound, claimToken_unbound.
  unfold save_certificate in Hsave.
  destruct (certificate_valid _ (db w)); [|discriminate Hsave].
  injection Hsave as <-. cbn. rewrite !elem_of_cons. auto 10.
Qed.


(** ** The verification endpoint *)

Lemma adapter_verify_without_owner svc tokenId :
  Adapter.isValid (Adapter.verifyCertificate svc tokenId None) = false ∧
  Adapter.isVerified (Adapter.verifyCertificate svc tokenId None) = false.
Proof.
  unfold Adapter.verifyCertificate.
  destruct (Adapter.contract svc); cbn; [|done].
  destruct (Adapter.call_ownerOf (Adapter.node svc) tokenId) as [o|?]; cbn; [|done].
  destruct (Adapter.call_verifyCertificate (Adapter.node svc) tokenId) as [[|]|?]; cbn; done.
Qed.

(** X22: the verification endpoint called without [ownerAddress] never
    reports a valid certificate: whatever the ledger says, a 200 answer
    carries [isValid], [isVerified] and [blockchainVerified] false; and
    for a token with no enrollment on record the answer is a 200 with
    [databaseVerified] false and no [metadata]. *)
Theorem verify_endpoint_needs_owner_address svc req w :
  let response := fst (verifyCertificate svc req w) in
  (query_ownerAddress req = None ->
   http_status response = 200 ->
   json_at ["data"; "verification"; "isValid"] (body response) = Some (JBool false) ∧
   json_at ["data"; "verification"; "isVerified"] (body response) = Some (JBool false) ∧
   json_at ["data"; "verification"; "blockchainVerified"] (body response)
   = Some (JBool false)) ∧
  (findOne (token_filter (params_tokenId req)) (db w) = None ->
   http_status response = 200 ∧
   json_at ["data"; "verification"; "databaseVerified"] (body response)
   = Some (JBool false) ∧
   json_at ["data"; "verification"; "metadata"] (body response) = None).
Proof.
  intros response. unfold response, verifyCertificate. split.
  - intros Hq. rewrite Hq.
    destruct (adapter_verify_without_owner svc (JS.Str (params_tokenId req))) as [-> ->].
    destruct (findOne _ (db w)) as [e|]; [|by cbn].
    destruct (findCourse (db w) (course e)); [|cbn; discriminate].
    destruct (findUser (db w) (user e)); [by cbn|cbn; discriminate].
  - intros ->. by cbn.
Qed.

End ControllerProofs.

(* --------------------------------------------------------------------- *)
(** ** Concrete runs *)
(* --------------------------------------------------------------------- *)

Section ConcreteRuns.
Import Sample.

(** *** Issuance and burning on the ledger *)

(** C2 on a run: the deployer issues (c1, s1) to holder 5 as token 1; the
    holder approves an operator; the second issuance of (c1, s1) reverts. *)
Lemma duplicate_issuance_rejected_witness :
  let s := Ledger.initial_state 1 in
  let s1 := fst (Ledger.apply_call digest (env_of 1 1000) mint_c1_s1 s) in
  let s2 := Ledger.run digest [(env_of 5 1001, Ledger.Approve 7 1)] s1 in
  snd (Ledger.apply_call digest (env_of 1 1000) mint_c1_s1 s) = Ledger.Success (Some 1) ∧
  Ledger._exists s 1 = false ∧
  Ledger._ownerOf s1 1 = 5 ∧
  Ledger.apply_call digest (env_of 1 1002) mint_c1_s1_again s2
  = (s2, Ledger.Reverted "Credential already exists") ∧
  Ledger._mintSingleCredential digest (env_of 1 1002) 6 "c1" "s1" "e2" "Qm2" 2 true 0 0 s2
  = Ledger.Revert "Credential already exists".
Proof.
  apply (duplicate_issuance_rejected digest 1 [] (env_of 1 1000) 5 "c1" "s1" "e1" "Qm1"
           1 false 0 0 [(env_of 5 1001, Ledger.Approve 7 1)] (env_of 1 1002) 6 "e2" "Qm2"
           2 true 0 0);
    vm_compute; reflexivity.
Defined.

(** C4 on a run: a soulbound token 1 of holder 5 survives the holder's
    burn attempt and an approval, and cannot be transferred. *)
Lemma soulbound_owner_never_changes_witness :
  let s := Ledger.run digest [(env_of 1 1000, mint_soulbound)] (Ledger.initial_state 1) in
  let s' := Ledger.run digest
              [(env_of 5 1001, Ledger.Burn 1); (env_of 5 1002, Ledger.Approve 7 1)] s in
  Ledger._ownerOf s' 1 = Ledger._ownerOf s 1 ∧
  Ledger.apply_call digest (env_of 5 1003) (Ledger.TransferFrom 5 6 1) s'
    = (s', Ledger.Reverted "Soulbound tokens cannot be transferred") ∧
  Ledger.apply_call digest (env_of 5 1003) (Ledger.SafeTransferFrom 5 6 1) s'
    = (s', Ledger.Reverted "Soulbound tokens cannot be transferred") ∧
  Ledger.apply_call digest (env_of 5 1003) (Ledger.SafeTransferFromData 5 6 1) s'
    = (s', Ledger.Reverted "Soulbound tokens cannot be transferred").
Proof.
  apply (soulbound_owner_never_changes digest 1 [(env_of 1 1000, mint_soulbound)] 1
           [(env_of 5 1001, Ledger.Burn 1); (env_of 5 1002, Ledger.Approve 7 1)]
           (env_of 5 1003) 5 6);
    vm_compute; reflexivity.
Defined.

(** C5, counterexample: the holder burns token 1; the token is gone, its
    commitment is still registered, and issuing the pair again reverts. *)
Example burn_does_not_free_slot :
  let s := Ledger.run digest [(env_of 1 1000, mint_c1_s1)] (Ledger.initial_state 1) in
  let res := Ledger.apply_call digest (env_of 5 1001) (Ledger.Burn 1) s in
  Ledger._exists s 1 = true ∧
  Ledger.isRevocable (Ledger.credential_at s 1) = true ∧
  snd res = Ledger.Success None ∧
  Ledger._exists (fst res) 1 = false ∧
  Ledger.hash_used (fst res) (Ledger.credentialHash_of digest "c1" "s1") = true ∧
  Ledger.apply_call digest (env_of 1 1002) mint_c1_s1 (fst res)
  = (fst res, Ledger.Reverted "Credential already exists").
Proof. vm_compute. repeat split. Qed.

(** C5, as amended, on the same run, with a transaction between the burn
    and the second issuance. *)
Lemma burn_keeps_commitment_slot_witness :
  let s := Ledger.run digest [(env_of 1 1000, mint_c1_s1)] (Ledger.initial_state 1) in
  let cred := Ledger.credential_at s 1 in
  let s1 := fst (Ledger.apply_call digest (env_of 5 1001) (Ledger.Burn 1) s) in
  let s2 := Ledger.run digest [(env_of 1 1002, Ledger.SetEmergencyPause true)] s1 in
  Ledger.isRevocable cred = true ∧
  Ledger._exists s1 1 = false ∧
  Ledger.credentials s1 !! 1 = None ∧
  Ledger.is_revoked s1 1 = false ∧
  Ledger.usedHashes s1 = Ledger.usedHashes s ∧
  Ledger.hash_used s1 (Ledger.commitment_of digest cred) = true ∧
  Ledger.apply_call digest (env_of 1 1003)
    (Ledger.MintCredential 6 (Ledger.courseHash cred) (Ledger.studentHash cred)
       "e2" "Qm2" 2 false 0 0) s2
  = (s2, Ledger.Reverted "Credential already exists").
Proof.
  apply (burn_keeps_commitment_slot digest 1 [(env_of 1 1000, mint_c1_s1)] (env_of 5 1001) 1
           [(env_of 1 1002, Ledger.SetEmergencyPause true)] (env_of 1 1003) 6 "e2" "Qm2"
           2 false 0 0);
    vm_compute; reflexivity.
Defined.



(** *** The adapter *)

(** C3 at a failing input: token 7 is valid on the ledger and held by
    [0xAbC]; without [expectedOwner] the adapter answers invalid, with no
    owner, and reports the TypeError. *)
Example verify_valid_token_without_expected_owner :
  Adapter.verifyCertificate service (JS.Str "7") None
  = {| Adapter.isValid := false; Adapter.owner := None; Adapter.isVerified := false;
       Adapter.error :=
         Some "Cannot read properties of undefined (reading 'toLowerCase')" |}.
Proof. reflexivity. Qed.

(** The same token with the owner's address supplied. *)
Example verify_valid_token_with_expected_owner :
  Adapter.verifyCertificate service (JS.Str "7") (Some "0xabc")
  = {| Adapter.isValid := true; Adapter.owner := Some "0xAbC"; Adapter.isVerified := true;
       Adapter.error := None |}.
Proof. reflexivity. Qed.

(** C8 on the sample node behind a client with bigint estimates: the
    mint is estimated and never submitted, the transfer is submitted with
    no gas limit and no estimate. *)
Lemma adapter_writes_apply_no_gas_margin_witness :
  (∃ call,
     Adapter.mintCertificate sha service_v6 mint_request []
     = (JS.Throw (JS.Error
          "Failed to mint certificate: Cannot mix BigInt and other types, use explicit conversions"),
        [Adapter.EstimateGas call])) ∧
  (∃ rest,
     snd (Adapter.transferCertificate service_v6 (JS.Str "0xAbC") (JS.Str "0xDeF")
            (JS.Str "7") [])
     = Adapter.SendTransaction
         (Adapter.TransferFromCall (JS.Str "0xAbC") (JS.Str "0xDeF") (JS.Str "7")) None
       :: rest ∧
     ∀ ev, ev ∈ rest -> ∃ tx, ev = Adapter.WaitForReceipt tx).
Proof.
  apply (adapter_writes_apply_no_gas_margin sha service_v6 mint_request 100000
           (JS.Str "0xAbC") (JS.Str "0xDeF") (JS.Str "7"));
    reflexivity.
Defined.

(** The log of that transfer. *)
Example transfer_submits_without_estimate :
  snd (Adapter.transferCertificate service_v6 (JS.Str "0xAbC") (JS.Str "0xDeF")
         (JS.Str "7") [])
  = [Adapter.SendTransaction
       (Adapter.TransferFromCall (JS.Str "0xAbC") (JS.Str "0xDeF") (JS.Str "7")) None;
     Adapter.WaitForReceipt "0xtx"].
Proof. reflexivity. Qed.

(** A mint behind a client that resolves estimates with Numbers: estimate
    100000, limit 120000. *)
Example mint_submits_with_buffer :
  ∃ call,
    snd (Adapter.mintCertificate sha service mint_request [])
    = [Adapter.EstimateGas call; Adapter.SendTransaction call (Some 120000);
       Adapter.WaitForReceipt "0xtx"].
Proof. eexists. vm_compute. reflexivity. Qed.

(** From [2^53] on the doubles are too coarse for the margin: the limit
    for [2^53] is one below the estimate times 1.2, rounded up. *)
Example gas_limit_of_large_number :
  Adapter.gas_with_buffer (Adapter.GasNumber (2 ^ 53)) = JS.Normal 10808639105689190 ∧
  (12 * 2 ^ 53 + 9) / 10 = 10808639105689191.
Proof. split; vm_compute; reflexivity. Qed.

(** C9, counterexample: two distinct lists with the same joined text. *)
Example combined_collision :
  (["a|b"; "c"] : list string) ≠ ["a"; "b|c"] ∧
  Adapter.combined (JS.Str <$> ["a|b"; "c"]) = Adapter.combined (JS.Str <$> ["a"; "b|c"]).
Proof. split; [discriminate|reflexivity]. Qed.

(** The empty list and the list holding the empty string collide too. *)
Example combined_collision_empty :
  Adapter.combined (JS.Str <$> []) = Adapter.combined (JS.Str <$> [""]).
Proof. reflexivity. Qed.

(** C9, as amended, on two lists without the separator. *)
Lemma combined_injective_without_separator_witness :
  Adapter.combined (JS.Str <$> ["c1"; "s1"]) ≠ Adapter.combined (JS.Str <$> ["c1"; "s2"]).
Proof.
  apply (combined_injective_without_separator ["c1"; "s1"] ["c1"; "s2"]);
    try discriminate; repeat constructor.
Defined.

(** *** The controller *)

(** C7 on the sample store: the token stored nowhere, "9a1b7c", generated
    at the issuance for enrollment [e1], is rejected at its first use; and
    when the mapper drops the condition, any string claims enrollment
    [e1] before anything was issued for it. *)
Lemma claim_cannot_tell_an_issued_token_witness :
  let w' := snd (Controller.mintCertificate sha services alice "e1" world) in
  let result := Controller.claimCertificate mongoose_strict 1700000500
                  (Controller.JStr "anything") world in
  Controller.claimCertificate mongoose_lenient 1700000500 (Controller.JStr "9a1b7c") w'
  = (Controller.failure 404 "Invalid or expired claim token", w') ∧
  Controller.json_at ["data"; "certificate"; "courseName"] (Controller.body (fst result))
  = Some (Controller.JStr "Blockchain Basics") ∧
  Controller.json_at ["data"; "certificate"; "tokenId"] (Controller.body (fst result))
  = Some Controller.JUndefined ∧
  Controller.mark_claimed 1700000500 completed_enrollment
    ∈ Controller.enrollments (Controller.db (snd result)).
Proof.
  pose proof (claim_cannot_tell_an_issued_token mongoose_lenient 1700000500 (JS.Str "9a1b7c")
                (snd (Controller.mintCertificate sha services alice "e1" world))) as H1.
  pose proof (claim_cannot_tell_an_issued_token mongoose_strict 1700000500
                (JS.Str "anything") world) as H2.
  cbv zeta in H1, H2.
  destruct (H1 eq_refl) as [Hlenient _].
  destruct (H2 eq_refl) as (_ & Hstrict & _).
  destruct (Hstrict eq_refl completed_enrollment basics alice eq_refl eq_refl eq_refl)
    as [Hresponse Hstored].
  split; [exact (Hlenient eq_refl)|].
  cbv zeta. split; [|split; [|exact Hstored]].
  - change (Controller.JStr "anything") with (Controller.json_of_value (JS.Str "anything")).
    rewrite Hresponse. reflexivity.
  - change (Controller.JStr "anything") with (Controller.json_of_value (JS.Str "anything")).
    rewrite Hresponse. reflexivity.
Defined.

(** The token need not be a string: an operator document is accepted by
    the enrollments, none of which holds the path, and claims the first
    unclaimed one. *)
Example object_token_claims_an_enrollment :
  let result := Controller.claimCertificate mongoose_lenient 1700000500
                  (Controller.JObj [("$ne", Controller.JStr "x")]) world in
  Controller.http_status (fst result) = 200 ∧
  Controller.json_at ["data"; "certificate"; "courseName"] (Controller.body (fst result))
  = Some (Controller.JStr "Blockchain Basics") ∧
  Controller.mark_claimed 1700000500 completed_enrollment
    ∈ Controller.enrollments (Controller.db (snd result)).
Proof.
  cbv zeta. split; [reflexivity|]. split; [reflexivity|].
  apply elem_of_cons. left. reflexivity.
Qed.

(** With the condition dropped a replay does not fail either: the same
    token sent again claims the next unclaimed enrollment, [e2]. *)
Example repeated_token_claims_another_enrollment :
  let first := Controller.claimCertificate mongoose_strict 1700000500
                 (Controller.JStr "anything") world in
  let second := Controller.claimCertificate mongoose_strict 1700000600
                  (Controller.JStr "anything") (snd first) in
  Controller.http_status (fst second) = 200 ∧
  Controller.json_at ["data"; "certificate"; "courseName"] (Controller.body (fst second))
  = Some (Controller.JStr "Smart Contracts") ∧
  Controller.enrollments (Controller.db (snd second))
  = [Controller.mark_claimed 1700000500 completed_enrollment;
     Controller.mark_claimed 1700000600 minted_enrollment].
Proof. cbv zeta. split; [reflexivity|]. split; reflexivity. Qed.

(** C1 on the sample store: an anonymous verification of token 7 returns
    the recipient's name and e-mail address. *)
Lemma verify_discloses_recipient_identity_witness :
  let response := fst (Controller.verifyCertificate service anonymous_verify world) in
  Controller.http_status response = 200 ∧
  Controller.json_at ["data"; "verification"; "metadata"] (Controller.body response)
    = Some (Controller.JObj [
        ("courseName", Controller.JStr "Smart Contracts");
        ("studentName", Controller.JStr "Alice Kim");
        ("studentEmail", Controller.JStr "alice@example.com");
        ("instructorName", Controller.JUndefined);
        ("completionDate", Controller.JDate 1699980000);
        ("score", Controller.JNum 95);
        ("mintedAt", Controller.JDate 1699990000)]) ∧
  Controller.json_at ["data"; "verification"; "metadata"; "studentName"]
    (Controller.body response) = Some (Controller.JStr "Alice Kim") ∧
  Controller.json_at ["data"; "verification"; "metadata"; "studentEmail"]
    (Controller.body response) = Some (Controller.JStr "alice@example.com").
Proof.
  apply (verify_discloses_recipient_identity service anonymous_verify world
           minted_enrollment advanced alice); reflexivity.
Defined.


(** *** Further runs on the ledger *)

(** X1 on the list [3; 5; 7; 9]: removing 5 moves the last element into
    its place. *)
Lemma swap_remove_removes_one_witness :
  Ledger.swap_remove 5 [3; 5; 7; 9] = [3; 9; 7] ∧
  [3; 5; 7; 9] ≡ₚ 5 :: Ledger.swap_remove 5 [3; 5; 7; 9] ∧
  Ledger.swap_remove 4 [3; 5; 7; 9] = [3; 5; 7; 9].
Proof.
  destruct (swap_remove_removes_one 5 [3; 5; 7; 9]) as (Hperm & _ & _).
  destruct (swap_remove_removes_one 4 [3; 5; 7; 9]) as (_ & _ & Habsent).
  split; [reflexivity|]. split.
  - apply Hperm. apply elem_of_cons. right. apply elem_of_cons. by left.
  - apply Habsent. intros H. repeat (apply elem_of_cons in H as [H|H]; [discriminate H|]).
    by apply elem_of_nil in H.
Defined.

(** X3 on a run: the issuer revokes token 1; the holder's burn attempt
    and a verifier's mark change nothing about it. *)
Lemma revocation_is_permanent_witness :
  let s := Ledger.run digest [(env_of 1 1000, mint_c1_s1)] (Ledger.initial_state 1) in
  let res := Ledger.apply_call digest (env_of 1 1001)
               (Ledger.RevokeCredential 1 "policy violation") s in
  let s' := Ledger.run digest
              [(env_of 5 1002, Ledger.Burn 1);
               (env_of 1 1003, Ledger.SetCredentialVerification 1 true "checked")]
              (fst res) in
  Ledger._exists s' 1 = true ∧
  Ledger._ownerOf s' 1 = Ledger._ownerOf s 1 ∧
  Ledger.is_revoked s' 1 = true ∧
  Ledger.verifyCredential (env_of 9 2000) 1 s' = (false, "Credential has been revoked").
Proof.
  pose proof (revocation_is_permanent digest (env_of 1 1001) 1 "policy violation"
                (Ledger.run digest [(env_of 1 1000, mint_c1_s1)] (Ledger.initial_state 1))
                [(env_of 5 1002, Ledger.Burn 1);
                 (env_of 1 1003, Ledger.SetCredentialVerification 1 true "checked")]
                (env_of 9 2000)) as H.
  cbv zeta in H. specialize (H ltac:(vm_compute; reflexivity)).
  destruct H as (H1 & H2 & H3 & H4 & _). by repeat split.
Defined.

(** X4 on a run: the soulbound token 1 after an approval by its holder. *)
Lemma soulbound_never_revoked_or_burned_witness :
  let s := Ledger.run digest [(env_of 1 1000, mint_soulbound)] (Ledger.initial_state 1) in
  let s' := Ledger.run digest [(env_of 5 1001, Ledger.Approve 7 1)] s in
  Ledger._exists s' 1 = true ∧
  Ledger.is_revoked s' 1 = false ∧
  Ledger.apply_call digest (env_of 1 1002) (Ledger.RevokeCredential 1 "policy violation") s'
  = (s', Ledger.Reverted "Credential is not revocable") ∧
  Ledger.apply_call digest (env_of 5 1002) (Ledger.Burn 1) s'
  = (s', Ledger.Reverted "Soulbound tokens cannot be burned").
Proof.
  pose proof (soulbound_never_revoked_or_burned digest 1 [(env_of 1 1000, mint_soulbound)] 1
                [(env_of 5 1001, Ledger.Approve 7 1)]) as H.
  cbv zeta in H.
  pose proof (H (env_of 1 1002) "policy violation"
                ltac:(vm_compute; reflexivity) ltac:(vm_compute; reflexivity))
    as (H1 & _ & H3 & H4 & _).
  pose proof (H (env_of 5 1002) ""
                ltac:(vm_compute; reflexivity) ltac:(vm_compute; reflexivity))
    as (_ & _ & _ & _ & H5 & _).
  split; [exact H1|]. split; [exact H3|]. split.
  - rewrite H4. reflexivity.
  - rewrite H5. reflexivity.
Defined.

(** X5 on the fresh ledger: a one-entry batch with empty hashes, an empty
    metadata pointer and credential type 0 is minted as token 1. *)
Lemma batch_mint_skips_input_checks_witness :
  let s := Ledger.initial_state 1 in
  let s' := Ledger.mint_post digest (env_of 1 1000) 5 "" "" "" "" 0 false 0 0 s in
  Ledger.apply_call digest (env_of 1 1000)
    (Ledger.BatchMintCredentials (Ledger.single_request 5 "" "" "" "" 0 false 0 0)) s
  = (s', Ledger.Success None) ∧
  Ledger._ownerOf s' 1 = 5 ∧
  Ledger.credentialType (Ledger.credential_at s' 1) = 0 ∧
  (∃ reason, Ledger.apply_call digest (env_of 1 1000)
               (Ledger.MintCredential 5 "" "" "" "" 0 false 0 0) s
             = (s, Ledger.Reverted reason)) ∧
  Ledger.tokenURI 1 s' = Ledger.Revert "IPFS metadata not set".
Proof.
  pose proof (batch_mint_skips_input_checks digest (env_of 1 1000) 5 "" "" "" "" 0 false 0 0
                (Ledger.initial_state 1)) as H.
  cbv zeta in H.
  specialize (H ltac:(vm_compute; reflexivity) ltac:(vm_compute; reflexivity)).
  destruct H as (H1 & H2 & H3 & H4 & H5).
  split; [exact H1|]. split; [exact H2|].
  split; [exact (f_equal Ledger.credentialType H3)|].
  split; [apply H4; vm_compute; reflexivity|]. by apply H5.
Defined.

(** X6 on the fresh ledger: a batch of two mints tokens 1 and 2. *)
Lemma batch_mint_shape_witness :
  let s := Ledger.initial_state 1 in
  let s' := fst (Ledger.apply_call digest (env_of 1 1000)
                   (Ledger.BatchMintCredentials batch_of_two) s) in
  Ledger.totalSupply s' = 2 ∧ Ledger._ownerOf s' 1 = 5 ∧ Ledger._ownerOf s' 2 = 6.
Proof.
  pose proof (batch_mint_shape digest (env_of 1 1000) batch_of_two (Ledger.initial_state 1)
                None
                (fst (Ledger.apply_call digest (env_of 1 1000)
                        (Ledger.BatchMintCredentials batch_of_two)
                        (Ledger.initial_state 1)))) as H.
  cbv zeta in H. specialize (H ltac:(vm_compute; reflexivity)).
  destruct H as [_ H]. specialize (H ltac:(vm_compute; reflexivity)).
  destruct H as [H1 H2].
  split; [exact H1|]. split.
  - exact (H2 0%nat 5 eq_refl).
  - exact (H2 1%nat 6 eq_refl).
Defined.

(** X7 on the fresh ledger: token 1 appears through the deployer's mint. *)
Lemma tokens_created_only_by_issuers_witness :
  Ledger.is_mint mint_c1_s1 = true ∧
  Ledger.hasRole Ledger.ISSUER_ROLE (Ledger.msg_sender (env_of 1 1000))
    (Ledger.initial_state 1) = true ∧
  Ledger.paused (Ledger.initial_state 1) = false.
Proof.
  apply (tokens_created_only_by_issuers digest (env_of 1 1000) mint_c1_s1
           (Ledger.initial_state 1) 1);
    vm_compute; reflexivity.
Defined.

(** X8 on a run: holder 5 hands token 1 to holder 6. *)
Lemma transfer_moves_only_valid_credentials_witness :
  let s := Ledger.run digest [(env_of 1 1000, mint_c1_s1)] (Ledger.initial_state 1) in
  let s' := fst (Ledger.apply_call digest (env_of 5 1001) (Ledger.TransferFrom 5 6 1) s) in
  Ledger.verifyCredential (env_of 5 1001) 1 s = (true, "Credential is valid") ∧
  Ledger._ownerOf s 1 = 5 ∧
  Ledger._ownerOf s' 1 = 6 ∧
  Ledger.verifyCredential (env_of 5 1001) 1 s' = (true, "Credential is valid").
Proof.
  pose proof (transfer_moves_only_valid_credentials digest (env_of 5 1001)
                (Ledger.TransferFrom 5 6 1) 5 6 1
                (Ledger.run digest [(env_of 1 1000, mint_c1_s1)] (Ledger.initial_state 1))
                None
                (fst (Ledger.apply_call digest (env_of 5 1001) (Ledger.TransferFrom 5 6 1)
                        (Ledger.run digest [(env_of 1 1000, mint_c1_s1)]
                           (Ledger.initial_state 1))))) as H.
  specialize (H ltac:(left; reflexivity) ltac:(vm_compute; reflexivity)).
  destruct H as (H1 & H2 & _ & H4 & _ & _ & H7 & _). by repeat split.
Defined.

(** X9 on a run: the deployer, a verifier, marks token 1 as not verified;
    [verifyCredential] still accepts it. *)
Lemma verification_flag_not_consulted_witness :
  let s := Ledger.run digest [(env_of 1 1000, mint_c1_s1)] (Ledger.initial_state 1) in
  let s' := fst (Ledger.apply_call digest (env_of 1 1001)
                   (Ledger.SetCredentialVerification 1 false "disputed") s) in
  Ledger.isVerified (Ledger.credential_at s' 1) = false ∧
  Ledger.verifyCredential (env_of 9 2000) 1 s' = (true, "Credential is valid").
Proof.
  pose proof (verification_flag_not_consulted digest (env_of 1 1001) 1 false "disputed"
                (Ledger.run digest [(env_of 1 1000, mint_c1_s1)] (Ledger.initial_state 1))
                None
                (fst (Ledger.apply_call digest (env_of 1 1001)
                        (Ledger.SetCredentialVerification 1 false "disputed")
                        (Ledger.run digest [(env_of 1 1000, mint_c1_s1)]
                           (Ledger.initial_state 1))))) as H.
  specialize (H ltac:(vm_compute; reflexivity)).
  destruct H as (_ & _ & H3 & H4). split; [exact H3|].
  cbv zeta. rewrite H4. vm_compute. reflexivity.
Defined.

(** X10 on the fresh ledger: with the emergency flag raised the deployer
    still mints token 1. *)
Lemma emergency_pause_stops_nothing_witness :
  let flagged := fst (Ledger.apply_call digest (env_of 1 1000)
                        (Ledger.SetEmergencyPause true) (Ledger.initial_state 1)) in
  Ledger.isPaused flagged = true ∧
  snd (Ledger.apply_call digest (env_of 1 1001) mint_c1_s1 flagged)
  = Ledger.Success (Some 1).
Proof.
  pose proof (emergency_pause_stops_nothing digest (env_of 1 1000) (env_of 1 1001)
                mint_c1_s1 (Ledger.initial_state 1)) as H.
  cbv zeta in H.
  specialize (H ltac:(vm_compute; reflexivity) ltac:(intros p; discriminate)).
  destruct H as [H1 H2]. split; [exact H1|].
  cbv zeta. rewrite H2. vm_compute. reflexivity.
Defined.

(** X11 on a run: holder 5 owns token 1 of one. *)
Lemma certificates_by_owner_exact_witness :
  let s := Ledger.run digest [(env_of 1 1000, mint_c1_s1)] (Ledger.initial_state 1) in
  ∃ l, Ledger.getCertificatesByOwner 5 s = Ledger.Ok l ∧ NoDup l ∧
       ∀ tokenId, tokenId ∈ l ↔
                  Ledger._exists s tokenId = true ∧ Ledger._ownerOf s tokenId = 5.
Proof.
  apply (certificates_by_owner_exact digest 1 [(env_of 1 1000, mint_c1_s1)] 5).
  vm_compute. reflexivity.
Defined.

(** X19 on a run: token 1, valid until 2000, at time 3000 and later. *)
Lemma expiry_is_final_witness :
  let s := Ledger.run digest [(env_of 1 1000, mint_until_2000)] (Ledger.initial_state 1) in
  let s' := Ledger.run digest [(env_of 5 3001, Ledger.Burn 1)] s in
  Ledger._exists s' 1 = true ∧
  Ledger._ownerOf s' 1 = Ledger._ownerOf s 1 ∧
  Ledger.isCredentialExpired (env_of 9 4000) 1 s' = true ∧
  fst (Ledger.verifyCredential (env_of 9 4000) 1 s') = false.
Proof.
  pose proof (expiry_is_final digest (env_of 5 3000) 1
                (Ledger.run digest [(env_of 1 1000, mint_until_2000)]
                   (Ledger.initial_state 1))
                [(env_of 5 3001, Ledger.Burn 1)] (env_of 9 4000)) as H.
  cbv zeta in H.
  specialize (H ltac:(vm_compute; reflexivity) ltac:(vm_compute; reflexivity)).
  specialize (H ltac:(repeat constructor; vm_compute; discriminate)
                ltac:(vm_compute; discriminate)).
  destruct H as (H1 & H2 & H3 & H4 & _). by repeat split.
Defined.

(** X20 on a run of one mint. *)
Lemma credential_stats_consistent_witness :
  let s := Ledger.run digest [(env_of 1 1000, mint_c1_s1)] (Ledger.initial_state 1) in
  ∃ revoked soulbound expired,
    Ledger.getCredentialStats (env_of 9 2000) s
    = Ledger.Ok (Ledger.totalSupply s, revoked, soulbound, expired) ∧
    (revoked + soulbound <= Ledger.totalSupply s)%N ∧
    (expired <= Ledger.totalSupply s)%N.
Proof.
  apply (credential_stats_consistent digest 1 [(env_of 1 1000, mint_c1_s1)] (env_of 9 2000)).
  vm_compute. reflexivity.
Defined.

(** *** Further runs of the adapter *)

(** X12 on the sample node, whose receipt holds the contract's own event
    "CredentialMinted". *)
Lemma mint_mined_but_reported_failed_witness :
  fst (Adapter.mintCertificate sha service mint_request [])
  = JS.Throw (JS.Error
      "Failed to mint certificate: CertificateMinted event not found in transaction receipt") ∧
  ∃ call gasLimit,
    Adapter.gas_with_buffer (Adapter.GasNumber 100000) = JS.Normal gasLimit ∧
    snd (Adapter.mintCertificate sha service mint_request [])
    = [Adapter.EstimateGas call; Adapter.SendTransaction call (Some gasLimit);
       Adapter.WaitForReceipt "0xtx"].
Proof.
  apply (mint_mined_but_reported_failed sha service mint_request 100000 "0xtx" receipt);
    try reflexivity.
  intros l Hl. cbn in Hl. apply list_elem_of_singleton in Hl as ->. discriminate.
Defined.

(** X21 on the sample node: the request under another name puts the same
    events on the wire and ends the same way. *)
Lemma mint_call_independent_of_identity_witness :
  Adapter.mintCertificate sha service mint_request []
  = Adapter.mintCertificate sha service mint_request_renamed [].
Proof.
  apply (mint_call_independent_of_identity sha service mint_request mint_request_renamed []);
    reflexivity.
Defined.

(** *** Further runs of the controller *)

(** X15 on the sample store: Bob, a stranger to token 7, gets the notice
    and the ledger data, IPFS metadata included; Alice gets her record. *)
Lemma getCertificate_filters_by_caller_witness :
  let stranger := fst (Controller.getCertificate lookup (Some bob) "7"
                         world_with_certificate) in
  let owner := fst (Controller.getCertificate lookup (Some alice) "7"
                      world_with_certificate) in
  Controller.json_at ["data"; "message"] (Controller.body stranger)
  = Some (Controller.JStr
      "Sensitive personal information can only be viewed by the certificate owner.") ∧
  Controller.json_at ["data"; "studentEmail"] (Controller.body stranger) = None ∧
  Controller.json_at ["data"; "metadata"; "studentEmail"] (Controller.body stranger)
  = Some (Controller.JStr "alice@example.com") ∧
  Controller.json_at ["data"; "studentEmail"] (Controller.body owner)
  = Some (Controller.JStr "alice@example.com").
Proof.
  pose proof (getCertificate_filters_by_caller lookup (Some bob) "7" world_with_certificate
                ledger_data7 certificate7 eq_refl eq_refl) as (_ & _ & Hmsg & _).
  pose proof (getCertificate_filters_by_caller lookup (Some alice) "7" world_with_certificate
                ledger_data7 certificate7 eq_refl eq_refl) as (_ & _ & _ & Hmail & _).
  split; [exact Hmsg|]. split; [reflexivity|]. split; [reflexivity|exact Hmail].
Defined.

(** X16 on the sample store: Alice asks twice for the certificate of
    enrollment [e1]. *)
Lemma second_mint_is_refused_witness :
  let w' := snd (Controller.mintCertificate sha services alice "e1" world) in
  Controller.mintCertificate sha services alice "e1" w'
  = (Controller.failure 400 "Certificate already minted", w').
Proof.
  apply (second_mint_is_refused sha services alice "e1" world completed_enrollment alice
           basics "QmMeta" mint_result services);
    vm_compute; reflexivity.
Defined.

(** X22 on the sample store: the anonymous request for token 7, valid on
    the sample node, is answered as not valid. *)
Lemma verify_endpoint_needs_owner_address_witness :
  let response := fst (Controller.verifyCertificate service anonymous_verify world) in
  Controller.json_at ["data"; "verification"; "isValid"] (Controller.body response)
  = Some (Controller.JBool false) ∧
  Controller.json_at ["data"; "verification"; "isVerified"] (Controller.body response)
  = Some (Controller.JBool false) ∧
  Controller.json_at ["data"; "verification"; "blockchainVerified"]
    (Controller.body response) = Some (Controller.JBool false).
Proof.
  destruct (verify_endpoint_needs_owner_address service anonymous_verify world) as [H _].
  apply H; reflexivity.
Defined.

End ConcreteRuns.
